(** * Funding-round deduplication (src/deduplicator_v2.py): a shallow embedding

    The development follows the Python sources:
    - [src/database/models.py]      : the rows [FundingRound], [Company],
                                       [ProcessingStatus];
    - [src/database/db_manager.py]  : [get_processing_status],
                                       [update_stage4_status], [mark_as_duplicate];
    - [src/deduplicator_v2.py]      : class [DeduplicatorV2].

    Further modules cover the code around it: the queries, the reset,
    [get_or_create_company], [add_source] and [log_llm_usage] of
    [db_manager.py]; [run_stage1] of [run_pipeline_v2.py]; the rotation
    of user agents of [src/sec_collector_v2.py]; and [resolve_env_vars]
    of [models.py].

    Python values are modelled as follows.
    - [int] primary keys and day counts are [Z]; lengths and counters are [nat].
    - [float] is IEEE binary64, i.e. Rocq's primitive [float]; [max], [min],
      [abs], [/], [<=] and truthiness are the Python ones, NaN included.
    - [str] is [string]; the text model covers the ASCII range, on which
      [lower] and [strip] below agree with Python's.
    - [Optional[T]] is [option T]; [None] and the empty or zero value are the
      falsy values.
    - A SQLAlchemy session is the list of the rows of each table, in the
      order in which an unordered query returns them. *)

From Stdlib Require Import ZArith List Bool Lia Ascii String.
From Stdlib Require Import Floats.
From Stdlib Require Import DecimalString.
Import ListNotations.

Local Open Scope string_scope.
Local Open Scope Z_scope.

(* ================================================================== *)
(** ** Python strings *)

Module PyStr.

(** [str.lower] on ASCII text. *)
Definition lower_char (c : ascii) : ascii :=
  let n := nat_of_ascii c in
  if (Nat.leb 65 n && Nat.leb n 90)%bool then ascii_of_nat (n + 32) else c.

Fixpoint lower (s : string) : string :=
  match s with
  | EmptyString => EmptyString
  | String c s' => String (lower_char c) (lower s')
  end.

(** [str.isspace] on one ASCII character: TAB, LF, VT, FF, CR, the four
    separators 0x1c-0x1f and the space. *)
Definition is_space (c : ascii) : bool :=
  let n := nat_of_ascii c in
  (Nat.leb 9 n && Nat.leb n 13) || (Nat.leb 28 n && Nat.leb n 32).

Fixpoint lstrip (s : string) : string :=
  match s with
  | EmptyString => EmptyString
  | String c s' => if is_space c then lstrip s' else s
  end.

Fixpoint rstrip (s : string) : string :=
  match s with
  | EmptyString => EmptyString
  | String c s' =>
      match rstrip s' with
      | EmptyString => if is_space c then EmptyString else String c EmptyString
      | t => String c t
      end
  end.

(** [str.strip()] with no argument. *)
Definition strip (s : string) : string := rstrip (lstrip s).

(** [k in s] for two strings: [k] occurs in [s] as a substring. *)
Fixpoint contains (k s : string) : bool :=
  if String.prefix k s then true
  else match s with
       | EmptyString => false
       | String _ s' => contains k s'
       end.

(** Truthiness of a [str]. *)
Definition truthy (s : string) : bool := negb (String.eqb s "").

End PyStr.

(* ================================================================== *)
(** ** Python floats *)

Module PyFloat.

(** [bool(x)]: every float except the two zeros is truthy (NaN is). *)
Definition truthy (x : float) : bool := negb (PrimFloat.eqb x 0%float).

(** [max(a, b)]: the builtin keeps its first argument unless the second
    compares greater ([b > a]); [min] likewise with [b < a]. *)
Definition max (a b : float) : float := if PrimFloat.ltb a b then b else a.
Definition min (a b : float) : float := if PrimFloat.ltb b a then b else a.

Definition is_nan (x : float) : bool := negb (PrimFloat.eqb x x).

(** [int / int] and [float(n)] for a counter [n] (exact below 2^53). *)
Definition of_nat (n : nat) : float :=
  PrimFloat.of_uint63 (Uint63.of_Z (Z.of_nat n)).

End PyFloat.

(* ================================================================== *)
(** ** [datetime]: the part used by [parse_date] and [dates_are_close] *)

Module PyDatetime.

(** A [datetime] built by [strptime] from a format without time
    directives: the time of day is midnight, so only the date is kept. *)
Record datetime : Set := mkDatetime { year : Z; month : Z; day : Z }.

Definition is_leap (y : Z) : bool :=
  (y mod 4 =? 0) && (negb (y mod 100 =? 0) || (y mod 400 =? 0)).

Definition DAYS_IN_MONTH : list Z :=
  [-1; 31; 28; 31; 30; 31; 30; 31; 31; 30; 31; 30; 31].

Definition DAYS_BEFORE_MONTH : list Z :=
  [-1; 0; 31; 59; 90; 120; 151; 181; 212; 243; 273; 304; 334].

Definition days_in_month (y m : Z) : Z :=
  if (m =? 2) && is_leap y then 29 else nth (Z.to_nat m) DAYS_IN_MONTH 0.

Definition days_before_year (y : Z) : Z :=
  let y := y - 1 in y * 365 + y / 4 - y / 100 + y / 400.

Definition days_before_month (y m : Z) : Z :=
  nth (Z.to_nat m) DAYS_BEFORE_MONTH 0
  + (if (2 <? m) && is_leap y then 1 else 0).

(** [datetime.toordinal()]: 1 is January 1st of year 1. *)
Definition toordinal (dt : datetime) : Z :=
  days_before_year (year dt) + days_before_month (year dt) (month dt) + day dt.

(** The constructor raises [ValueError] outside these ranges. *)
Definition make_datetime (y m d : Z) : option datetime :=
  if (1 <=? y) && (y <=? 9999) && (1 <=? m) && (m <=? 12)
     && (1 <=? d) && (d <=? days_in_month y m)
  then Some (mkDatetime y m d) else None.

(** [(dt1 - dt2).days] for two midnights. *)
Definition sub_days (dt1 dt2 : datetime) : Z := toordinal dt1 - toordinal dt2.

(** *** [strptime]

    [_strptime] turns the format into a regular expression, one group per
    directive, matches it at the start of the text and refuses text that
    is left over.  A directive is read as the list of its alternatives in
    the order the regular expression tries them; the head of the list of
    complete matches is the match the backtracking engine returns.  The
    class [\d] is read on ASCII text, where it is the ten digits. *)

Inductive token : Set :=
| Dir_Y            (* %Y : \d\d\d\d *)
| Dir_m            (* %m : 1[0-2]|0[1-9]|[1-9] *)
| Dir_d            (* %d : 3[0-1]|[1-2]\d|0[1-9]|[1-9]| [1-9] *)
| Lit (c : ascii).

Definition digit (c : ascii) : option Z :=
  let n := nat_of_ascii c in
  if (Nat.leb 48 n && Nat.leb n 57)%bool then Some (Z.of_nat (n - 48)) else None.

Definition digit_in (lo hi : Z) (c : ascii) : option Z :=
  match digit c with
  | Some v => if (lo <=? v) && (v <=? hi) then Some v else None
  | None => None
  end.

(** One alternative made of two character classes, or of one. *)
Definition two (lo1 hi1 lo2 hi2 : Z) (s : string) : list (Z * string) :=
  match s with
  | String a (String b r) =>
      match digit_in lo1 hi1 a, digit_in lo2 hi2 b with
      | Some x, Some y => [(10 * x + y, r)]
      | _, _ => []
      end
  | _ => []
  end.

Definition one (lo hi : Z) (s : string) : list (Z * string) :=
  match s with
  | String a r =>
      match digit_in lo hi a with Some x => [(x, r)] | None => [] end
  | _ => []
  end.

Definition space_one (lo hi : Z) (s : string) : list (Z * string) :=
  match s with
  | String a r => if Ascii.eqb a " " then one lo hi r else []
  | _ => []
  end.

Definition re_Y (s : string) : list (Z * string) :=
  match s with
  | String a (String b (String c (String d r))) =>
      match digit a, digit b, digit c, digit d with
      | Some x, Some y, Some z, Some w =>
          [(1000 * x + 100 * y + 10 * z + w, r)]
      | _, _, _, _ => []
      end
  | _ => []
  end.

Definition re_m (s : string) : list (Z * string) :=
  two 1 1 0 2 s ++ two 0 0 1 9 s ++ one 1 9 s.

Definition re_d (s : string) : list (Z * string) :=
  two 3 3 0 1 s ++ two 1 2 0 9 s ++ two 0 0 1 9 s ++ one 1 9 s
  ++ space_one 1 9 s.

(** The groups found so far. *)
Record groups : Set := mkGroups { gY : option Z; gm : option Z; gd : option Z }.

Definition no_groups : groups := mkGroups None None None.

Fixpoint re_match (fmt : list token) (g : groups) (s : string)
  : list (groups * string) :=
  match fmt with
  | [] => [(g, s)]
  | Dir_Y :: fmt' =>
      flat_map (fun '(v, r) => re_match fmt' (mkGroups (Some v) (gm g) (gd g)) r)
               (re_Y s)
  | Dir_m :: fmt' =>
      flat_map (fun '(v, r) => re_match fmt' (mkGroups (gY g) (Some v) (gd g)) r)
               (re_m s)
  | Dir_d :: fmt' =>
      flat_map (fun '(v, r) => re_match fmt' (mkGroups (gY g) (gm g) (Some v)) r)
               (re_d s)
  | Lit c :: fmt' =>
      match s with
      | String a r => if Ascii.eqb a c then re_match fmt' g r else []
      | EmptyString => []
      end
  end.

Definition default (d : Z) (o : option Z) : Z :=
  match o with Some v => v | None => d end.

(** [datetime.strptime(s, fmt)]; [None] stands for [ValueError]. *)
Definition strptime (s : string) (fmt : list token) : option datetime :=
  match re_match fmt no_groups s with
  | [] => None                               (* does not match format *)
  | (g, rest) :: _ =>
      if String.eqb rest "" then
        make_datetime (default 1900 (gY g)) (default 1 (gm g)) (default 1 (gd g))
      else None                              (* unconverted data remains *)
  end.

End PyDatetime.

(* ================================================================== *)
(** ** src/database/models.py *)

Module Models.

(** Table [companies]. *)
Record Company : Set := mkCompany {
  company_pk : Z;                                  (* id *)
  name : string
}.

(** Table [funding_rounds]; the columns that the deduplicator does not
    read (investors, source urls, notes, raw data, time stamps) carry no
    behaviour and are left out. *)
Record FundingRound : Set := mkFundingRound {
  id : Z;
  company_id : Z;
  round_name : option string;
  date : option string;
  amount_raised_usd : option float;
  pre_money_valuation_usd : option float;
  post_money_valuation_usd : option float;
  lead_investor : option string;
  source_type : string;
  confidence_score : string;
  is_duplicate : bool;
  duplicate_of_id : option Z
}.

(** Table [processing_status], stage 4 columns; [status_company_id] is
    the unique [company_id] column and time stamps are clock readings. *)
Record ProcessingStatus : Set := mkProcessingStatus {
  status_company_id : Z;
  stage4_merged : bool;
  stage4_completed_at : option Z;
  stage4_unique_rounds : nat
}.

(** [ProcessingStatus(company_id=...)] with the column defaults. *)
Definition new_status (cid : Z) : ProcessingStatus :=
  mkProcessingStatus cid false None 0.

(** The session: the rows of each table, in query order. *)
Record Session : Set := mkSession {
  companies : list Company;
  funding_rounds : list FundingRound;
  processing_status : list ProcessingStatus
}.

Definition with_rounds (s : Session) (l : list FundingRound) : Session :=
  mkSession (companies s) l (processing_status s).

Definition with_status (s : Session) (l : list ProcessingStatus) : Session :=
  mkSession (companies s) (funding_rounds s) l.

(** Primary keys of [funding_rounds] are pairwise distinct. *)
Definition unique_ids (s : Session) : Prop :=
  NoDup (map id (funding_rounds s)).

(** Every round's [company_id] is the key of a row of [companies]. *)
Definition foreign_keys_ok (s : Session) : Prop :=
  forall r, In r (funding_rounds s) ->
    exists c, In c (companies s) /\ company_pk c = company_id r.

End Models.

(* ================================================================== *)
(** ** src/database/db_manager.py *)

Module DatabaseManager.
Import Models.

(** [query(ProcessingStatus).filter_by(company_id=cid).first()]. *)
Definition find_status (l : list ProcessingStatus) (cid : Z)
  : option ProcessingStatus :=
  find (fun st => status_company_id st =? cid) l.

(** [get_processing_status]: the row of the company, added to the table
    with its defaults when there is none. *)
Definition get_processing_status (s : Session) (cid : Z)
  : Session * ProcessingStatus :=
  match find_status (processing_status s) cid with
  | Some st => (s, st)
  | None =>
      let st := new_status cid in
      (with_status s (processing_status s ++ [st])%list, st)
  end.

(** Assignment to the attributes of the row that [find_status] returns. *)
Fixpoint update_status (l : list ProcessingStatus) (cid : Z)
         (f : ProcessingStatus -> ProcessingStatus) : list ProcessingStatus :=
  match l with
  | [] => []
  | st :: l' =>
      if status_company_id st =? cid then f st :: l'
      else st :: update_status l' cid f
  end.

(** [update_stage4_status(session, company_id, unique_rounds, completed)];
    [now] is the reading of [datetime.utcnow()]. *)
Definition update_stage4_status (now : Z) (s : Session) (cid : Z)
           (unique_rounds : nat) (completed : bool) : Session :=
  let '(s1, _) := get_processing_status s cid in
  with_status s1
    (update_status (processing_status s1) cid
       (fun st => mkProcessingStatus (status_company_id st) completed
                    (if completed then Some now else None) unique_rounds)).

(** [session.query(FundingRound).get(round_id)]. *)
Definition get_round (l : list FundingRound) (rid : Z) : option FundingRound :=
  find (fun r => id r =? rid) l.

Definition set_duplicate (r : FundingRound) (original : Z) : FundingRound :=
  mkFundingRound (id r) (company_id r) (round_name r) (date r)
    (amount_raised_usd r) (pre_money_valuation_usd r)
    (post_money_valuation_usd r) (lead_investor r) (source_type r)
    (confidence_score r) true (Some original).

(** Assignment to the attributes of the row that [get_round] returns. *)
Fixpoint update_round (l : list FundingRound) (rid : Z)
         (f : FundingRound -> FundingRound) : list FundingRound :=
  match l with
  | [] => []
  | r :: l' =>
      if id r =? rid then f r :: l' else r :: update_round l' rid f
  end.

(** [mark_as_duplicate(session, duplicate_round_id, original_round_id)]. *)
Definition mark_as_duplicate (s : Session) (duplicate_round_id original_round_id : Z)
  : Session :=
  match get_round (funding_rounds s) duplicate_round_id with
  | Some _ =>
      with_rounds s
        (update_round (funding_rounds s) duplicate_round_id
           (fun r => set_duplicate r original_round_id))
  | None => s
  end.

End DatabaseManager.

(* ================================================================== *)
(** ** src/deduplicator_v2.py *)

Module DeduplicatorV2.
Import Models DatabaseManager PyDatetime.

(** The [deduplication] section of the configuration dictionary; a key
    that is absent is [None]. *)
Record DedupConfig : Set := mkDedupConfig {
  cfg_date_proximity_days : option Z;
  cfg_amount_similarity_threshold : option float;
  cfg_enable_fuzzy_matching : option bool
}.

Record Config : Set := mkConfig { deduplication : option DedupConfig }.

(** The attributes that [__init__] sets. *)
Record t : Set := mkDeduplicator {
  date_proximity_days : Z;
  amount_similarity_threshold : float;
  enable_fuzzy_matching : bool
}.

Definition get {A} (o : option A) (d : A) : A :=
  match o with Some v => v | None => d end.

(** The literal [0.10]: the binary64 number nearest to one tenth. *)
Definition default_threshold : float := 0x1.999999999999ap-4%float.

Definition init (config : Config) : t :=
  let dedup_config := get (deduplication config) (mkDedupConfig None None None) in
  mkDeduplicator
    (get (cfg_date_proximity_days dedup_config) 90)
    (get (cfg_amount_similarity_threshold dedup_config) default_threshold)
    (get (cfg_enable_fuzzy_matching dedup_config) true).

Definition formats : list (list token) :=
  [ [Dir_Y; Lit "-"; Dir_m; Lit "-"; Dir_d];      (* '%Y-%m-%d' *)
    [Dir_Y; Lit "-"; Dir_m];                      (* '%Y-%m'    *)
    [Dir_Y];                                      (* '%Y'       *)
    [Dir_m; Lit "/"; Dir_d; Lit "/"; Dir_Y];      (* '%m/%d/%Y' *)
    [Dir_d; Lit "/"; Dir_m; Lit "/"; Dir_Y] ].    (* '%d/%m/%Y' *)

(** The [for fmt in formats: try ... except: continue] loop. *)
Fixpoint try_formats (s : string) (fmts : list (list token)) : option datetime :=
  match fmts with
  | [] => None
  | fmt :: rest =>
      match strptime s fmt with
      | Some dt => Some dt
      | None => try_formats s rest
      end
  end.

Definition parse_date (date_str : option string) : option datetime :=
  match date_str with
  | None => None
  | Some s => if PyStr.truthy s then try_formats s formats else None
  end.

Definition dates_are_close (self : t) (date1 date2 : option string) : bool :=
  match parse_date date1, parse_date date2 with
  | Some dt1, Some dt2 =>
      let diff_days := Z.abs (sub_days dt1 dt2) in
      diff_days <=? date_proximity_days self
  | _, _ => false
  end.

Definition amounts_are_similar (self : t) (amount1 amount2 : option float) : bool :=
  match amount1, amount2 with
  | Some a1, Some a2 =>
      if negb (PyFloat.truthy a1) || negb (PyFloat.truthy a2) then false
      else
        let larger := PyFloat.max a1 a2 in
        let smaller := PyFloat.min a1 a2 in
        if PrimFloat.eqb larger 0%float then PrimFloat.eqb smaller 0%float
        else
          let diff_percent := (PrimFloat.abs (larger - smaller) / larger)%float in
          PrimFloat.leb diff_percent (amount_similarity_threshold self)
  | _, _ => false
  end.

Definition series_keywords : list string :=
  ["seed"; "series a"; "series b"; "series c"; "series d";
   "series e"; "series f"; "series g"; "series h"]%string.

Definition round_names_match (name1 name2 : option string) : bool :=
  match name1, name2 with
  | Some n1, Some n2 =>
      if negb (PyStr.truthy n1) || negb (PyStr.truthy n2) then false
      else
        let name1_norm := PyStr.strip (PyStr.lower n1) in
        let name2_norm := PyStr.strip (PyStr.lower n2) in
        if String.eqb name1_norm name2_norm then true
        else
          existsb (fun keyword =>
                     PyStr.contains keyword name1_norm
                     && PyStr.contains keyword name2_norm)
                  series_keywords
  | _, _ => false
  end.

Definition are_duplicates (self : t) (round1 round2 : FundingRound) : bool :=
  if negb (company_id round1 =? company_id round2) then false
  else
    let dates_close := dates_are_close self (date round1) (date round2) in
    if negb dates_close then false
    else
      let amounts_similar :=
        amounts_are_similar self (amount_raised_usd round1) (amount_raised_usd round2) in
      let names_match := round_names_match (round_name round1) (round_name round2) in
      amounts_similar || names_match.

Definition opt_float_truthy (o : option float) : bool :=
  match o with Some x => PyFloat.truthy x | None => false end.

Definition opt_str_truthy (o : option string) : bool :=
  match o with Some x => PyStr.truthy x | None => false end.

(** [sum([bool(amount), bool(pre_money), bool(post_money), bool(lead)])]. *)
Definition completeness (r : FundingRound) : nat :=
  (Nat.b2n (opt_float_truthy (amount_raised_usd r))
   + Nat.b2n (opt_float_truthy (pre_money_valuation_usd r))
   + Nat.b2n (opt_float_truthy (post_money_valuation_usd r))
   + Nat.b2n (opt_str_truthy (lead_investor r)))%nat.

Definition is_high (r : FundingRound) : bool :=
  String.eqb (confidence_score r) "HIGH".

(** The body of the inner loop of [deduplicate_company] for the pair
    [(round1, round2)]; the accumulator is the session together with
    [duplicates_found]. *)
Definition compare_pair (self : t) (round1 round2 : FundingRound)
           (acc : Session * nat) : Session * nat :=
  let '(session, duplicates_found) := acc in
  if are_duplicates self round1 round2 then
    if is_high round1 && negb (is_high round2) then
      (mark_as_duplicate session (id round2) (id round1), S duplicates_found)
    else if is_high round2 && negb (is_high round1) then
      (mark_as_duplicate session (id round1) (id round2), S duplicates_found)
    else
      let round1_completeness := completeness round1 in
      let round2_completeness := completeness round2 in
      if Nat.leb round2_completeness round1_completeness then
        (mark_as_duplicate session (id round2) (id round1), S duplicates_found)
      else
        (mark_as_duplicate session (id round1) (id round2), S duplicates_found)
  else acc.

(** [rounds[i]] and [rounds[j]] for indices that the two [range]s
    produce, which are always within the list. *)
Definition compare_at (self : t) (rounds : list FundingRound) (i j : nat)
           (acc : Session * nat) : Session * nat :=
  match nth_error rounds i, nth_error rounds j with
  | Some round1, Some round2 => compare_pair self round1 round2 acc
  | _, _ => acc
  end.

(** [for i in range(len(rounds)): for j in range(i + 1, len(rounds))].

    [rounds] is the list loaded before the loop.  The loop body reads
    from its elements only columns that [mark_as_duplicate] never
    assigns, so the values loaded are the values the body sees. *)
Definition pair_loop (self : t) (rounds : list FundingRound)
           (acc : Session * nat) : Session * nat :=
  let n := List.length rounds in
  fold_left
    (fun acc i =>
       fold_left (fun acc j => compare_at self rounds i j acc)
                 (seq (i + 1) (n - (i + 1))) acc)
    (seq 0 n) acc.

(** [query(FundingRound).filter_by(company_id=cid, is_duplicate=False)]. *)
Definition company_rounds (s : Session) (cid : Z) : list FundingRound :=
  filter (fun r => (company_id r =? cid) && negb (is_duplicate r))
         (funding_rounds s).

(** [deduplicate_company(session, company)]; the result is the session
    after the call and the value returned. *)
Definition deduplicate_company (self : t) (now : Z) (session : Session)
           (company : Company) : Session * nat :=
  let '(s1, status) := get_processing_status session (company_pk company) in
  if stage4_merged status then (s1, 0%nat)
  else
    let rounds := company_rounds s1 (company_pk company) in
    if Nat.leb (List.length rounds) 1 then
      (update_stage4_status now s1 (company_pk company) (List.length rounds) true,
       0%nat)
    else
      let '(s2, duplicates_found) := pair_loop self rounds (s1, 0%nat) in
      let unique_rounds := List.length (company_rounds s2 (company_pk company)) in
      (update_stage4_status now s2 (company_pk company) unique_rounds true,
       duplicates_found).

(** The dictionary that [deduplicate_all] returns. *)
Record Stats : Set := mkStats {
  total_companies : nat;
  total_rounds : nat;
  unique_rounds : nat;
  duplicates_removed : nat;
  deduplication_rate : float
}.

(** [query(FundingRound.company_id).distinct()], each value at its
    first occurrence. *)
Fixpoint distinct (l : list Z) : list Z :=
  match l with
  | [] => []
  | x :: l' => x :: filter (fun y => negb (y =? x)) (distinct l')
  end.

(** [query(FundingRound).filter_by(company_id=cid).first().company];
    [None] when the relationship resolves to no row, in which case
    [deduplicate_company] raises on [company.name]. *)
Definition first_round_company (s : Session) (cid : Z) : option Company :=
  match find (fun r => company_id r =? cid) (funding_rounds s) with
  | Some r => find (fun c => company_pk c =? company_id r) (companies s)
  | None => None
  end.

(** The [for i, (company_id,) in enumerate(companies, 1)] loop; [now i]
    is the clock reading during iteration [i]. *)
Fixpoint dedup_loop (self : t) (now : nat -> Z) (i : nat) (cids : list Z)
         (session : Session) (total_duplicates : nat) : option (Session * nat) :=
  match cids with
  | [] => Some (session, total_duplicates)
  | cid :: rest =>
      match first_round_company session cid with
      | None => None
      | Some company =>
          let '(s1, duplicates) := deduplicate_company self (now i) session company in
          dedup_loop self now (S i) rest s1 (total_duplicates + duplicates)
      end
  end.

Definition count_unique (s : Session) : nat :=
  List.length (filter (fun r => negb (is_duplicate r)) (funding_rounds s)).

(** [(total_duplicates / total_rounds * 100) if total_rounds > 0 else 0]. *)
Definition rate (total_duplicates total_rounds : nat) : float :=
  if Nat.ltb 0 total_rounds then
    (PyFloat.of_nat total_duplicates / PyFloat.of_nat total_rounds * 100)%float
  else 0%float.

Definition deduplicate_all (self : t) (now : nat -> Z) (session : Session)
  : option (Session * Stats) :=
  let companies := distinct (map company_id (funding_rounds session)) in
  let total_companies := List.length companies in
  match dedup_loop self now 1 companies session 0 with
  | None => None
  | Some (s1, total_duplicates) =>
      let total_rounds := List.length (funding_rounds s1) in
      let unique_rounds := count_unique s1 in
      Some (s1, mkStats total_companies total_rounds unique_rounds
                  total_duplicates (rate total_duplicates total_rounds))
  end.

End DeduplicatorV2.

(* ================================================================== *)
(** ** The properties in the words of the specification *)

Module Spec.
Import Models DatabaseManager PyDatetime DeduplicatorV2.

(** *** Dates *)

(** The five accepted formats, in the order in which they are tried. *)
Inductive date_format : Set :=
| Full_date          (* YYYY-MM-DD *)
| Year_month         (* YYYY-MM *)
| Year_only          (* YYYY *)
| Month_day_year     (* MM/DD/YYYY *)
| Day_month_year.    (* DD/MM/YYYY *)

Definition accepted_formats : list date_format :=
  [Full_date; Year_month; Year_only; Month_day_year; Day_month_year].

(** The fields of a format and the characters between them. *)
Definition fields (f : date_format) : list token :=
  match f with
  | Full_date => [Dir_Y; Lit "-"; Dir_m; Lit "-"; Dir_d]
  | Year_month => [Dir_Y; Lit "-"; Dir_m]
  | Year_only => [Dir_Y]
  | Month_day_year => [Dir_m; Lit "/"; Dir_d; Lit "/"; Dir_Y]
  | Day_month_year => [Dir_d; Lit "/"; Dir_m; Lit "/"; Dir_Y]
  end.

(** [s] is read by the first of the accepted formats, tried in order,
    that accepts it. *)
Definition parses_as (s : string) (dt : datetime) : Prop :=
  s <> ""%string /\
  exists before f after,
    accepted_formats = (before ++ f :: after)%list
    /\ strptime s (fields f) = Some dt
    /\ forall f', In f' before -> strptime s (fields f') = None.

(** The calendar, counted day by day: a year divisible by 4 is a leap
    year, except a century that 400 does not divide. *)
Definition leap_year (y : Z) : bool :=
  if y mod 400 =? 0 then true
  else if y mod 100 =? 0 then false
  else y mod 4 =? 0.

Definition year_length (y : Z) : Z := if leap_year y then 366 else 365.

Definition month_length (y m : Z) : Z :=
  match m with
  | 1 | 3 | 5 | 7 | 8 | 10 | 12 => 31
  | 4 | 6 | 9 | 11 => 30
  | 2 => if leap_year y then 29 else 28
  | _ => 0
  end.

(** The days of the years 1 to [n], and of the months 1 to [n] of the
    year [y]. *)
Fixpoint days_of_years (n : nat) : Z :=
  match n with
  | O => 0
  | S k => days_of_years k + year_length (Z.of_nat (S k))
  end.

Fixpoint days_of_months (y : Z) (n : nat) : Z :=
  match n with
  | O => 0
  | S k => days_of_months y k + month_length y (Z.of_nat (S k))
  end.

(** The number of a day, counted from 0001-01-01 as day 1. *)
Definition day_number (dt : datetime) : Z :=
  days_of_years (Z.to_nat (year dt - 1))
  + days_of_months (year dt) (Z.to_nat (month dt - 1))
  + day dt.

Definition days_apart (dt1 dt2 : datetime) : Z :=
  Z.abs (day_number dt1 - day_number dt2).

(** Year [y], month [m] and day [d] name a day of the calendar. *)
Definition calendar_day (y m d : Z) : bool :=
  (1 <=? y) && (1 <=? m) && (m <=? 12) && (1 <=? d) && (d <=? month_length y m).


(** *** Amounts *)

(** The larger and the smaller of two amounts: the second one when it
    is the greater, respectively the lesser, and the first one
    otherwise. *)
Definition larger (a1 a2 : float) : float :=
  if PrimFloat.ltb a1 a2 then a2 else a1.

Definition smaller (a1 a2 : float) : float :=
  if PrimFloat.ltb a2 a1 then a2 else a1.


(** *** Round labels *)












(** *** The merge rule *)

(** The confidence tier of the record is HIGH. *)
Definition tier_high (r : FundingRound) : bool :=
  String.eqb (confidence_score r) "HIGH".

(** A number that is present and not zero; a text that is present and
    not empty. *)
Definition populated_number (x : option float) : bool :=
  match x with
  | Some v => negb (PrimFloat.eqb v 0%float)
  | None => false
  end.

Definition populated_text (x : option string) : bool :=
  match x with
  | Some EmptyString => false
  | Some _ => true
  | None => false
  end.

(** The completeness score: how many of amount raised, pre-money
    valuation, post-money valuation and lead investor are populated. *)
Definition completeness_score (r : FundingRound) : nat :=
  List.length
    (filter (fun populated : bool => populated)
       [populated_number (amount_raised_usd r);
        populated_number (pre_money_valuation_usd r);
        populated_number (post_money_valuation_usd r);
        populated_text (lead_investor r)]).

(** Of a duplicate pair [(A, B)], [A] the earlier record: the survivor
    is the one of tier HIGH when exactly one is, else the one of the
    higher score, and [A] on a tie; the loser is the other one. *)
Definition survivor (A B : FundingRound) : FundingRound :=
  if tier_high A && negb (tier_high B) then A
  else if tier_high B && negb (tier_high A) then B
  else if Nat.ltb (completeness_score A) (completeness_score B) then B
  else A.

Definition loser (A B : FundingRound) : FundingRound :=
  if tier_high A && negb (tier_high B) then B
  else if tier_high B && negb (tier_high A) then A
  else if Nat.ltb (completeness_score A) (completeness_score B) then A
  else B.

(** The pairs of a list in iteration order: each record with every
    later one, the earlier records first. *)
Fixpoint ordered_pairs (L : list FundingRound)
  : list (FundingRound * FundingRound) :=
  match L with
  | [] => []
  | A :: rest => (map (fun B => (A, B)) rest ++ ordered_pairs rest)%list
  end.

(** The pair is judged duplicate. *)
Definition judged (self : t) (p : FundingRound * FundingRound) : bool :=
  are_duplicates self (fst p) (snd p).

(** One pair under the rule: when it is judged duplicate, the loser is
    demoted to the survivor. *)
Definition merge (self : t) (s : Session) (p : FundingRound * FundingRound)
  : Session :=
  if judged self p
  then mark_as_duplicate s (id (loser (fst p) (snd p)))
                         (id (survivor (fst p) (snd p)))
  else s.

(** After a step from [s] to [s'], the row of [L] is flagged as a
    duplicate of [W] and the row of [W] is as it was. *)
Definition demoted (s s' : Session) (L W : FundingRound) : Prop :=
  exists l',
    get_round (funding_rounds s') (id L) = Some l'
    /\ is_duplicate l' = true
    /\ duplicate_of_id l' = Some (id W)
    /\ get_round (funding_rounds s') (id W) = get_round (funding_rounds s) (id W).

(** Every duplicate of company [cid] refers to a non-duplicate row of
    the same company. *)
Definition depth_one (s : Session) (cid : Z) : Prop :=
  forall r, In r (funding_rounds s) -> company_id r = cid ->
    is_duplicate r = true ->
    exists o, In o (funding_rounds s)
              /\ duplicate_of_id r = Some (id o)
              /\ company_id o = cid
              /\ is_duplicate o = false.

(** [r] leads to [w] along duplicate references, [w] not a duplicate. *)
Inductive resolves_to (s : Session) : FundingRound -> FundingRound -> Prop :=
| resolves_here : forall r,
    In r (funding_rounds s) -> is_duplicate r = false -> resolves_to s r r
| resolves_step : forall r o w,
    In r (funding_rounds s) -> is_duplicate r = true ->
    duplicate_of_id r = Some (id o) -> id o <> id r ->
    company_id o = company_id r ->
    resolves_to s o w -> resolves_to s r w.

(** The amount of the round is present and is NaN. *)
Definition amount_is_nan (r : FundingRound) : bool :=
  match amount_raised_usd r with
  | Some a => PyFloat.is_nan a
  | None => false
  end.

End Spec.

(* ================================================================== *)
(** ** Concrete records and sessions *)

Module Examples.
Import Models DeduplicatorV2.

(** The deduplicator built from an empty configuration. *)
Definition default_dedup : t := init (mkConfig None).

Definition round (rid cid : Z) (label d : string) (amount pre post : option float)
           (lead : option string) (confidence : string) : FundingRound :=
  mkFundingRound rid cid (Some label) (Some d) amount pre post lead
                 "WEB_SEARCH" confidence false None.

(** Two rounds of one company on the same day; the amount of the first
    is NaN, and the labels name different series. *)
Definition nan_round : FundingRound :=
  round 1 1 "Seed" "2021-05-01" (Some nan) None None None "MEDIUM".

Definition million_round : FundingRound :=
  round 2 1 "Series A" "2021-05-01" (Some 1000000%float) None None None "MEDIUM".

(** Company Acme: a filing record and a search record of one Series A. *)
Definition acme : Company := mkCompany 1 "Acme".

Definition acme_filing : FundingRound :=
  mkFundingRound 1 1 (Some "Series A"%string) (Some "2021-05-01"%string)
                 (Some 5000000%float) None None None "SEC_FORM_D" "HIGH" false None.

Definition acme_search : FundingRound :=
  round 2 1 "Series A" "2021-05-10" (Some 5100000%float)
        (Some 20000000%float) (Some 25100000%float) (Some "Lead Capital"%string)
        "MEDIUM".

Definition acme_session : Session :=
  mkSession [acme] [acme_filing; acme_search] [].

(** Company Gamma: three records of one Series A within three weeks,
    of equal confidence, with 2, 3 and 1 of the four detail columns
    filled. *)
Definition gamma : Company := mkCompany 7 "Gamma".

Definition gamma_1 : FundingRound :=
  round 11 7 "Series A" "2021-05-01" (Some 5000000%float)
        (Some 20000000%float) None None "MEDIUM".

Definition gamma_2 : FundingRound :=
  round 12 7 "Series A" "2021-05-10" (Some 5000000%float)
        (Some 20000000%float) (Some 25000000%float) None "MEDIUM".

Definition gamma_3 : FundingRound :=
  round 13 7 "Series A" "2021-05-20" (Some 5000000%float) None None None "MEDIUM".

Definition gamma_session : Session :=
  mkSession [gamma] [gamma_1; gamma_2; gamma_3] [].

(** Company Delta: three records of one Series B; the second and the
    third lie 120 days apart, each within 90 days of the first. *)
Definition delta : Company := mkCompany 9 "Delta".

Definition delta_1 : FundingRound :=
  round 21 9 "Series B" "2021-03-01" (Some 8000000%float)
        (Some 30000000%float) None None "MEDIUM".

Definition delta_2 : FundingRound :=
  round 22 9 "Series B" "2021-01-01" (Some 8000000%float) None None None "MEDIUM".

Definition delta_3 : FundingRound :=
  round 23 9 "Series B" "2021-05-01" (Some 8000000%float)
        (Some 30000000%float) (Some 38000000%float) None "MEDIUM".

Definition delta_session : Session :=
  mkSession [delta] [delta_1; delta_2; delta_3] [].

End Examples.

(* ================================================================== *)
(** ** Definitions used in the proofs *)

Module Aux.
Import Models DatabaseManager DeduplicatorV2.

(** The pairs of [pair_loop], by recursion on the list: the head against
    every later element, then the pairs of the tail. *)
Fixpoint pairs_from (self : t) (rounds : list FundingRound)
         (acc : Session * nat) : Session * nat :=
  match rounds with
  | [] => acc
  | round1 :: rest =>
      pairs_from self rest
        (fold_left (fun acc round2 => compare_pair self round1 round2 acc) rest acc)
  end.

(** Two rows that differ at most in the two duplicate columns. *)
Definition same_payload (a b : FundingRound) : Prop :=
  id a = id b /\ company_id a = company_id b.

(** The rows keep their keys and companies, and [companies] is as it
    was. *)
Definition preserved (s s' : Session) : Prop :=
  Forall2 same_payload (funding_rounds s) (funding_rounds s')
  /\ companies s' = companies s.

(** The merge rule as a number: HIGH confidence outweighs any
    completeness, which is at most 4. *)
Definition score (r : FundingRound) : nat :=
  ((if is_high r then 5 else 0) + completeness r)%nat.

(** The number of elements of [l] from the row with key [rid] on; zero
    when there is none.  Earlier rows have larger values. *)
Fixpoint pos (l : list FundingRound) (rid : Z) : nat :=
  match l with
  | [] => 0%nat
  | r :: l' => if id r =? rid then List.length l else pos l' rid
  end.

Definition score_of (l : list FundingRound) (rid : Z) : nat :=
  match get_round l rid with
  | Some r => score r
  | None => 0%nat
  end.

(** Rows of [l] ordered by score, then by position: the loser of every
    pair compared by [pair_loop] has a smaller rank than the winner. *)
Definition rank (l : list FundingRound) (rid : Z) : nat :=
  (score_of l rid * S (List.length l) + pos l rid)%nat.

(** An earlier record of [L] against a later one. *)
Definition in_order (L : list FundingRound) (round1 round2 : FundingRound) : Prop :=
  In round1 L /\ In round2 L /\ (pos L (id round2) < pos L (id round1))%nat.

(** The invariant of the loop over the records [L] of company [cid]:
    the rows [rs] are the rows [rs0] up to the duplicate columns, and
    every duplicate of the company refers to a record of [L] of larger
    rank. *)
Definition linked (L : list FundingRound) (cid : Z)
           (rs0 rs : list FundingRound) : Prop :=
  Forall2 same_payload rs0 rs
  /\ forall r, In r rs -> company_id r = cid -> is_duplicate r = true ->
       exists w, In w L /\ duplicate_of_id r = Some (id w)
                 /\ (rank L (id r) < rank L (id w))%nat.

(** The values that the successive calls of [deduplicate_company] in
    [dedup_loop] return. *)
Fixpoint company_counts (self : t) (now : nat -> Z) (i : nat) (cids : list Z)
         (session : Session) : list nat :=
  match cids with
  | [] => []
  | cid :: rest =>
      match first_round_company session cid with
      | None => []
      | Some company =>
          let '(s1, duplicates) := deduplicate_company self (now i) session company in
          duplicates :: company_counts self now (S i) rest s1
      end
  end.

End Aux.

(* ================================================================== *)
(** ** src/database/db_manager.py: queries and reset *)

Module Queries.
Import Models DatabaseManager.

(** [get_rounds_for_company(company_id, exclude_duplicates)]. *)
Definition get_rounds_for_company (s : Session) (cid : Z)
           (exclude_duplicates : bool) : list FundingRound :=
  let query := filter (fun r => company_id r =? cid) (funding_rounds s) in
  if exclude_duplicates
  then filter (fun r => negb (is_duplicate r)) query
  else query.

(** [get_all_rounds(exclude_duplicates)]. *)
Definition get_all_rounds (s : Session) (exclude_duplicates : bool)
  : list FundingRound :=
  if exclude_duplicates
  then filter (fun r => negb (is_duplicate r)) (funding_rounds s)
  else funding_rounds s.

Definition mem (x : Z) (l : list Z) : bool := existsb (Z.eqb x) l.

(** [reset_processing_status(stages)] on the stage 4 columns, the only
    stage columns of [ProcessingStatus] here: [stages] defaults to
    [[2, 3, 4]], and the columns of a stage are reset in every row when
    the stage is listed. *)
Definition reset_processing_status (s : Session) (stages : option (list Z))
  : Session :=
  let stages := match stages with Some l => l | None => [2; 3; 4] end in
  with_status s
    (map (fun status =>
            if mem 4 stages
            then mkProcessingStatus (status_company_id status) false None 0
            else status)
         (processing_status s)).

(** [get_companies_needing_stage(4)]: the companies joined with their
    status row whose [stage4_merged] is false.  A company without a
    status row is not in the join. *)
Definition get_companies_needing_stage4 (s : Session) : list Company :=
  filter (fun c =>
            match find_status (processing_status s) (company_pk c) with
            | Some status => negb (stage4_merged status)
            | None => false
            end)
         (companies s).

End Queries.

(* ================================================================== *)
(** ** Further vocabulary for the properties of a run *)

Module Cover.
Import Models DatabaseManager DeduplicatorV2 Aux.

(** Two rows that agree on the ten columns that hold the data of a
    round.  The time stamp [updated_at], which the ORM rewrites whenever
    it updates a row, is not a column of [FundingRound] here and is not
    spoken of. *)
Definition same_columns (a b : FundingRound) : Prop :=
  id a = id b
  /\ company_id a = company_id b
  /\ round_name a = round_name b
  /\ date a = date b
  /\ amount_raised_usd a = amount_raised_usd b
  /\ pre_money_valuation_usd a = pre_money_valuation_usd b
  /\ post_money_valuation_usd a = post_money_valuation_usd b
  /\ lead_investor a = lead_investor b
  /\ source_type a = source_type b
  /\ confidence_score a = confidence_score b.

(** The row [r] is the row [r0] as it was, or [r0] was loaded in [L] and
    [r] is [r0] demoted to a record of [L] of larger rank. *)
Definition demoted_from (L : list FundingRound) (r0 r : FundingRound) : Prop :=
  r = r0
  \/ (In r0 L
      /\ exists w, In w L
                   /\ (rank L (id r0) < rank L (id w))%nat
                   /\ r = set_duplicate r0 (id w)).

(** The rows [rs] against the rows [rs0] before the loop. *)
Definition traced (L rs0 rs : list FundingRound) : Prop :=
  Forall2 (demoted_from L) rs0 rs.

(** The number of pairs (earlier, later) of [L] judged duplicates. *)
Fixpoint duplicate_pairs (self : t) (L : list FundingRound) : nat :=
  match L with
  | [] => 0%nat
  | round1 :: rest =>
      (List.length (filter (are_duplicates self round1) rest)
       + duplicate_pairs self rest)%nat
  end.

(** The row with key [rid] exists and is flagged as a duplicate. *)
Definition flagged (s : Session) (rid : Z) : Prop :=
  exists row, get_round (funding_rounds s) rid = Some row
              /\ is_duplicate row = true.

(** A property of the accumulator that no comparison destroys. *)
Definition stable (self : t) (P : Session * nat -> Prop) : Prop :=
  forall r1 r2 acc, P acc -> P (compare_pair self r1 r2 acc).

(** In the result [res] of the loop, a duplicate pair has a flagged
    member. *)
Definition settled (self : t) (res : Session) (r1 r2 : FundingRound) : Prop :=
  are_duplicates self r1 r2 = true ->
  flagged res (id r1) \/ flagged res (id r2).

(** The stage flag of the company is set. *)
Definition merged (s : Session) (cid : Z) : Prop :=
  exists st, find_status (processing_status s) cid = Some st
             /\ stage4_merged st = true.

(** The stage flag of the company is not set: no row, or a row with the
    flag false. *)
Definition unmerged (s : Session) (cid : Z) : Prop :=
  forall st, find_status (processing_status s) cid = Some st ->
             stage4_merged st = false.

(** Keys of [processing_status] are pairwise distinct. *)
Definition unique_status (s : Session) : Prop :=
  NoDup (map status_company_id (processing_status s)).

End Cover.

(* ================================================================== *)
(** ** src/database/db_manager.py: companies *)

Module Tables.
Import Models DatabaseManager.

(** [query(Company).filter_by(name=name).first()]. *)
Definition find_company (l : list Company) (company_name : string)
  : option Company :=
  find (fun c => String.eqb (name c) company_name) l.

(** [get_or_create_company(session, name, cik, official_name)] on the
    columns of [Company] here: [cik] and [official_name] only fill
    columns that are left out.  [new_id] is the key that the database
    assigns to the new row when it is flushed; the status row of a new
    company is added with the column defaults. *)
Definition get_or_create_company (new_id : Z) (s : Session)
           (company_name : string) : Session * Company :=
  match find_company (companies s) company_name with
  | Some company => (s, company)
  | None =>
      let company := mkCompany new_id company_name in
      (mkSession (companies s ++ [company])%list (funding_rounds s)
                 (processing_status s ++ [new_status new_id])%list,
       company)
  end.

(** The constraints of the schema on [companies] and
    [processing_status]: names and keys of companies are unique, a
    company has at most one status row, a status row refers to a
    company; and every company has its status row. *)
Definition well_formed (s : Session) : Prop :=
  NoDup (map name (companies s))
  /\ NoDup (map company_pk (companies s))
  /\ NoDup (map status_company_id (processing_status s))
  /\ (forall st, In st (processing_status s) ->
                 In (status_company_id st) (map company_pk (companies s)))
  /\ (forall c, In c (companies s) ->
                In (company_pk c)
                   (map status_company_id (processing_status s))).

End Tables.

(* ================================================================== *)
(** ** run_pipeline_v2.py: stage 1 *)

Module Pipeline.
Import Models Tables.

(** [run_stage1(db_manager, companies)]: one [get_or_create_company] per
    name, in one session.  [next_id] gives the key that the database
    assigns to a new row of [companies], from the rows of the table. *)
Definition run_stage1 (next_id : list Company -> Z) (s : Session)
           (names : list string) : Session :=
  fold_left
    (fun session company_name =>
       fst (get_or_create_company (next_id (companies session)) session
                                  company_name))
    names s.

(** A key generator as SQLite's: one more than the largest key. *)
Definition max_key_plus_one (l : list Company) : Z :=
  fold_right Z.max 0 (map company_pk l) + 1.

End Pipeline.

(* ================================================================== *)
(** ** src/database/db_manager.py: sources *)

Module Sources.

(** Table [sources], without its key and time stamp. *)
Record Source : Set := mkSource {
  round_id : Z;
  source_type : string;
  url : option string;
  title : option string;
  snippet : option string;
  llm_provider : option string;
  llm_model : option string;
  extraction_confidence : option string
}.

(** [add_source(session, round_id, source_type, url, title, snippet,
    llm_provider, llm_model, extraction_confidence)]: a title longer
    than 490 characters is cut to [title[:490] + '...']. *)
Definition add_source (table : list Source) (round_id : Z)
           (source_type : string)
           (url title snippet llm_provider llm_model
              extraction_confidence : option string)
  : list Source * Source :=
  let title :=
    match title with
    | Some t =>
        if PyStr.truthy t && (490 <? Z.of_nat (String.length t))
        then Some (String.substring 0 490 t ++ "...")
        else Some t
    | None => None
    end in
  let source :=
    mkSource round_id source_type url title snippet llm_provider llm_model
             extraction_confidence in
  ((table ++ [source])%list, source).

End Sources.

(* ================================================================== *)
(** ** src/database/db_manager.py: the usage log *)

Module Usage.

(** Table [llm_usage], without its key and time stamps; the text
    columns are not limited in length, as in SQLite. *)
Record LLMUsage : Set := mkLLMUsage {
  provider_name : string;
  model_name : string;
  total_calls : Z;
  successful_calls : Z;
  failed_calls : Z;
  rate_limited_calls : Z;
  total_input_tokens : Z;
  total_output_tokens : Z;
  average_latency_ms : option float;
  min_latency_ms : option float;
  max_latency_ms : option float;
  date : string
}.

(** [float(n)] for an [int] of absolute value below 2^63; a larger
    counter is refused by the column before the value is used. *)
Definition of_int (n : Z) : float :=
  if n <? 0 then PrimFloat.opp (PrimFloat.of_uint63 (Uint63.of_Z (- n)))
  else PrimFloat.of_uint63 (Uint63.of_Z n).

(** [x or d] for a nullable float column. *)
Definition or_else (x : option float) (d : float) : float :=
  match x with
  | Some v => if PyFloat.truthy v then v else d
  | None => d
  end.

(** [filter_by(provider_name=..., model_name=..., date=today)]. *)
Definition same_key (provider model today : string) (u : LLMUsage) : bool :=
  String.eqb (provider_name u) provider
  && String.eqb (model_name u) model
  && String.eqb (date u) today.

Definition find_usage (table : list LLMUsage) (provider model today : string)
  : option LLMUsage :=
  find (same_key provider model today) table.

(** [LLMUsage(provider_name, model_name, date)] with the counters set
    to 0. *)
Definition new_usage (provider model today : string) : LLMUsage :=
  mkLLMUsage provider model 0 0 0 0 0 0 None None None today.

(** The block [# Update metrics] and [# Update latency] on the row
    [usage]; [None] is the [ZeroDivisionError] of the running average. *)
Definition update_metrics (usage : LLMUsage) (success rate_limited : bool)
           (latency_ms : option float) (input_tokens output_tokens : Z)
  : option LLMUsage :=
  let total := total_calls usage + 1 in
  let successful :=
    if success then successful_calls usage + 1 else successful_calls usage in
  let failed :=
    if success then failed_calls usage else failed_calls usage + 1 in
  let limited :=
    if rate_limited then rate_limited_calls usage + 1
    else rate_limited_calls usage in
  let inputs := total_input_tokens usage + input_tokens in
  let outputs := total_output_tokens usage + output_tokens in
  match latency_ms with
  | None =>
      Some (mkLLMUsage (provider_name usage) (model_name usage) total
              successful failed limited inputs outputs
              (average_latency_ms usage) (min_latency_ms usage)
              (max_latency_ms usage) (date usage))
  | Some latency =>
      let average :=
        match average_latency_ms usage with
        | None => Some latency
        | Some a =>
            let total_latency := (a * of_int (total - 1) + latency)%float in
            if total =? 0 then None
            else Some (total_latency / of_int total)%float
        end in
      match average with
      | None => None
      | Some avg =>
          Some (mkLLMUsage (provider_name usage) (model_name usage) total
                  successful failed limited inputs outputs
                  (Some avg)
                  (Some (PyFloat.min
                           (or_else (min_latency_ms usage) PrimFloat.infinity)
                           latency))
                  (Some (PyFloat.max (or_else (max_latency_ms usage) 0%float)
                           latency))
                  (date usage))
      end
  end.

(** Assignment to the attributes of the row that [find_usage] returns. *)
Fixpoint update_usage (table : list LLMUsage) (provider model today : string)
         (u' : LLMUsage) : list LLMUsage :=
  match table with
  | [] => []
  | u :: rest =>
      if same_key provider model today u then u' :: rest
      else u :: update_usage rest provider model today u'
  end.

(** The database is SQLite, which [create_db_engine] uses unless
    PostgreSQL is configured.  Its INTEGER columns hold the values from
    -2^63 to 2^63 - 1: binding a counter outside them raises
    [OverflowError] when the session is flushed.  A NaN bound to a REAL
    column is stored as NULL. *)
Definition integer_max : Z := 9223372036854775807.

Definition in_column (v : Z) : bool :=
  (- integer_max - 1 <=? v) && (v <=? integer_max).

Definition storable (u : LLMUsage) : bool :=
  in_column (total_calls u)
  && in_column (successful_calls u)
  && in_column (failed_calls u)
  && in_column (rate_limited_calls u)
  && in_column (total_input_tokens u)
  && in_column (total_output_tokens u).

Definition stored_real (x : option float) : option float :=
  match x with
  | Some v => if PyFloat.is_nan v then None else Some v
  | None => None
  end.

(** The row as the table holds it after the commit. *)
Definition stored (u : LLMUsage) : LLMUsage :=
  mkLLMUsage (provider_name u) (model_name u) (total_calls u)
    (successful_calls u) (failed_calls u) (rate_limited_calls u)
    (total_input_tokens u) (total_output_tokens u)
    (stored_real (average_latency_ms u)) (stored_real (min_latency_ms u))
    (stored_real (max_latency_ms u)) (date u).

(** The row that a call works on: the one found, or a new one. *)
Definition row_for (table : list LLMUsage) (provider model today : string)
  : LLMUsage :=
  match find_usage table provider model today with
  | Some usage => usage
  | None => new_usage provider model today
  end.

(** [log_llm_usage(provider_name, model_name, success, rate_limited,
    latency_ms, input_tokens, output_tokens)]; [today] is the reading of
    [datetime.utcnow().strftime('%Y-%m-%d')].  [None]: an exception is
    raised in the block or at the commit that ends it, and the session
    is rolled back. *)
Definition log_llm_usage (today : string) (table : list LLMUsage)
           (provider model : string) (success rate_limited : bool)
           (latency_ms : option float) (input_tokens output_tokens : Z)
  : option (list LLMUsage) :=
  match find_usage table provider model today with
  | Some usage =>
      match update_metrics usage success rate_limited latency_ms
                           input_tokens output_tokens with
      | Some u' =>
          if storable u'
          then Some (update_usage table provider model today (stored u'))
          else None
      | None => None
      end
  | None =>
      match update_metrics (new_usage provider model today) success
                           rate_limited latency_ms input_tokens
                           output_tokens with
      | Some u' =>
          if storable u' then Some (table ++ [stored u'])%list else None
      | None => None
      end
  end.

(** The key of a row, and the calls counted in a table. *)
Definition key (u : LLMUsage) : string * string * string :=
  (provider_name u, model_name u, date u).

Definition calls (table : list LLMUsage) : Z :=
  fold_right (fun u n => total_calls u + n) 0 table.

(** The counters of a row add up. *)
Definition consistent (u : LLMUsage) : Prop :=
  total_calls u = successful_calls u + failed_calls u
  /\ 0 <= successful_calls u
  /\ 0 <= failed_calls u
  /\ 0 <= rate_limited_calls u <= total_calls u.

End Usage.

(* ================================================================== *)
(** ** src/sec_collector_v2.py: rotation of the user agents *)

Module SECCollector.

(** [SECUserAgent]: the attributes set from the arguments of
    [__init__]. *)
Record SECUserAgent : Set := mkSECUserAgent {
  name : string;
  user_agent : string
}.

(** [SECCollectorV2]: the agents and the round-robin counter. *)
Record SECCollectorV2 : Set := mkSECCollectorV2 {
  user_agents : list SECUserAgent;
  current_agent_index : nat
}.

(** [f'{i}'] for a number. *)
Definition decimal (i : nat) : string :=
  NilEmpty.string_of_uint (Nat.to_uint i).

(** The agents of [SEC_USER_AGENT_1] to [SEC_USER_AGENT_10]; [getenv]
    is [os.getenv]. *)
Definition env_agents (getenv : string -> option string)
  : list SECUserAgent :=
  flat_map
    (fun i =>
       match getenv ("SEC_USER_AGENT_" ++ decimal i) with
       | Some user_agent =>
           if PyStr.truthy user_agent && PyStr.truthy (PyStr.strip user_agent)
           then [mkSECUserAgent ("Account " ++ decimal i)
                                (PyStr.strip user_agent)]
           else []
       | None => []
       end)
    (seq 1 10).

Definition is_empty {A : Type} (l : list A) : bool :=
  match l with [] => true | _ => false end.

(** [__init__(config, db_manager)]: the agents of the environment, else
    those of [config['sec_user_agents']] (name and user agent of each
    entry), else the default one. *)
Definition init (getenv : string -> option string)
           (sec_user_agents : list (string * string)) : SECCollectorV2 :=
  let user_agents := env_agents getenv in
  let user_agents :=
    if is_empty user_agents
    then map (fun ua_config =>
                mkSECUserAgent (fst ua_config) (snd ua_config))
             sec_user_agents
    else user_agents in
  let user_agents :=
    if is_empty user_agents
    then [mkSECUserAgent "Default"
            (match getenv "SEC_USER_AGENT" with
             | Some v => v
             | None => "Joe B joe.malambo@mail.com"
             end)]
    else user_agents in
  mkSECCollectorV2 user_agents 0.

(** [get_next_user_agent()]; [None] is the [IndexError] of
    [self.user_agents[self.current_agent_index]]. *)
Definition get_next_user_agent (self : SECCollectorV2)
  : option (SECUserAgent * SECCollectorV2) :=
  match nth_error (user_agents self) (current_agent_index self) with
  | Some agent =>
      Some (agent,
            mkSECCollectorV2 (user_agents self)
              ((current_agent_index self + 1)
                 mod List.length (user_agents self))%nat)
  | None => None
  end.

(** [k] calls of [get_next_user_agent] in a row, with the agents they
    return. *)
Fixpoint next_agents (k : nat) (self : SECCollectorV2)
  : option (list SECUserAgent * SECCollectorV2) :=
  match k with
  | O => Some ([], self)
  | S k' =>
      match get_next_user_agent self with
      | Some (agent, self1) =>
          match next_agents k' self1 with
          | Some (agents, self2) => Some (agent :: agents, self2)
          | None => None
          end
      | None => None
      end
  end.

End SECCollector.

(* ================================================================== *)
(** ** src/database/models.py: [${VAR}] in the database settings *)

Module Engine.

(** The text up to the first closing brace, and the text after it:
    [([^}]+)\}] without the test that a character comes first. *)
Fixpoint split_var (body : string) : option (string * string) :=
  match body with
  | EmptyString => None
  | String d rest =>
      if Ascii.eqb d "}" then Some (EmptyString, rest)
      else match split_var rest with
           | Some (var_name, after) => Some (String d var_name, after)
           | None => None
           end
  end.

(** [resolve_env_vars(value)] for a [str]:
    [re.sub(r'\$\{([^}]+)\}', replacer, value)], where [replacer] gives
    [os.getenv(var_name, match.group(0))].  Matches are taken from left
    to right and a replacement is not searched again. *)
Fixpoint resolve_env_vars (getenv : string -> option string) (value : string)
  : string :=
  match value with
  | EmptyString => EmptyString
  | String c rest =>
      let unmatched := String c (resolve_env_vars getenv rest) in
      if Ascii.eqb c "$" then
        match rest with
        | String b body =>
            if Ascii.eqb b "{" then
              match
                (fix group (text : string) : option (string * string) :=
                   match text with
                   | EmptyString => None
                   | String d text' =>
                       if Ascii.eqb d "}"
                       then Some (EmptyString, resolve_env_vars getenv text')
                       else match group text' with
                            | Some (var_name, after) =>
                                Some (String d var_name, after)
                            | None => None
                            end
                   end) body
              with
              | Some (String d var_name, after) =>
                  match getenv (String d var_name) with
                  | Some v => v ++ after
                  | None => "${" ++ String d var_name ++ "}" ++ after
                  end
              | _ => unmatched
              end
            else unmatched
        | EmptyString => unmatched
        end
      else unmatched
  end.

(** A match of the pattern at the start of the text: the name of the
    variable and the text after the match. *)
Definition match_at (value : string) : option (string * string) :=
  match value with
  | String c (String b body) =>
      if Ascii.eqb c "$" && Ascii.eqb b "{" then
        match split_var body with
        | Some (String d var_name, after) => Some (String d var_name, after)
        | _ => None
        end
      else None
  | _ => None
  end.

(** [os.getenv(var_name, match.group(0))]. *)
Definition replacer (getenv : string -> option string) (var_name : string)
  : string :=
  match getenv var_name with
  | Some v => v
  | None => "${" ++ var_name ++ "}"
  end.

(** The character occurs in the text. *)
Fixpoint has_char (c : ascii) (s : string) : bool :=
  match s with
  | EmptyString => false
  | String d rest => Ascii.eqb d c || has_char c rest
  end.

End Engine.

(* ================================================================== *)
(** ** Strings: substring test and truthiness *)

Section StringFacts.



Lemma truthy_iff (s : string) : PyStr.truthy s = true <-> s <> ""%string.
Proof.
  unfold PyStr.truthy. destruct (String.eqb_spec s ""); simpl.
  - split; [discriminate | contradiction].
  - split; [intros _; assumption | reflexivity].
Qed.

End StringFacts.

(* ================================================================== *)
(** ** [parse_date] tries the formats in order *)

Section ParseFacts.
Import PyDatetime DeduplicatorV2.

Lemma try_formats_spec (s : string) (fmts : list (list token)) (dt : datetime) :
  try_formats s fmts = Some dt <->
  exists before fmt after,
    fmts = (before ++ fmt :: after)%list
    /\ strptime s fmt = Some dt
    /\ forall f, In f before -> strptime s f = None.
Proof.
  induction fmts as [|f0 fmts IH]; simpl.
  - split; [discriminate|].
    intros (before & fmt & after & H & _). destruct before; discriminate.
  - destruct (strptime s f0) as [d0|] eqn:E.
    + split.
      * intros H. exists [], f0, fmts. repeat split; [congruence | intros ? []].
      * intros (before & fmt & after & H & Hfmt & Hbefore).
        destruct before as [|b before]; simpl in H; inversion H; subst.
        -- congruence.
        -- specialize (Hbefore b (or_introl eq_refl)). congruence.
    + rewrite IH. split.
      * intros (before & fmt & after & H & Hfmt & Hbefore).
        exists (f0 :: before), fmt, after. subst fmts. repeat split; auto.
        intros f [<-|Hin]; auto.
      * intros (before & fmt & after & H & Hfmt & Hbefore).
        destruct before as [|b before]; simpl in H; inversion H; subst.
        -- congruence.
        -- exists before, fmt, after. repeat split; auto.
           intros f Hin. apply Hbefore. now right.
Qed.

Lemma try_formats_accepted (s : string) (fs : list Spec.date_format)
      (dt : datetime) :
  try_formats s (map Spec.fields fs) = Some dt <->
  exists before f after,
    fs = (before ++ f :: after)%list
    /\ strptime s (Spec.fields f) = Some dt
    /\ forall f', In f' before -> strptime s (Spec.fields f') = None.
Proof.
  rewrite try_formats_spec. split.
  - intros (before & fmt & after & H & Hf & Hb).
    apply map_eq_app in H as (b1 & rest & -> & <- & H).
    apply map_eq_cons in H as (f & a1 & -> & <- & <-).
    exists b1, f, a1. repeat split; auto.
    intros f' Hin. apply Hb. now apply in_map.
  - intros (before & f & after & -> & Hf & Hb).
    exists (map Spec.fields before), (Spec.fields f), (map Spec.fields after).
    rewrite map_app. repeat split; auto.
    intros t Hin. apply in_map_iff in Hin as (f' & <- & Hin). now apply Hb.
Qed.

Lemma formats_accepted : formats = map Spec.fields Spec.accepted_formats.
Proof. reflexivity. Qed.

Lemma parse_date_spec (s : string) (dt : datetime) :
  parse_date (Some s) = Some dt <-> Spec.parses_as s dt.
Proof.
  unfold parse_date, Spec.parses_as.
  destruct (PyStr.truthy s) eqn:E.
  - rewrite formats_accepted, try_formats_accepted.
    apply truthy_iff in E. tauto.
  - split; [discriminate|]. intros [Hne _].
    apply truthy_iff in Hne. congruence.
Qed.

Lemma parse_date_none (dt : datetime) : parse_date None <> Some dt.
Proof. discriminate. Qed.

End ParseFacts.

(* ================================================================== *)
(** ** The pairwise predicate *)

Section Predicate.
Import Models DeduplicatorV2.



End Predicate.

(* ================================================================== *)
(** ** Comparison of binary64 numbers *)

Section FloatFacts.

Lemma SFcompare_antisym (x y : SpecFloat.spec_float) :
  SpecFloat.SFcompare y x = option_map CompOpp (SpecFloat.SFcompare x y).
Proof.
  destruct x as [sx|sx| |sx mx ex], y as [sy|sy| |sy my ey]; simpl;
    try reflexivity;
    try (destruct sx; reflexivity); try (destruct sy; reflexivity);
    try (destruct sx, sy; reflexivity).
  destruct sx, sy; simpl; try reflexivity;
    rewrite (Z.compare_antisym ex ey);
    destruct (ex ?= ey); simpl; try reflexivity;
    fold (Pos.compare my mx); fold (Pos.compare mx my);
    rewrite (Pos.compare_antisym mx my); try reflexivity.
Qed.

Lemma SFcompare_refl (x : SpecFloat.spec_float) :
  x <> SpecFloat.S754_nan -> SpecFloat.SFcompare x x = Some Eq.
Proof.
  destruct x as [sx|sx| |sx mx ex]; simpl; intros H;
    try reflexivity; try congruence.
  - destruct sx; reflexivity.
  - fold (Pos.compare mx mx).
    destruct sx; rewrite Z.compare_refl, Pos.compare_refl; reflexivity.
Qed.

Lemma SFcompare_Eq_eq (x y : SpecFloat.spec_float) :
  SpecFloat.SFcompare x y = Some Eq ->
  (forall s, x <> SpecFloat.S754_zero s) -> x = y.
Proof.
  destruct x as [sx|sx| |sx mx ex], y as [sy|sy| |sy my ey]; simpl;
    intros H Hz; try discriminate;
    try (exfalso; now apply (Hz sx));
    try (destruct sx; discriminate); try (destruct sy; discriminate).
  - destruct sx, sy; try discriminate; reflexivity.
  - fold (Pos.compare mx my) in H.
    destruct sx, sy; try discriminate;
      destruct (ex ?= ey) eqn:Ee; try discriminate;
      destruct (mx ?= my)%positive eqn:Em; try discriminate;
      apply Z.compare_eq_iff in Ee; apply Pos.compare_eq_iff in Em;
      now subst.
Qed.

Lemma is_nan_spec (a : float) :
  PyFloat.is_nan a = true <-> Prim2SF a = SpecFloat.S754_nan.
Proof.
  unfold PyFloat.is_nan. rewrite eqb_spec. unfold SpecFloat.SFeqb. split.
  - intros H. destruct (Prim2SF a) eqn:E; try reflexivity;
      rewrite SFcompare_refl in H by discriminate; discriminate.
  - intros ->. reflexivity.
Qed.

Lemma ltb_asym (a b : float) :
  PrimFloat.ltb a b = true -> PrimFloat.ltb b a = false.
Proof.
  rewrite !ltb_spec. unfold SpecFloat.SFltb.
  rewrite (SFcompare_antisym (Prim2SF a) (Prim2SF b)).
  destruct (SpecFloat.SFcompare (Prim2SF a) (Prim2SF b)) as [[]|];
    simpl; congruence.
Qed.

(** Two non-zero numbers, both NaN or neither, of which none is below
    the other, are the same number. *)
Lemma not_ltb_eq (a b : float) :
  PrimFloat.ltb a b = false -> PrimFloat.ltb b a = false ->
  PyFloat.is_nan a = PyFloat.is_nan b ->
  PrimFloat.eqb a 0%float = false ->
  a = b.
Proof.
  intros Hab Hba Hnan Hz.
  apply Prim2SF_inj.
  destruct (PyFloat.is_nan a) eqn:Na.
  - symmetry in Hnan. apply is_nan_spec in Na, Hnan. congruence.
  - assert (Ha : Prim2SF a <> SpecFloat.S754_nan).
    { intros H. apply is_nan_spec in H. congruence. }
    assert (Hb : Prim2SF b <> SpecFloat.S754_nan).
    { intros H. apply is_nan_spec in H. congruence. }
    rewrite ltb_spec in Hab, Hba. unfold SpecFloat.SFltb in Hab, Hba.
    rewrite (SFcompare_antisym (Prim2SF a) (Prim2SF b)) in Hba.
    rewrite eqb_spec in Hz. unfold SpecFloat.SFeqb in Hz.
    change (Prim2SF 0%float) with (SpecFloat.S754_zero false) in Hz.
    destruct (SpecFloat.SFcompare (Prim2SF a) (Prim2SF b)) as [[]|] eqn:E;
      simpl in Hba; try discriminate.
    + apply SFcompare_Eq_eq; [exact E|].
      intros s Hs. rewrite Hs in Hz. discriminate.
    + exfalso. destruct (Prim2SF a), (Prim2SF b); simpl in E;
        congruence.
Qed.

End FloatFacts.


(* ================================================================== *)
(** ** Symmetry of the three tests *)

Section Symmetry.
Import Models DeduplicatorV2.

Lemma dates_are_close_sym (self : t) (d1 d2 : option string) :
  dates_are_close self d1 d2 = dates_are_close self d2 d1.
Proof.
  unfold dates_are_close, PyDatetime.sub_days.
  destruct (parse_date d1) as [dt1|], (parse_date d2) as [dt2|];
    try reflexivity.
  cbv zeta.
  replace (PyDatetime.toordinal dt2 - PyDatetime.toordinal dt1)
    with (- (PyDatetime.toordinal dt1 - PyDatetime.toordinal dt2)) by lia.
  now rewrite Z.abs_opp.
Qed.

Lemma existsb_ext_in {A} (f g : A -> bool) (l : list A) :
  (forall x, In x l -> f x = g x) -> existsb f l = existsb g l.
Proof.
  induction l as [|x l IH]; simpl; intros H; [reflexivity|].
  rewrite (H x) by now left. rewrite IH; [reflexivity|].
  intros y Hy. apply H. now right.
Qed.

Lemma round_names_match_sym (n1 n2 : option string) :
  round_names_match n1 n2 = round_names_match n2 n1.
Proof.
  unfold round_names_match.
  destruct n1 as [n1|], n2 as [n2|]; try reflexivity.
  rewrite (orb_comm (negb (PyStr.truthy n2))).
  destruct (negb (PyStr.truthy n1) || negb (PyStr.truthy n2)); [reflexivity|].
  cbv zeta. rewrite (String.eqb_sym (PyStr.strip (PyStr.lower n2))).
  destruct (String.eqb _ _); [reflexivity|].
  apply existsb_ext_in. intros k _. apply andb_comm.
Qed.

Lemma amounts_are_similar_sym (self : t) (a1 a2 : float) :
  PyFloat.is_nan a1 = PyFloat.is_nan a2 ->
  amounts_are_similar self (Some a1) (Some a2)
  = amounts_are_similar self (Some a2) (Some a1).
Proof.
  intros Hnan. unfold amounts_are_similar, PyFloat.truthy.
  rewrite (orb_comm (negb (negb (PrimFloat.eqb a2 0)))).
  destruct (PrimFloat.eqb a1 0) eqn:Z1; [reflexivity|].
  destruct (PrimFloat.eqb a2 0) eqn:Z2; [reflexivity|].
  cbn [negb orb]. unfold PyFloat.max, PyFloat.min.
  destruct (PrimFloat.ltb a1 a2) eqn:L12.
  - rewrite (ltb_asym _ _ L12). reflexivity.
  - destruct (PrimFloat.ltb a2 a1) eqn:L21; [reflexivity|].
    now rewrite (not_ltb_eq a1 a2 L12 L21 Hnan Z1).
Qed.

End Symmetry.

(** C8.  The predicate is not symmetric: with the default thresholds, a
    round whose amount is NaN is not a duplicate of a round of the same
    company and day whose amount is 1,000,000, while the latter is a
    duplicate of the former.  [amounts_are_similar(1000000.0, nan)] is
    true because [max] and [min] both keep their first argument, so the
    difference is 0; in the other order both are NaN and the test
    fails. *)
Lemma C8_counterexample :
  Models.company_id Examples.nan_round = Models.company_id Examples.million_round
  /\ DeduplicatorV2.are_duplicates Examples.default_dedup
       Examples.nan_round Examples.million_round = false
  /\ DeduplicatorV2.are_duplicates Examples.default_dedup
       Examples.million_round Examples.nan_round = true.
Proof. repeat apply conj; vm_compute; reflexivity. Qed.

(** X20.  For two rounds of the same company of which none or both
    have a NaN amount, [are_duplicates] gives the same answer in both
    orders, and so does the amount test; the date test and the label
    test are symmetric for all arguments. *)
Theorem X20_are_duplicates_symmetric_off_nan :
  forall (self : DeduplicatorV2.t) (A B : Models.FundingRound),
    Models.company_id A = Models.company_id B ->
    Spec.amount_is_nan A = Spec.amount_is_nan B ->
    DeduplicatorV2.are_duplicates self A B = DeduplicatorV2.are_duplicates self B A
    /\ DeduplicatorV2.amounts_are_similar self
         (Models.amount_raised_usd A) (Models.amount_raised_usd B)
       = DeduplicatorV2.amounts_are_similar self
           (Models.amount_raised_usd B) (Models.amount_raised_usd A)
    /\ (forall d1 d2,
           DeduplicatorV2.dates_are_close self d1 d2
           = DeduplicatorV2.dates_are_close self d2 d1)
    /\ (forall n1 n2,
           DeduplicatorV2.round_names_match n1 n2
           = DeduplicatorV2.round_names_match n2 n1).
Proof.
  intros self A B Hc Hnan.
  assert (Ha : DeduplicatorV2.amounts_are_similar self
                 (Models.amount_raised_usd A) (Models.amount_raised_usd B)
               = DeduplicatorV2.amounts_are_similar self
                   (Models.amount_raised_usd B) (Models.amount_raised_usd A)).
  { unfold Spec.amount_is_nan in Hnan.
    destruct (Models.amount_raised_usd A) as [a1|],
             (Models.amount_raised_usd B) as [a2|]; try reflexivity.
    now apply amounts_are_similar_sym. }
  repeat apply conj; auto using dates_are_close_sym, round_names_match_sym.
  unfold DeduplicatorV2.are_duplicates.
  rewrite Hc, Ha, (dates_are_close_sym self (Models.date A)),
    (round_names_match_sym (Models.round_name A)).
  reflexivity.
Qed.

(** X20 at the two records of Acme. *)
Lemma X20_are_duplicates_symmetric_off_nan_witness :
  DeduplicatorV2.are_duplicates Examples.default_dedup
    Examples.acme_filing Examples.acme_search
  = DeduplicatorV2.are_duplicates Examples.default_dedup
      Examples.acme_search Examples.acme_filing.
Proof.
  apply (X20_are_duplicates_symmetric_off_nan Examples.default_dedup
           Examples.acme_filing Examples.acme_search);
    vm_compute; reflexivity.
Defined.


(* ================================================================== *)
(** ** Rows and their updates *)

Section Rows.
Import Models DatabaseManager.

Lemma update_round_absent (l : list FundingRound) (rid : Z)
      (f : FundingRound -> FundingRound) :
  (forall r, In r l -> id r <> rid) -> update_round l rid f = l.
Proof.
  induction l as [|r l IH]; simpl; intros H; [reflexivity|].
  destruct (Z.eqb_spec (id r) rid) as [E|_].
  - exfalso. now apply (H r (or_introl eq_refl)).
  - rewrite IH; [reflexivity|]. intros r' Hr'. apply H. now right.
Qed.

Lemma get_round_none (l : list FundingRound) (rid : Z) :
  get_round l rid = None <-> forall r, In r l -> id r <> rid.
Proof.
  unfold get_round. split.
  - intros H r Hin E. apply (find_none _ _ H) in Hin.
    apply Z.eqb_neq in Hin. contradiction.
  - induction l as [|r l IH]; simpl; intros H; [reflexivity|].
    destruct (Z.eqb_spec (id r) rid) as [E|_].
    + exfalso. now apply (H r (or_introl eq_refl)).
    + apply IH. intros r' Hr'. apply H. now right.
Qed.

Lemma get_round_some (l : list FundingRound) (rid : Z) (r : FundingRound) :
  get_round l rid = Some r -> In r l /\ id r = rid.
Proof.
  unfold get_round. intros H. apply find_some in H as [Hin E].
  apply Z.eqb_eq in E. auto.
Qed.

(** The rows after [mark_as_duplicate], in both of its branches. *)
Lemma mark_as_duplicate_rounds (s : Session) (d o : Z) :
  funding_rounds (mark_as_duplicate s d o)
  = update_round (funding_rounds s) d (fun r => set_duplicate r o).
Proof.
  unfold mark_as_duplicate.
  destruct (get_round (funding_rounds s) d) eqn:E; [reflexivity|].
  symmetry. apply update_round_absent. now apply get_round_none.
Qed.

Lemma mark_as_duplicate_companies (s : Session) (d o : Z) :
  companies (mark_as_duplicate s d o) = companies s.
Proof. unfold mark_as_duplicate. now destruct (get_round _ _). Qed.

Lemma mark_as_duplicate_status (s : Session) (d o : Z) :
  processing_status (mark_as_duplicate s d o) = processing_status s.
Proof. unfold mark_as_duplicate. now destruct (get_round _ _). Qed.

Lemma get_round_update (l : list FundingRound) (d rid : Z)
      (f : FundingRound -> FundingRound) :
  (forall r, id (f r) = id r) ->
  get_round (update_round l d f) rid
  = if rid =? d then option_map f (get_round l d) else get_round l rid.
Proof.
  intros Hf. unfold get_round.
  induction l as [|r l IH]; simpl.
  - now destruct (rid =? d).
  - destruct (Z.eqb_spec (id r) d) as [E|N]; simpl.
    + rewrite Hf.
      destruct (Z.eqb_spec rid d) as [E'|N'];
        destruct (Z.eqb_spec (id r) rid) as [E''|N''];
        first [congruence | reflexivity].
    + rewrite IH.
      destruct (Z.eqb_spec rid d) as [E'|N'];
        destruct (Z.eqb_spec (id r) rid) as [E''|N''];
        first [congruence | reflexivity].
Qed.

Lemma in_update_round (l : list FundingRound) (d : Z)
      (f : FundingRound -> FundingRound) (r' : FundingRound) :
  In r' (update_round l d f) ->
  In r' l \/ exists r, In r l /\ id r = d /\ r' = f r.
Proof.
  induction l as [|r l IH]; simpl; [tauto|].
  destruct (Z.eqb_spec (id r) d) as [E|N]; simpl.
  - intros [<-|H]; [right; exists r; auto | auto].
  - intros [<-|H]; [auto|].
    destruct (IH H) as [Hin | (r0 & Hin & E & Hr')]; [auto|].
    right. exists r0. auto.
Qed.

Lemma update_round_payload (l : list FundingRound) (d o : Z) :
  Forall2 Aux.same_payload l (update_round l d (fun r => set_duplicate r o)).
Proof.
  induction l as [|r l IH]; simpl; [constructor|].
  destruct (id r =? d).
  - constructor; [split; reflexivity|].
    clear IH. induction l; constructor; [split; reflexivity | assumption].
  - constructor; [split; reflexivity | exact IH].
Qed.

Lemma same_payload_refl (l : list FundingRound) : Forall2 Aux.same_payload l l.
Proof. induction l; constructor; [split; reflexivity | assumption]. Qed.

Lemma same_payload_trans (l1 l2 l3 : list FundingRound) :
  Forall2 Aux.same_payload l1 l2 -> Forall2 Aux.same_payload l2 l3 ->
  Forall2 Aux.same_payload l1 l3.
Proof.
  intros H; revert l3. induction H as [|a b l1 l2 [Hi Hc] _ IH]; intros l3 H3;
    inversion H3 as [|b' c l2' l3' [Hi' Hc'] H3']; subst; constructor.
  - split; congruence.
  - now apply IH.
Qed.

Lemma same_payload_ids (l1 l2 : list FundingRound) :
  Forall2 Aux.same_payload l1 l2 ->
  map id l1 = map id l2 /\ map company_id l1 = map company_id l2.
Proof.
  induction 1 as [|a b l1 l2 [Hi Hc] _ [IH1 IH2]]; simpl; [auto|].
  split; congruence.
Qed.

Lemma same_payload_in_r (l1 l2 : list FundingRound) (b : FundingRound) :
  Forall2 Aux.same_payload l1 l2 -> In b l2 ->
  exists a, In a l1 /\ Aux.same_payload a b.
Proof.
  induction 1 as [|a0 b0 l1 l2 H0 _ IH]; simpl; [tauto|].
  intros [<-|Hin]; [exists a0; auto|].
  destruct (IH Hin) as (a & Ha & Hp). exists a; auto.
Qed.

Lemma same_payload_in_l (l1 l2 : list FundingRound) (a : FundingRound) :
  Forall2 Aux.same_payload l1 l2 -> In a l1 ->
  exists b, In b l2 /\ Aux.same_payload a b.
Proof.
  induction 1 as [|a0 b0 l1 l2 H0 _ IH]; simpl; [tauto|].
  intros [<-|Hin]; [exists b0; auto|].
  destruct (IH Hin) as (b & Hb & Hp). exists b; auto.
Qed.

End Rows.


(* ================================================================== *)
(** ** The double loop *)

Section Loop.
Import Models DatabaseManager DeduplicatorV2.

Variable self : t.

(** The inner [range(i + 1, len(rounds))] visits the elements after
    position [i] in order. *)
Lemma inner_range (rounds : list FundingRound) (round1 : FundingRound) (i : nat)
      (acc : Session * nat) (k : nat) :
  nth_error rounds i = Some round1 ->
  fold_left (fun acc j => compare_at self rounds i j acc)
            (seq k (List.length rounds - k)) acc
  = fold_left (fun acc round2 => compare_pair self round1 round2 acc)
              (skipn k rounds) acc.
Proof.
  intros Hi.
  remember (List.length rounds - k)%nat as m eqn:Hm.
  revert k acc Hm. induction m as [|m IH]; intros k acc Hm; simpl.
  - rewrite skipn_all2 by lia. reflexivity.
  - assert (Hk : (k < List.length rounds)%nat) by lia.
    destruct (nth_error rounds k) as [round2|] eqn:Ek;
      [|apply nth_error_None in Ek; lia].
    rewrite (IH (S k)) by lia.
    assert (Hs : skipn k rounds = round2 :: skipn (S k) rounds).
    { clear -Ek. revert k Ek. induction rounds as [|x l IHl]; intros [|k] E;
        simpl in *; try discriminate.
      - now inversion E.
      - now apply IHl. }
    rewrite Hs. simpl. unfold compare_at. rewrite Hi, Ek. reflexivity.
Qed.

Lemma outer_range (rounds : list FundingRound) (acc : Session * nat) (k : nat) :
  fold_left
    (fun acc i =>
       fold_left (fun acc j => compare_at self rounds i j acc)
                 (seq (i + 1) (List.length rounds - (i + 1))) acc)
    (seq k (List.length rounds - k)) acc
  = Aux.pairs_from self (skipn k rounds) acc.
Proof.
  remember (List.length rounds - k)%nat as m eqn:Hm.
  revert k acc Hm. induction m as [|m IH]; intros k acc Hm; simpl.
  - rewrite skipn_all2 by lia. reflexivity.
  - destruct (nth_error rounds k) as [round1|] eqn:Ek;
      [|apply nth_error_None in Ek; lia].
    assert (Hs : skipn k rounds = round1 :: skipn (S k) rounds).
    { clear -Ek. revert k Ek. induction rounds as [|x l IHl]; intros [|k] E;
        simpl in *; try discriminate.
      - now inversion E.
      - now apply IHl. }
    rewrite (IH (S k)) by lia. rewrite Hs. simpl.
    rewrite (inner_range rounds round1 k _ (k + 1) Ek).
    replace (k + 1)%nat with (S k) by lia. reflexivity.
Qed.

(** [pair_loop] compares each element with every later one, in order. *)
Lemma pair_loop_pairs_from (rounds : list FundingRound) (acc : Session * nat) :
  pair_loop self rounds acc = Aux.pairs_from self rounds acc.
Proof.
  unfold pair_loop. cbv zeta.
  rewrite <- (Nat.sub_0_r (List.length rounds)) at 1.
  now rewrite outer_range.
Qed.

(** An invariant of the loop: a property of the accumulator that every
    comparison of an earlier element with a later one preserves. *)
Lemma pairs_from_invariant (Q : FundingRound -> FundingRound -> Prop)
      (P : Session * nat -> Prop) (rounds : list FundingRound) :
  (forall round1 round2 acc,
      Q round1 round2 -> P acc -> P (compare_pair self round1 round2 acc)) ->
  ForallOrdPairs Q rounds ->
  forall acc, P acc -> P (Aux.pairs_from self rounds acc).
Proof.
  intros Hstep. induction 1 as [|round1 rest Hhead _ IH]; intros acc Hacc; simpl.
  - exact Hacc.
  - apply IH. clear IH. revert acc Hacc.
    induction Hhead as [|round2 rest' Hq _ IHr]; intros acc Hacc; simpl.
    + exact Hacc.
    + apply IHr. now apply Hstep.
Qed.

(** What one comparison does: nothing, or one [mark_as_duplicate] and
    one more duplicate counted. *)
Lemma compare_pair_cases (round1 round2 : FundingRound) (s : Session) (n : nat) :
  compare_pair self round1 round2 (s, n) = (s, n)
  \/ compare_pair self round1 round2 (s, n)
     = (mark_as_duplicate s (id round2) (id round1), S n)
  \/ compare_pair self round1 round2 (s, n)
     = (mark_as_duplicate s (id round1) (id round2), S n).
Proof.
  unfold compare_pair.
  destruct (are_duplicates self round1 round2); [|auto].
  destruct (is_high round1 && negb (is_high round2)); [auto|].
  destruct (is_high round2 && negb (is_high round1)); [auto|].
  destruct (Nat.leb _ _); auto.
Qed.

End Loop.


(* ================================================================== *)
(** ** The merge rule *)

Section Merge.
Import Models DatabaseManager DeduplicatorV2.

Lemma mark_as_duplicate_demotes (s : Session) (L W l0 : FundingRound) :
  get_round (funding_rounds s) (id L) = Some l0 ->
  id L <> id W ->
  Spec.demoted s (mark_as_duplicate s (id L) (id W)) L W.
Proof.
  intros Hl Hne. unfold Spec.demoted.
  rewrite mark_as_duplicate_rounds.
  exists (set_duplicate l0 (id W)).
  rewrite !get_round_update by reflexivity.
  rewrite Z.eqb_refl, Hl.
  destruct (Z.eqb_spec (id W) (id L)) as [E|_]; [congruence|].
  repeat split.
Qed.

End Merge.

(* ================================================================== *)
(** ** [mark_as_duplicate] on a key without a row *)

(** C10.  When no row of [funding_rounds] has the key [round_id],
    [mark_as_duplicate] returns normally and leaves the session, hence
    every [is_duplicate] and [duplicate_of_id], as it was. *)
Theorem C10_mark_missing_noop :
  forall (s : Models.Session) (round_id original_round_id : Z),
    (forall r, In r (Models.funding_rounds s) -> Models.id r <> round_id) ->
    DatabaseManager.mark_as_duplicate s round_id original_round_id = s
    /\ map (fun r => (Models.is_duplicate r, Models.duplicate_of_id r))
           (Models.funding_rounds
              (DatabaseManager.mark_as_duplicate s round_id original_round_id))
       = map (fun r => (Models.is_duplicate r, Models.duplicate_of_id r))
             (Models.funding_rounds s).
Proof.
  intros s rid oid H.
  assert (E : DatabaseManager.mark_as_duplicate s rid oid = s).
  { unfold DatabaseManager.mark_as_duplicate.
    apply get_round_none in H. now rewrite H. }
  now rewrite E.
Qed.

(** C10 at the session of Acme, whose keys are 1 and 2, and the key 99. *)
Lemma C10_mark_missing_noop_witness :
  DatabaseManager.mark_as_duplicate Examples.acme_session 99 1
  = Examples.acme_session.
Proof.
  apply (C10_mark_missing_noop Examples.acme_session 99 1).
  intros r [<-|[<-|[]]]; vm_compute; discriminate.
Defined.

(* ================================================================== *)
(** ** The stage flag *)

Section Status.
Import Models DatabaseManager DeduplicatorV2.

Lemma find_status_update (l : list ProcessingStatus) (cid : Z)
      (f : ProcessingStatus -> ProcessingStatus) (st : ProcessingStatus) :
  (forall x, status_company_id (f x) = status_company_id x) ->
  find_status l cid = Some st ->
  find_status (update_status l cid f) cid = Some (f st).
Proof.
  intros Hf. unfold find_status.
  induction l as [|x l IH]; simpl; [discriminate|].
  destruct (Z.eqb_spec (status_company_id x) cid) as [E|N]; simpl.
  - intros H; inversion H; subst x. rewrite Hf.
    destruct (Z.eqb_spec (status_company_id st) cid); [reflexivity|contradiction].
  - destruct (Z.eqb_spec (status_company_id x) cid); [contradiction|]. exact IH.
Qed.

Lemma find_status_app_new (l : list ProcessingStatus) (cid : Z) :
  find_status l cid = None ->
  find_status (l ++ [new_status cid]) cid = Some (new_status cid).
Proof.
  unfold find_status. induction l as [|x l IH]; simpl.
  - now rewrite Z.eqb_refl.
  - destruct (status_company_id x =? cid); [discriminate | exact IH].
Qed.

(** After [get_processing_status] the row exists. *)
Lemma get_processing_status_found (s s1 : Session) (cid : Z) (st : ProcessingStatus) :
  get_processing_status s cid = (s1, st) ->
  find_status (processing_status s1) cid = Some st
  /\ funding_rounds s1 = funding_rounds s
  /\ companies s1 = companies s.
Proof.
  unfold get_processing_status.
  destruct (find_status (processing_status s) cid) as [st0|] eqn:E;
    intros H; inversion H; subst.
  - auto.
  - simpl. auto using find_status_app_new.
Qed.

Lemma get_processing_status_again (s : Session) (cid : Z) (st : ProcessingStatus) :
  find_status (processing_status s) cid = Some st ->
  get_processing_status s cid = (s, st).
Proof. unfold get_processing_status. now intros ->. Qed.

(** After [update_stage4_status ... completed=True] the flag is set. *)
Lemma update_stage4_status_merged (now : Z) (s : Session) (cid : Z) (u : nat) :
  exists st,
    find_status (processing_status (update_stage4_status now s cid u true)) cid
    = Some st
    /\ stage4_merged st = true.
Proof.
  unfold update_stage4_status.
  destruct (get_processing_status s cid) as [s1 st] eqn:E.
  apply get_processing_status_found in E as (Hf & _ & _).
  eexists. split.
  - simpl. apply find_status_update; [reflexivity | exact Hf].
  - reflexivity.
Qed.

Lemma update_stage4_status_rounds (now : Z) (s : Session) (cid : Z) (u : nat)
      (b : bool) :
  funding_rounds (update_stage4_status now s cid u b) = funding_rounds s
  /\ companies (update_stage4_status now s cid u b) = companies s.
Proof.
  unfold update_stage4_status.
  destruct (get_processing_status s cid) as [s1 st] eqn:E.
  apply get_processing_status_found in E as (_ & Hr & Hc).
  simpl. auto.
Qed.

(** A company whose flag is set is skipped. *)
Lemma deduplicate_company_skips (self : t) (now : Z) (s : Session)
      (company : Company) (st : ProcessingStatus) :
  find_status (processing_status s) (company_pk company) = Some st ->
  stage4_merged st = true ->
  deduplicate_company self now s company = (s, 0%nat).
Proof.
  intros Hf Hm. unfold deduplicate_company.
  rewrite (get_processing_status_again _ _ _ Hf), Hm. reflexivity.
Qed.

End Status.

(** C3.  For every company, a call of [deduplicate_company] that follows
    a completed call returns 0 and leaves the session as the first call
    left it, so every [is_duplicate] and [duplicate_of_id] is unchanged;
    this holds for any configuration and clock reading of the second
    call. *)
Theorem C3_second_call_noop :
  forall (self self' : DeduplicatorV2.t) (now now' : Z) (s : Models.Session)
         (company : Models.Company),
    DeduplicatorV2.deduplicate_company self' now'
      (fst (DeduplicatorV2.deduplicate_company self now s company)) company
    = (fst (DeduplicatorV2.deduplicate_company self now s company), 0%nat).
Proof.
  intros self self' now now' s company.
  unfold DeduplicatorV2.deduplicate_company at 2 3.
  destruct (DatabaseManager.get_processing_status s (Models.company_pk company))
    as [s1 st] eqn:E.
  apply get_processing_status_found in E as (Hf & _ & _).
  destruct (Models.stage4_merged st) eqn:Hm.
  - cbn [fst]. now apply (deduplicate_company_skips self' now' s1 company st).
  - destruct (Nat.leb _ 1).
    + cbn [fst].
      destruct (update_stage4_status_merged now s1 (Models.company_pk company)
                  (List.length (DeduplicatorV2.company_rounds s1
                                  (Models.company_pk company))))
        as (st' & Hf' & Hm').
      now apply (deduplicate_company_skips self' now' _ company st').
    + destruct (DeduplicatorV2.pair_loop self _ _) as [s2 found]. cbn [fst].
      destruct (update_stage4_status_merged now s2 (Models.company_pk company)
                  (List.length (DeduplicatorV2.company_rounds s2
                                  (Models.company_pk company))))
        as (st' & Hf' & Hm').
      now apply (deduplicate_company_skips self' now' _ company st').
Qed.


(* ================================================================== *)
(** ** The reserved flag *)

Section Fuzzy.
Import Models DeduplicatorV2.

Variables self1 self2 : t.
Hypothesis same_days : date_proximity_days self1 = date_proximity_days self2.
Hypothesis same_threshold :
  amount_similarity_threshold self1 = amount_similarity_threshold self2.

Lemma are_duplicates_flag (A B : FundingRound) :
  are_duplicates self1 A B = are_duplicates self2 A B.
Proof.
  unfold are_duplicates, dates_are_close, amounts_are_similar.
  now rewrite same_days, same_threshold.
Qed.

Lemma compare_pair_flag (A B : FundingRound) (acc : Session * nat) :
  compare_pair self1 A B acc = compare_pair self2 A B acc.
Proof. unfold compare_pair. now rewrite are_duplicates_flag. Qed.

Lemma pairs_from_flag (rounds : list FundingRound) (acc : Session * nat) :
  Aux.pairs_from self1 rounds acc = Aux.pairs_from self2 rounds acc.
Proof.
  revert acc. induction rounds as [|r rest IH]; intros acc; simpl; [reflexivity|].
  rewrite IH. f_equal. clear IH. revert acc.
  induction rest as [|r2 rest IH]; intros acc; simpl; [reflexivity|].
  now rewrite compare_pair_flag, IH.
Qed.

Lemma deduplicate_company_flag (now : Z) (s : Session) (company : Company) :
  deduplicate_company self1 now s company = deduplicate_company self2 now s company.
Proof.
  unfold deduplicate_company.
  destruct (DatabaseManager.get_processing_status s (company_pk company))
    as [s1 st].
  destruct (stage4_merged st); [reflexivity|].
  destruct (Nat.leb _ 1); [reflexivity|].
  now rewrite !pair_loop_pairs_from, pairs_from_flag.
Qed.

End Fuzzy.

(** C9.  Two deduplicators that differ only in [enable_fuzzy_matching]
    give the same [are_duplicates] on every pair of records and the same
    session and return value of [deduplicate_company]; and two
    configurations that differ only in that key initialize two such
    deduplicators. *)
Theorem C9_fuzzy_flag_unused :
  forall (self1 self2 : DeduplicatorV2.t),
    DeduplicatorV2.date_proximity_days self1
    = DeduplicatorV2.date_proximity_days self2 ->
    DeduplicatorV2.amount_similarity_threshold self1
    = DeduplicatorV2.amount_similarity_threshold self2 ->
    (forall A B,
        DeduplicatorV2.are_duplicates self1 A B
        = DeduplicatorV2.are_duplicates self2 A B)
    /\ (forall now s company,
           DeduplicatorV2.deduplicate_company self1 now s company
           = DeduplicatorV2.deduplicate_company self2 now s company).
Proof.
  intros self1 self2 Hd Ht. split.
  - intros A B. now apply are_duplicates_flag.
  - intros now s company. now apply deduplicate_company_flag.
Qed.

(** C9 at the configurations [{'deduplication': {'enable_fuzzy_matching':
    True}}] and [{... False}], on the session of Gamma. *)
Lemma C9_fuzzy_flag_unused_witness :
  DeduplicatorV2.deduplicate_company
    (DeduplicatorV2.init
       (DeduplicatorV2.mkConfig
          (Some (DeduplicatorV2.mkDedupConfig None None (Some true)))))
    0 Examples.gamma_session Examples.gamma
  = DeduplicatorV2.deduplicate_company
      (DeduplicatorV2.init
         (DeduplicatorV2.mkConfig
            (Some (DeduplicatorV2.mkDedupConfig None None (Some false)))))
      0 Examples.gamma_session Examples.gamma.
Proof.
  apply (proj2 (C9_fuzzy_flag_unused
                  (DeduplicatorV2.init
                     (DeduplicatorV2.mkConfig
                        (Some (DeduplicatorV2.mkDedupConfig None None (Some true)))))
                  (DeduplicatorV2.init
                     (DeduplicatorV2.mkConfig
                        (Some (DeduplicatorV2.mkDedupConfig None None (Some false)))))
                  eq_refl eq_refl)).
Defined.


(* ================================================================== *)
(** ** What a run never changes *)

Section Preserved.
Import Models DatabaseManager DeduplicatorV2 Aux.

Lemma preserved_refl (s : Session) : preserved s s.
Proof. split; [apply same_payload_refl | reflexivity]. Qed.

Lemma preserved_trans (s1 s2 s3 : Session) :
  preserved s1 s2 -> preserved s2 s3 -> preserved s1 s3.
Proof.
  intros [H1 C1] [H2 C2]. split; [|congruence].
  eapply same_payload_trans; eassumption.
Qed.

Lemma preserved_mark (s : Session) (d o : Z) :
  preserved s (mark_as_duplicate s d o).
Proof.
  split.
  - rewrite mark_as_duplicate_rounds. apply update_round_payload.
  - apply mark_as_duplicate_companies.
Qed.

Lemma preserved_compare_pair (self : t) (s0 : Session) (r1 r2 : FundingRound)
      (acc : Session * nat) :
  preserved s0 (fst acc) -> preserved s0 (fst (compare_pair self r1 r2 acc)).
Proof.
  destruct acc as [s n]. intros H.
  destruct (compare_pair_cases self r1 r2 s n) as [E|[E|E]]; rewrite E;
    cbn [fst] in *; [assumption| |];
    (eapply preserved_trans; [exact H | apply preserved_mark]).
Qed.

Lemma all_pairs_trivial (l : list FundingRound) :
  ForallOrdPairs (fun _ _ => True) l.
Proof.
  induction l as [|a l IH]; constructor; [|exact IH].
  apply Forall_forall. auto.
Qed.

Lemma preserved_get_status (s s1 : Session) (cid : Z) (st : ProcessingStatus) :
  get_processing_status s cid = (s1, st) -> preserved s s1.
Proof.
  intros H. apply get_processing_status_found in H as (_ & Hr & Hc).
  split; [rewrite Hr; apply same_payload_refl | exact Hc].
Qed.

Lemma preserved_update_stage4 (now : Z) (s : Session) (cid : Z) (u : nat) (b : bool) :
  preserved s (update_stage4_status now s cid u b).
Proof.
  destruct (update_stage4_status_rounds now s cid u b) as [Hr Hc].
  split; [rewrite Hr; apply same_payload_refl | exact Hc].
Qed.

Lemma preserved_deduplicate_company (self : t) (now : Z) (s : Session)
      (company : Company) :
  preserved s (fst (deduplicate_company self now s company)).
Proof.
  unfold deduplicate_company.
  destruct (get_processing_status s (company_pk company)) as [s1 st] eqn:E.
  apply preserved_get_status in E.
  destruct (stage4_merged st); [exact E|].
  destruct (Nat.leb _ 1); cbn [fst].
  - eapply preserved_trans; [exact E | apply preserved_update_stage4].
  - rewrite pair_loop_pairs_from.
    pose proof (pairs_from_invariant self (fun _ _ => True)
                  (fun acc => preserved s1 (fst acc))
                  (company_rounds s1 (company_pk company))
                  (fun r1 r2 acc _ H => preserved_compare_pair self s1 r1 r2 acc H)
                  (all_pairs_trivial _) (s1, 0%nat) (preserved_refl s1)) as H.
    destruct (Aux.pairs_from self _ _) as [s2 found]. cbn [fst] in *.
    eapply preserved_trans; [exact E|].
    eapply preserved_trans; [exact H | apply preserved_update_stage4].
Qed.

Lemma preserved_length (s s' : Session) :
  preserved s s' ->
  List.length (funding_rounds s') = List.length (funding_rounds s).
Proof. intros [H _]. symmetry. eapply Forall2_length; eassumption. Qed.

Lemma preserved_foreign_keys (s s' : Session) :
  preserved s s' -> foreign_keys_ok s -> foreign_keys_ok s'.
Proof.
  intros [H C] FK r Hr.
  destruct (same_payload_in_r _ _ r H Hr) as (r0 & Hr0 & _ & Hc).
  destruct (FK r0 Hr0) as (c & Hin & Hk).
  exists c. split; congruence.
Qed.

Lemma preserved_owner (s s' : Session) (cid : Z) :
  preserved s s' ->
  (exists r, In r (funding_rounds s) /\ company_id r = cid) ->
  exists r, In r (funding_rounds s') /\ company_id r = cid.
Proof.
  intros [H _] (r & Hr & Hc).
  destruct (same_payload_in_l _ _ r H Hr) as (r' & Hr' & _ & Hc').
  exists r'. split; congruence.
Qed.

End Preserved.


(* ================================================================== *)
(** ** [deduplicate_all] *)

Section All.
Import Models DatabaseManager DeduplicatorV2 Aux.

Lemma distinct_in (l : list Z) (x : Z) : In x (distinct l) <-> In x l.
Proof.
  induction l as [|y l IH]; simpl; [tauto|].
  rewrite filter_In, IH. split.
  - intros [H|[H _]]; auto.
  - intros [H|H]; [auto|].
    destruct (Z.eqb_spec x y) as [E|N]; [left; congruence|].
    right. split; [assumption | reflexivity].
Qed.

Lemma distinct_NoDup (l : list Z) : NoDup (distinct l).
Proof.
  induction l as [|y l IH]; simpl; constructor.
  - rewrite filter_In. intros [_ H]. now rewrite Z.eqb_refl in H.
  - now apply NoDup_filter.
Qed.

Lemma find_some_exists {A} (f : A -> bool) (l : list A) (x : A) :
  In x l -> f x = true -> exists y, find f l = Some y.
Proof.
  intros Hin Hf. destruct (find f l) as [y|] eqn:E; [now exists y|].
  rewrite (find_none _ _ E x Hin) in Hf. discriminate.
Qed.

(** The relationship [round.company] resolves when the foreign keys
    are valid, and to the company with the key asked for. *)
Lemma first_round_company_some (s : Session) (cid : Z) :
  foreign_keys_ok s ->
  (exists r, In r (funding_rounds s) /\ company_id r = cid) ->
  exists company,
    first_round_company s cid = Some company /\ company_pk company = cid.
Proof.
  intros FK (r & Hr & Hc). unfold first_round_company.
  destruct (find_some_exists (fun r => company_id r =? cid) _ r Hr) as [r1 E1].
  { now apply Z.eqb_eq. }
  rewrite E1. apply find_some in E1 as [Hr1 Hc1]. apply Z.eqb_eq in Hc1.
  destruct (FK r1 Hr1) as (c & Hin & Hk).
  destruct (find_some_exists (fun c => company_pk c =? company_id r1) _ c Hin)
    as [c1 E2].
  { now apply Z.eqb_eq. }
  exists c1. split; [exact E2|].
  apply find_some in E2 as [_ E2]. apply Z.eqb_eq in E2. congruence.
Qed.

(** The loop over the companies finishes, adds up what the calls
    return, and keeps keys and companies. *)
Lemma dedup_loop_total (self : t) (now : nat -> Z) (cids : list Z) :
  forall (i : nat) (s : Session) (total : nat),
    foreign_keys_ok s ->
    (forall cid, In cid cids ->
                 exists r, In r (funding_rounds s) /\ company_id r = cid) ->
    exists s' n,
      dedup_loop self now i cids s total = Some (s', n)
      /\ n = (total + list_sum (company_counts self now i cids s))%nat
      /\ List.length (company_counts self now i cids s) = List.length cids
      /\ preserved s s'.
Proof.
  induction cids as [|cid rest IH]; intros i s total FK Hown; simpl.
  - exists s, total. repeat split; [lia | apply same_payload_refl].
  - destruct (first_round_company_some s cid FK (Hown cid (or_introl eq_refl)))
      as (company & E & _).
    rewrite E.
    pose proof (preserved_deduplicate_company self (now i) s company) as Hp.
    destruct (deduplicate_company self (now i) s company) as [s1 d].
    cbn [fst] in Hp.
    destruct (IH (S i) s1 (total + d)%nat) as (s' & n & El & En & Elen & Hp').
    + now apply (preserved_foreign_keys s).
    + intros c Hc. apply (preserved_owner s); [assumption|].
      apply Hown. now right.
    + exists s', n. repeat split.
      * exact El.
      * simpl. lia.
      * simpl. now rewrite Elen.
      * destruct Hp as [H1 H2], Hp' as [H3 H4].
        eapply same_payload_trans; eassumption.
      * destruct Hp as [H1 H2], Hp' as [H3 H4]. congruence.
Qed.

End All.

(** C6, the claim fails: on the session of Acme, two rounds of which one
    is demoted, [deduplication_rate] is 50 (a percentage), not
    [duplicates_removed / total_rounds], which is 0.5. *)
Lemma C6_counterexample :
  option_map snd
    (DeduplicatorV2.deduplicate_all Examples.default_dedup (fun _ => 0)
       Examples.acme_session)
  = Some (DeduplicatorV2.mkStats 1 2 1 1 50%float)
  /\ (PyFloat.of_nat 1 / PyFloat.of_nat 2)%float = 0.5%float
  /\ PrimFloat.eqb 50%float 0.5%float = false.
Proof. repeat apply conj; vm_compute; reflexivity. Qed.

(** C6 as amended.  When every round refers to a row of [companies],
    [deduplicate_all] returns statistics in which [total_companies] is
    the number of distinct companies that own a round, [total_rounds]
    counts all rounds (none is added or removed), [unique_rounds] counts
    the rounds with [is_duplicate] false, [duplicates_removed] is the sum
    of what the per-company calls returned, one call per company, and
    [deduplication_rate] is [duplicates_removed / total_rounds * 100],
    a percentage, and zero when there is no round. *)
Theorem C6_deduplicate_all_statistics :
  forall (self : DeduplicatorV2.t) (now : nat -> Z) (s : Models.Session),
    Models.foreign_keys_ok s ->
    exists (s' : Models.Session) (st : DeduplicatorV2.Stats) (cids : list Z),
      DeduplicatorV2.deduplicate_all self now s = Some (s', st)
      /\ NoDup cids
      /\ (forall c, In c cids <->
                    exists r, In r (Models.funding_rounds s)
                              /\ Models.company_id r = c)
      /\ DeduplicatorV2.total_companies st = List.length cids
      /\ DeduplicatorV2.total_rounds st = List.length (Models.funding_rounds s')
      /\ List.length (Models.funding_rounds s')
         = List.length (Models.funding_rounds s)
      /\ DeduplicatorV2.unique_rounds st
         = List.length (filter (fun r => negb (Models.is_duplicate r))
                               (Models.funding_rounds s'))
      /\ DeduplicatorV2.duplicates_removed st
         = list_sum (Aux.company_counts self now 1 cids s)
      /\ List.length (Aux.company_counts self now 1 cids s) = List.length cids
      /\ DeduplicatorV2.deduplication_rate st
         = (if Nat.eqb (DeduplicatorV2.total_rounds st) 0 then 0%float
            else (PyFloat.of_nat (DeduplicatorV2.duplicates_removed st)
                  / PyFloat.of_nat (DeduplicatorV2.total_rounds st) * 100)%float).
Proof.
  intros self now s FK.
  set (cids := DeduplicatorV2.distinct (map Models.company_id (Models.funding_rounds s))).
  assert (Hown : forall c, In c cids <->
                   exists r, In r (Models.funding_rounds s)
                             /\ Models.company_id r = c).
  { intros c. unfold cids. rewrite distinct_in, in_map_iff.
    split; intros (r & H1 & H2); exists r; auto. }
  destruct (dedup_loop_total self now cids 1%nat s 0%nat FK)
    as (s' & n & El & En & Elen & Hp).
  { intros c Hc. now apply Hown. }
  unfold DeduplicatorV2.deduplicate_all. fold cids. rewrite El.
  eexists s', _, cids. split; [reflexivity|].
  cbn [DeduplicatorV2.total_companies DeduplicatorV2.total_rounds
       DeduplicatorV2.unique_rounds DeduplicatorV2.duplicates_removed
       DeduplicatorV2.deduplication_rate].
  repeat apply conj; try reflexivity; try assumption.
  - apply distinct_NoDup.
  - now apply preserved_length.
  - unfold DeduplicatorV2.rate.
    now destruct (List.length (Models.funding_rounds s')).
Qed.

(** C6 at the session of Acme. *)
Lemma C6_deduplicate_all_statistics_witness :
  exists (s' : Models.Session) (st : DeduplicatorV2.Stats),
    DeduplicatorV2.deduplicate_all Examples.default_dedup (fun _ => 0)
      Examples.acme_session = Some (s', st).
Proof.
  destruct (C6_deduplicate_all_statistics Examples.default_dedup (fun _ => 0)
              Examples.acme_session) as (s' & st & _ & H & _).
  - intros r [<-|[<-|[]]]; exists Examples.acme; split;
      first [now left | reflexivity].
  - now exists s', st.
Defined.


(* ================================================================== *)
(** ** A cluster of three records *)

Section Cluster.
Import Models DatabaseManager DeduplicatorV2.

Lemma NoDup_ids_filter (f : FundingRound -> bool) (l : list FundingRound) :
  NoDup (map id l) -> NoDup (map id (filter f l)).
Proof.
  induction l as [|r l IH]; simpl; intros H; [constructor|].
  inversion H as [|x xs Hnot Hnd]; subst.
  destruct (f r); simpl; [constructor|]; auto.
  intros Hin. apply Hnot. apply in_map_iff in Hin as (r' & E & Hin).
  apply filter_In in Hin as [Hin _]. apply in_map_iff. now exists r'.
Qed.

Lemma get_round_in (l : list FundingRound) (r : FundingRound) :
  NoDup (map id l) -> In r l -> get_round l (id r) = Some r.
Proof.
  unfold get_round. induction l as [|x l IH]; simpl; intros H Hin; [tauto|].
  inversion H as [|y ys Hnot Hnd]; subst.
  destruct Hin as [->|Hin].
  - now rewrite Z.eqb_refl.
  - destruct (Z.eqb_spec (id x) (id r)) as [E|_]; [|auto].
    exfalso. apply Hnot. rewrite E. now apply in_map.
Qed.

Lemma update_round_ids (l : list FundingRound) (d o : Z) :
  map id (update_round l d (fun r => set_duplicate r o)) = map id l.
Proof.
  symmetry. apply (same_payload_ids _ _ (update_round_payload l d o)).
Qed.

(** With distinct keys, the assignment touches every row with the key. *)
Lemma update_round_map (l : list FundingRound) (d : Z)
      (f : FundingRound -> FundingRound) :
  NoDup (map id l) ->
  update_round l d f = map (fun r => if id r =? d then f r else r) l.
Proof.
  induction l as [|r l IH]; simpl; intros H; [reflexivity|].
  inversion H as [|x xs Hnot Hnd]; subst.
  destruct (Z.eqb_spec (id r) d) as [E|N].
  - f_equal. rewrite <- (map_id l) at 1. apply map_ext_in.
    intros r' Hr'. destruct (Z.eqb_spec (id r') d) as [E'|_]; [|reflexivity].
    exfalso. apply Hnot. rewrite E, <- E'. now apply in_map.
  - f_equal. now apply IH.
Qed.

Lemma filter_andb {A} (f g : A -> bool) (l : list A) :
  filter (fun x => f x && g x) l = filter g (filter f l).
Proof.
  induction l as [|x l IH]; simpl; [reflexivity|].
  destruct (f x); simpl; [destruct (g x)|]; now rewrite IH.
Qed.

(** Two records of equal confidence tier: completeness decides. *)
Lemma compare_pair_same_tier (self : t) (A B : FundingRound) (s : Session) (n : nat) :
  are_duplicates self A B = true ->
  confidence_score A = confidence_score B ->
  compare_pair self A B (s, n)
  = if Nat.leb (completeness B) (completeness A)
    then (mark_as_duplicate s (id B) (id A), S n)
    else (mark_as_duplicate s (id A) (id B), S n).
Proof.
  intros Hd Hc. unfold compare_pair, is_high. rewrite Hd, Hc.
  destruct (String.eqb (confidence_score B) "HIGH"); reflexivity.
Qed.

End Cluster.

Section ClusterRun.
Import Models DatabaseManager DeduplicatorV2.

Lemma get_processing_status_flag (s s1 : Session) (cid : Z) (st : ProcessingStatus) :
  get_processing_status s cid = (s1, st) ->
  (forall st0, find_status (processing_status s) cid = Some st0 ->
               stage4_merged st0 = false) ->
  stage4_merged st = false.
Proof.
  unfold get_processing_status.
  destruct (find_status (processing_status s) cid) as [st0|] eqn:E;
    intros H Hflag; inversion H; subst; auto.
Qed.

Variable self : t.
Variable now : Z.
Variable s : Session.
Variable company : Company.
Variables r0 r1 r2 : FundingRound.

Hypothesis ids_unique : unique_ids s.
Hypothesis flag_unset :
  forall st, find_status (processing_status s) (company_pk company) = Some st ->
             stage4_merged st = false.
Hypothesis three_rounds :
  filter (fun r => company_id r =? company_pk company) (funding_rounds s)
  = [r0; r1; r2].
Hypothesis fresh0 : is_duplicate r0 = false.
Hypothesis fresh1 : is_duplicate r1 = false.
Hypothesis fresh2 : is_duplicate r2 = false.
Hypothesis dup01 : are_duplicates self r0 r1 = true.
Hypothesis dup02 : are_duplicates self r0 r2 = true.
Hypothesis dup12 : are_duplicates self r1 r2 = true.
Hypothesis tier01 : confidence_score r0 = confidence_score r1.
Hypothesis tier12 : confidence_score r1 = confidence_score r2.
Hypothesis score0 : completeness r0 = 2%nat.
Hypothesis score1 : completeness r1 = 3%nat.
Hypothesis score2 : completeness r2 = 1%nat.

Let cid := company_pk company.
Let l := funding_rounds s.
Let l1 := update_round l (id r0) (fun r => set_duplicate r (id r1)).
Let l2 := update_round l1 (id r2) (fun r => set_duplicate r (id r0)).
Let l3 := update_round l2 (id r2) (fun r => set_duplicate r (id r1)).

Lemma cluster_members : In r0 l /\ In r1 l /\ In r2 l.
Proof.
  assert (H : forall r, In r [r0; r1; r2] -> In r l).
  { intros r Hr. rewrite <- three_rounds in Hr.
    now apply filter_In in Hr. }
  repeat split; apply H; simpl; auto.
Qed.

Lemma cluster_keys : id r0 <> id r1 /\ id r0 <> id r2 /\ id r1 <> id r2.
Proof.
  pose proof (NoDup_ids_filter (fun r => company_id r =? company_pk company)
                _ ids_unique) as H.
  rewrite three_rounds in H. simpl in H.
  inversion H as [|x xs H0 H']; subst. inversion H' as [|y ys H1 _]; subst.
  simpl in H0, H1. repeat split; intros E; rewrite E in *; tauto.
Qed.

(** The run makes the three comparisons in order, each of which
    demotes one record. *)
Lemma cluster_run :
  exists s2,
    funding_rounds s2 = l3
    /\ deduplicate_company self now s company
       = (update_stage4_status now s2 cid
            (List.length (company_rounds s2 cid)) true, 3%nat).
Proof.
  unfold deduplicate_company. fold cid.
  destruct (get_processing_status s cid) as [s1 st] eqn:E.
  rewrite (get_processing_status_flag _ _ _ _ E flag_unset).
  apply get_processing_status_found in E as (_ & Hr & _).
  assert (Hl : company_rounds s1 cid = [r0; r1; r2]).
  { unfold company_rounds. rewrite Hr, filter_andb. unfold cid.
    rewrite three_rounds. simpl. now rewrite fresh0, fresh1, fresh2. }
  rewrite Hl. cbn [List.length Nat.leb].
  rewrite pair_loop_pairs_from. cbn [Aux.pairs_from fold_left].
  rewrite (compare_pair_same_tier self r0 r1 _ _ dup01 tier01).
  rewrite score0, score1. cbn [Nat.leb].
  rewrite (compare_pair_same_tier self r0 r2 _ _ dup02 (eq_trans tier01 tier12)).
  rewrite score0, score2. cbn [Nat.leb].
  rewrite (compare_pair_same_tier self r1 r2 _ _ dup12 tier12).
  rewrite score1, score2. cbn [Nat.leb].
  eexists. split; [|reflexivity].
  rewrite !mark_as_duplicate_rounds, Hr. reflexivity.
Qed.

Lemma cluster_survivor :
  filter (fun r => (company_id r =? cid) && negb (is_duplicate r)) l3 = [r1].
Proof.
  destruct cluster_keys as (K01 & K02 & K12).
  assert (N0 : NoDup (map id l)) by exact ids_unique.
  assert (N1 : NoDup (map id l1)) by (unfold l1; now rewrite update_round_ids).
  assert (N2 : NoDup (map id l2)) by (unfold l2; now rewrite update_round_ids).
  unfold l3. rewrite (update_round_map l2) by exact N2.
  unfold l2. rewrite (update_round_map l1) by exact N1.
  unfold l1. rewrite (update_round_map l) by exact N0.
  rewrite !map_map, filter_map_swap.
  rewrite (filter_ext_in _
             (fun r => (company_id r =? cid)
                       && negb ((id r =? id r0) || (id r =? id r2)
                                || is_duplicate r))).
  - assert (E10 : (id r1 =? id r0) = false) by (apply Z.eqb_neq; congruence).
    assert (E12 : (id r1 =? id r2) = false) by (apply Z.eqb_neq; congruence).
    assert (E02 : (id r0 =? id r2) = false) by (apply Z.eqb_neq; congruence).
    rewrite filter_andb. unfold cid, l. rewrite three_rounds.
    repeat first [ rewrite Z.eqb_refl | rewrite E10 | rewrite E12
                 | rewrite E02 | rewrite fresh1 | rewrite orb_true_r
                 | progress cbn [filter map orb negb] ].
    reflexivity.
  - intros r _.
    destruct (id r =? id r0) eqn:E0; destruct (id r =? id r2) eqn:E2;
      repeat first [ rewrite E0 | rewrite E2
                   | progress cbn [id company_id is_duplicate set_duplicate
                                   orb negb] ];
      reflexivity.
Qed.

Lemma cluster_references :
  get_round l3 (id r0) = Some (set_duplicate r0 (id r1))
  /\ get_round l3 (id r2) = Some (set_duplicate r2 (id r1)).
Proof.
  destruct cluster_keys as (K01 & K02 & K12).
  destruct cluster_members as (M0 & M1 & M2).
  unfold l3, l2, l1. rewrite !get_round_update by reflexivity.
  rewrite !Z.eqb_refl.
  destruct (Z.eqb_spec (id r0) (id r2)); [congruence|].
  destruct (Z.eqb_spec (id r2) (id r0)); [congruence|].
  rewrite !(get_round_in l) by assumption.
  split; reflexivity.
Qed.

(** C5 as amended.  For a company whose stage flag is unset and whose
    records are exactly three non-duplicate records, in load order
    [r0], [r1], [r2], which are duplicates of one another, of equal
    confidence tier, with completeness 2, 3 and 1: [deduplicate_company]
    leaves exactly one record non-duplicate, the one of completeness 3;
    the two others end as duplicates of it; and the value returned is 3,
    one for each of the three pairs compared. *)
Theorem C5_three_way_cluster :
  snd (deduplicate_company self now s company) = 3%nat
  /\ company_rounds (fst (deduplicate_company self now s company))
                    (company_pk company) = [r1]
  /\ completeness r1 = 3%nat
  /\ get_round (funding_rounds (fst (deduplicate_company self now s company)))
               (id r0) = Some (set_duplicate r0 (id r1))
  /\ get_round (funding_rounds (fst (deduplicate_company self now s company)))
               (id r2) = Some (set_duplicate r2 (id r1)).
Proof.
  destruct cluster_run as (s2 & Hr & E). rewrite E. cbn [fst snd].
  destruct (update_stage4_status_rounds now s2 cid
              (List.length (company_rounds s2 cid)) true) as [Hr' _].
  unfold company_rounds at 1. fold cid. rewrite Hr', Hr.
  destruct cluster_references as [H0 H2].
  repeat apply conj; auto using cluster_survivor.
Qed.

End ClusterRun.

(** C5, the claim fails: on the session of Gamma, which meets the
    conditions of the claim, the value returned is 3, not 2. *)
Lemma C5_counterexample :
  filter (fun r => Models.company_id r =? 7)
         (Models.funding_rounds Examples.gamma_session)
  = [Examples.gamma_1; Examples.gamma_2; Examples.gamma_3]
  /\ map DeduplicatorV2.completeness
         [Examples.gamma_1; Examples.gamma_2; Examples.gamma_3]
     = [2; 3; 1]%nat
  /\ map Models.confidence_score
         [Examples.gamma_1; Examples.gamma_2; Examples.gamma_3]
     = ["MEDIUM"; "MEDIUM"; "MEDIUM"]%string
  /\ DeduplicatorV2.are_duplicates Examples.default_dedup
       Examples.gamma_1 Examples.gamma_2 = true
  /\ DeduplicatorV2.are_duplicates Examples.default_dedup
       Examples.gamma_1 Examples.gamma_3 = true
  /\ DeduplicatorV2.are_duplicates Examples.default_dedup
       Examples.gamma_2 Examples.gamma_3 = true
  /\ snd (DeduplicatorV2.deduplicate_company Examples.default_dedup 0
            Examples.gamma_session Examples.gamma) = 3%nat
  /\ snd (DeduplicatorV2.deduplicate_company Examples.default_dedup 0
            Examples.gamma_session Examples.gamma) <> 2%nat.
Proof.
  repeat apply conj; try (vm_compute; reflexivity).
  vm_compute. discriminate.
Qed.

(** C5 at the session of Gamma. *)
Lemma C5_three_way_cluster_witness :
  snd (DeduplicatorV2.deduplicate_company Examples.default_dedup 0
         Examples.gamma_session Examples.gamma) = 3%nat
  /\ DeduplicatorV2.company_rounds
       (fst (DeduplicatorV2.deduplicate_company Examples.default_dedup 0
               Examples.gamma_session Examples.gamma)) 7
     = [Examples.gamma_2].
Proof.
  assert (U : Models.unique_ids Examples.gamma_session).
  { unfold Models.unique_ids. simpl.
    repeat constructor; simpl; intuition discriminate. }
  destruct (C5_three_way_cluster Examples.default_dedup 0
              Examples.gamma_session Examples.gamma
              Examples.gamma_1 Examples.gamma_2 Examples.gamma_3 U)
    as (H1 & H2 & _); try (vm_compute; reflexivity).
  - intros st H. vm_compute in H. discriminate.
  - split; assumption.
Defined.

(* ================================================================== *)
(** ** The rank of a record among the records loaded *)

Section Rank.
Import Models DatabaseManager DeduplicatorV2 Aux.

Lemma completeness_le (r : FundingRound) : (completeness r <= 4)%nat.
Proof.
  unfold completeness.
  destruct (opt_float_truthy (amount_raised_usd r)),
           (opt_float_truthy (pre_money_valuation_usd r)),
           (opt_float_truthy (post_money_valuation_usd r)),
           (opt_str_truthy (lead_investor r)); simpl; lia.
Qed.

Lemma score_le (r : FundingRound) : (score r <= 9)%nat.
Proof.
  unfold score. pose proof (completeness_le r). destruct (is_high r); lia.
Qed.

Lemma pos_le (l : list FundingRound) (rid : Z) : (pos l rid <= List.length l)%nat.
Proof.
  induction l as [|r l IH]; simpl; [lia|].
  destruct (id r =? rid); simpl; lia.
Qed.

Lemma pos_app_skip (pre l : list FundingRound) (rid : Z) :
  (forall x, In x pre -> id x <> rid) -> pos (pre ++ l) rid = pos l rid.
Proof.
  induction pre as [|x pre IH]; simpl; intros H; [reflexivity|].
  destruct (Z.eqb_spec (id x) rid) as [E|_].
  - exfalso. now apply (H x (or_introl eq_refl)).
  - apply IH. intros y Hy. apply H. now right.
Qed.

Lemma score_of_in (l : list FundingRound) (r : FundingRound) :
  NoDup (map id l) -> In r l -> score_of l (id r) = score r.
Proof. intros H Hin. unfold score_of. now rewrite get_round_in. Qed.

Lemma rank_bound (l : list FundingRound) (rid : Z) :
  (rank l rid < 10 * S (List.length l))%nat.
Proof.
  unfold rank, score_of. pose proof (pos_le l rid).
  destruct (get_round l rid) as [r|]; [pose proof (score_le r)|]; nia.
Qed.

Variable L : list FundingRound.
Hypothesis keys : NoDup (map id L).

Lemma NoDup_ids_app (pre l : list FundingRound) (x y : FundingRound) :
  NoDup (map id (pre ++ l)) -> In x pre -> In y l -> id x <> id y.
Proof.
  induction pre as [|a pre IH]; simpl; intros H Hx Hy; [tauto|].
  inversion H as [|i rest Hnot Hnd]; subst.
  destruct Hx as [->|Hx]; [|now apply IH].
  intros E. apply Hnot. rewrite E. apply in_map, in_or_app. now right.
Qed.

Lemma ordered_suffix (pre l : list FundingRound) :
  L = (pre ++ l)%list -> ForallOrdPairs (in_order L) l.
Proof.
  revert pre. induction l as [|a l IH]; intros pre HL; constructor.
  - apply Forall_forall. intros r2 Hr2.
    assert (Ha : In a L) by (rewrite HL; apply in_or_app; right; now left).
    assert (H2 : In r2 L) by (rewrite HL; apply in_or_app; right; now right).
    repeat split; try assumption.
    rewrite HL in keys |- *.
    rewrite !pos_app_skip.
    + simpl. rewrite Z.eqb_refl.
      destruct (Z.eqb_spec (id a) (id r2)) as [E|_].
      * exfalso. apply NoDup_map_inv in keys as Hnd.
        apply (NoDup_ids_app (pre ++ [a]) l a r2);
          [now rewrite <- app_assoc | apply in_or_app; right; now left
          | assumption | assumption].
      * pose proof (pos_le l (id r2)). simpl. lia.
    + intros x Hx. apply (NoDup_ids_app pre (a :: l)); [assumption..|now left].
    + intros x Hx. apply (NoDup_ids_app pre (a :: l)); [assumption..|now right].
  - apply (IH (pre ++ [a])%list). rewrite <- app_assoc. exact HL.
Qed.

(** Every pair that the loop compares is in order. *)
Lemma loaded_in_order : ForallOrdPairs (in_order L) L.
Proof. now apply (ordered_suffix []). Qed.

(** The merge rule demotes the record of smaller rank. *)
Lemma compare_pair_rank (self : t) (round1 round2 : FundingRound)
      (s : Session) (n : nat) :
  in_order L round1 round2 ->
  compare_pair self round1 round2 (s, n) = (s, n)
  \/ exists loser winner,
       In loser L /\ In winner L
       /\ (rank L (id loser) < rank L (id winner))%nat
       /\ compare_pair self round1 round2 (s, n)
          = (mark_as_duplicate s (id loser) (id winner), S n).
Proof.
  intros (H1 & H2 & Hpos). unfold compare_pair.
  destruct (are_duplicates self round1 round2); [right|now left].
  pose proof (pos_le L (id round1)) as P1.
  pose proof (pos_le L (id round2)) as P2.
  pose proof (completeness_le round1) as C1.
  pose proof (completeness_le round2) as C2.
  assert (R1 : rank L (id round1)
               = (score round1 * S (List.length L) + pos L (id round1))%nat)
    by (unfold rank; now rewrite score_of_in).
  assert (R2 : rank L (id round2)
               = (score round2 * S (List.length L) + pos L (id round2))%nat)
    by (unfold rank; now rewrite score_of_in).
  unfold score in R1, R2.
  destruct (is_high round1), (is_high round2); cbn [andb negb];
    try destruct (Nat.leb_spec (completeness round2) (completeness round1));
    first [ exists round2, round1; repeat split; try assumption; nia
          | exists round1, round2; repeat split; try assumption; nia ].
Qed.

End Rank.

(* ================================================================== *)
(** ** Duplicate references after a run *)

Section Chain.
Import Models DatabaseManager DeduplicatorV2 Aux.

Variable self : t.
Variable L : list FundingRound.
Variable cid : Z.
Variable rs0 : list FundingRound.

Hypothesis keys : NoDup (map id L).
Hypothesis loaded : forall w, In w L -> In w rs0 /\ company_id w = cid.

Lemma linked_init :
  (forall r, In r rs0 -> company_id r = cid -> is_duplicate r = false) ->
  linked L cid rs0 rs0.
Proof.
  intros H. split; [apply same_payload_refl|].
  intros r Hr Hc Hd. rewrite (H r Hr Hc) in Hd. discriminate.
Qed.

Lemma linked_mark (s : Session) (loser winner : FundingRound) :
  linked L cid rs0 (funding_rounds s) ->
  In winner L ->
  (rank L (id loser) < rank L (id winner))%nat ->
  linked L cid rs0 (funding_rounds (mark_as_duplicate s (id loser) (id winner))).
Proof.
  intros [Hp Hl] Hw Hrk. rewrite mark_as_duplicate_rounds. split.
  - eapply same_payload_trans; [exact Hp | apply update_round_payload].
  - intros r' Hr' Hc Hd.
    apply in_update_round in Hr' as [Hin | (r & Hin & E & ->)].
    + now apply Hl.
    + exists winner. cbn [duplicate_of_id set_duplicate id].
      rewrite E. auto.
Qed.

Lemma linked_compare_pair (round1 round2 : FundingRound) (acc : Session * nat) :
  in_order L round1 round2 ->
  linked L cid rs0 (funding_rounds (fst acc)) ->
  linked L cid rs0 (funding_rounds (fst (compare_pair self round1 round2 acc))).
Proof.
  destruct acc as [s n]. intros Ho H. cbn [fst] in H.
  destruct (compare_pair_rank L keys self round1 round2 s n Ho)
    as [E | (loser & winner & _ & Hw & Hrk & E)]; rewrite E; cbn [fst].
  - exact H.
  - now apply linked_mark.
Qed.

Lemma linked_loop (s : Session) :
  linked L cid rs0 (funding_rounds s) ->
  linked L cid rs0 (funding_rounds (fst (pair_loop self L (s, 0%nat)))).
Proof.
  intros H. rewrite pair_loop_pairs_from.
  apply (pairs_from_invariant self (in_order L)
           (fun acc => linked L cid rs0 (funding_rounds (fst acc)))).
  - intros r1 r2 acc. apply linked_compare_pair.
  - now apply loaded_in_order.
  - exact H.
Qed.

(** A duplicate refers to another row of the company. *)
Lemma linked_reference (s : Session) (r : FundingRound) :
  linked L cid rs0 (funding_rounds s) ->
  In r (funding_rounds s) -> company_id r = cid -> is_duplicate r = true ->
  exists o, In o (funding_rounds s)
            /\ duplicate_of_id r = Some (id o)
            /\ company_id o = cid
            /\ id o <> id r
            /\ (rank L (id r) < rank L (id o))%nat.
Proof.
  intros [Hp Hl] Hr Hc Hd.
  destruct (Hl r Hr Hc Hd) as (w & Hw & Href & Hrk).
  destruct (loaded w Hw) as [Hw0 Hwc].
  destruct (same_payload_in_l _ _ w Hp Hw0) as (o & Ho & Hi & Hoc).
  exists o. rewrite <- Hi. repeat split; try assumption.
  - congruence.
  - intros E. rewrite E in Hrk. lia.
Qed.

(** Following the references from a row of the company ends at a
    non-duplicate row of the company. *)
Lemma linked_resolves (s : Session) :
  linked L cid rs0 (funding_rounds s) ->
  forall (k : nat) (r : FundingRound),
    In r (funding_rounds s) -> company_id r = cid ->
    (10 * S (List.length L) - rank L (id r) <= k)%nat ->
    exists w, Spec.resolves_to s r w /\ company_id w = cid.
Proof.
  intros Hlink. induction k as [|k IH]; intros r Hr Hc Hk;
    destruct (is_duplicate r) eqn:Hd;
    try (exists r; split; [now constructor | assumption]).
  - pose proof (rank_bound L (id r)). lia.
  - destruct (linked_reference s r Hlink Hr Hc Hd)
      as (o & Ho & Href & Hoc & Hne & Hrk).
    destruct (IH o Ho Hoc) as (w & Hres & Hwc).
    { pose proof (rank_bound L (id o)). lia. }
    exists w. split; [|assumption].
    apply (Spec.resolves_step s r o w); try assumption. congruence.
Qed.

End Chain.

Lemma resolves_to_end (s : Models.Session) (r w : Models.FundingRound) :
  Spec.resolves_to s r w ->
  In w (Models.funding_rounds s) /\ Models.is_duplicate w = false.
Proof. induction 1; auto. Qed.

Section AfterRun.
Import Models DatabaseManager DeduplicatorV2 Aux.

(** The records loaded for a company have distinct keys, are rows of the
    session and belong to the company. *)
Lemma company_rounds_loaded (s : Session) (cid : Z) :
  unique_ids s ->
  NoDup (map id (company_rounds s cid))
  /\ forall w, In w (company_rounds s cid) ->
               In w (funding_rounds s) /\ company_id w = cid.
Proof.
  intros U. split.
  - now apply NoDup_ids_filter.
  - intros w Hw. apply filter_In in Hw as [Hin Hc].
    apply andb_true_iff in Hc as [Hc _]. apply Z.eqb_eq in Hc. auto.
Qed.

(** Whatever path a run takes, the rows it leaves are linked. *)
Lemma deduplicate_company_linked (self : t) (now : Z) (s : Session)
      (company : Company) :
  unique_ids s ->
  (forall r, In r (funding_rounds s) -> company_id r = company_pk company ->
             is_duplicate r = false) ->
  exists L,
    NoDup (map id L)
    /\ (forall w, In w L ->
                  In w (funding_rounds s) /\ company_id w = company_pk company)
    /\ linked L (company_pk company) (funding_rounds s)
              (funding_rounds (fst (deduplicate_company self now s company))).
Proof.
  intros U Hfresh.
  destruct (company_rounds_loaded s (company_pk company) U) as [HN HL].
  exists (company_rounds s (company_pk company)).
  split; [assumption | split; [exact HL|]].
  pose proof (linked_init (company_rounds s (company_pk company))
                (company_pk company) (funding_rounds s) Hfresh) as H0.
  unfold deduplicate_company.
  destruct (get_processing_status s (company_pk company)) as [s1 st] eqn:E.
  apply get_processing_status_found in E as (_ & Hr & _).
  assert (HLs : company_rounds s1 (company_pk company)
                = company_rounds s (company_pk company))
    by (unfold company_rounds; now rewrite Hr).
  rewrite HLs.
  destruct (stage4_merged st); [cbn [fst]; now rewrite Hr|].
  destruct (Nat.leb _ 1); cbn [fst].
  - destruct (update_stage4_status_rounds now s1 (company_pk company)
                (List.length (company_rounds s (company_pk company))) true)
      as [Hr' _].
    now rewrite Hr', Hr.
  - pose proof (linked_loop self (company_rounds s (company_pk company))
                  (company_pk company) (funding_rounds s) HN s1) as Hloop.
    rewrite Hr in Hloop. specialize (Hloop H0).
    destruct (pair_loop self _ (s1, 0%nat)) as [s2 found]. cbn [fst] in *.
    destruct (update_stage4_status_rounds now s2 (company_pk company)
                (List.length (company_rounds s2 (company_pk company))) true)
      as [Hr' _].
    now rewrite Hr'.
Qed.

End AfterRun.

(** C4, the claim fails: in the session of Delta every record starts
    with [is_duplicate] false; after the run, record 22 is a duplicate
    that refers to record 21, which is itself a duplicate (of 23). *)
Lemma C4_counterexample :
  (forall r, In r (Models.funding_rounds Examples.delta_session) ->
             Models.is_duplicate r = false)
  /\ map (fun r => (Models.id r, Models.is_duplicate r, Models.duplicate_of_id r))
         (Models.funding_rounds
            (fst (DeduplicatorV2.deduplicate_company Examples.default_dedup 0
                    Examples.delta_session Examples.delta)))
     = [(21, true, Some 23); (22, true, Some 21); (23, false, None)]
  /\ ~ Spec.depth_one
       (fst (DeduplicatorV2.deduplicate_company Examples.default_dedup 0
               Examples.delta_session Examples.delta)) 9.
Proof.
  split; [|split].
  - intros r [<-|[<-|[<-|[]]]]; reflexivity.
  - vm_compute. reflexivity.
  - intros H.
    set (s' := fst (DeduplicatorV2.deduplicate_company Examples.default_dedup 0
                      Examples.delta_session Examples.delta)) in *.
    assert (E : Models.funding_rounds s'
                = [DatabaseManager.set_duplicate Examples.delta_1 23;
                   DatabaseManager.set_duplicate Examples.delta_2 21;
                   Examples.delta_3])
      by (vm_compute; reflexivity).
    destruct (H (DatabaseManager.set_duplicate Examples.delta_2 21))
      as (o & Ho & Href & _ & Hd).
    + rewrite E. right. now left.
    + reflexivity.
    + reflexivity.
    + rewrite E in Ho. destruct Ho as [<-|[<-|[<-|[]]]];
        vm_compute in Href, Hd; discriminate.
Qed.

(** C4 as amended.  After a run of [deduplicate_company] on a session
    with distinct keys and a company whose records all started with
    [is_duplicate] false, every record of the company with
    [is_duplicate] true refers to another record of the same company,
    and following the references from it ends at a record of the same
    company whose [is_duplicate] is false.  The record referred to may
    itself be a duplicate: the depth is at least 1, not exactly 1. *)
Theorem C4_references_resolve :
  forall (self : DeduplicatorV2.t) (now : Z) (s : Models.Session)
         (company : Models.Company),
    Models.unique_ids s ->
    (forall r, In r (Models.funding_rounds s) ->
               Models.company_id r = Models.company_pk company ->
               Models.is_duplicate r = false) ->
    forall r,
      In r (Models.funding_rounds
              (fst (DeduplicatorV2.deduplicate_company self now s company))) ->
      Models.company_id r = Models.company_pk company ->
      Models.is_duplicate r = true ->
      (exists o,
          In o (Models.funding_rounds
                  (fst (DeduplicatorV2.deduplicate_company self now s company)))
          /\ Models.duplicate_of_id r = Some (Models.id o)
          /\ Models.company_id o = Models.company_pk company
          /\ Models.id o <> Models.id r)
      /\ (exists w,
             Spec.resolves_to
               (fst (DeduplicatorV2.deduplicate_company self now s company)) r w
             /\ In w (Models.funding_rounds
                        (fst (DeduplicatorV2.deduplicate_company self now s company)))
             /\ Models.company_id w = Models.company_pk company
             /\ Models.is_duplicate w = false).
Proof.
  intros self now s company U Hfresh r Hr Hc Hd.
  destruct (deduplicate_company_linked self now s company U Hfresh)
    as (L & HN & HL & Hlink).
  split.
  - destruct (linked_reference L (Models.company_pk company)
                (Models.funding_rounds s) HL _ r Hlink Hr Hc Hd)
      as (o & Ho & Href & Hoc & Hne & _).
    exists o. auto.
  - destruct (linked_resolves L (Models.company_pk company)
                (Models.funding_rounds s) HL _ Hlink _ r Hr Hc (le_n _))
      as (w & Hres & Hwc).
    exists w. destruct (resolves_to_end _ _ _ Hres) as [Hw Hwd]. auto.
Qed.

(** C4 at the session of Delta and its record 22, which refers to the
    duplicate 21 and resolves to the record 23. *)
Lemma C4_references_resolve_witness :
  exists w,
    Spec.resolves_to
      (fst (DeduplicatorV2.deduplicate_company Examples.default_dedup 0
              Examples.delta_session Examples.delta))
      (DatabaseManager.set_duplicate Examples.delta_2 21) w
    /\ Models.is_duplicate w = false.
Proof.
  assert (U : Models.unique_ids Examples.delta_session).
  { unfold Models.unique_ids. simpl.
    repeat constructor; simpl; intuition discriminate. }
  destruct (C4_references_resolve Examples.default_dedup 0
              Examples.delta_session Examples.delta U)
    with (r := DatabaseManager.set_duplicate Examples.delta_2 21)
    as (_ & w & Hres & _ & _ & Hd).
  - intros r [<-|[<-|[<-|[]]]] _; reflexivity.
  - vm_compute. right. now left.
  - reflexivity.
  - reflexivity.
  - now exists w.
Defined.

(* ================================================================== *)
(** ** Every row after a run, against the row before *)

Section Traced.
Import Models DatabaseManager DeduplicatorV2 Aux Cover.

Lemma unique_row (l : list FundingRound) (a b : FundingRound) :
  NoDup (map id l) -> In a l -> In b l -> id a = id b -> a = b.
Proof.
  intros H Ha Hb E.
  pose proof (get_round_in l a H Ha) as Ga.
  pose proof (get_round_in l b H Hb) as Gb.
  rewrite E in Ga. congruence.
Qed.

Lemma demoted_from_columns (L : list FundingRound) (r0 r : FundingRound) :
  demoted_from L r0 r -> same_columns r0 r.
Proof.
  intros [->|(_ & w & _ & _ & ->)]; repeat split.
Qed.

Lemma traced_refl (L rs : list FundingRound) : traced L rs rs.
Proof. induction rs; constructor; [now left | assumption]. Qed.

Variable L : list FundingRound.
Variable rs0 : list FundingRound.
Hypothesis keys0 : NoDup (map id rs0).
Hypothesis loaded : forall w, In w L -> In w rs0.

Lemma traced_update (loser winner : FundingRound) (l0 l : list FundingRound) :
  In loser L -> In winner L ->
  (rank L (id loser) < rank L (id winner))%nat ->
  (forall r0, In r0 l0 -> id r0 = id loser -> r0 = loser) ->
  Forall2 (demoted_from L) l0 l ->
  Forall2 (demoted_from L) l0
          (update_round l (id loser) (fun r => set_duplicate r (id winner))).
Proof.
  intros Hl Hw Hrk Hsame H.
  induction H as [|r0 r l0 l Hd Ht IH]; simpl; [constructor|].
  assert (Hid : id r = id r0).
  { destruct (demoted_from_columns L r0 r Hd) as [E _]. now symmetry. }
  destruct (Z.eqb_spec (id r) (id loser)) as [E|N].
  - constructor; [|assumption].
    assert (r0 = loser) by (apply Hsame; [now left | congruence]).
    subst r0. right. split; [assumption|]. exists winner.
    repeat split; try assumption.
    destruct Hd as [->|(_ & w & _ & _ & ->)]; reflexivity.
  - constructor; [assumption|]. apply IH.
    intros x Hx. apply Hsame. now right.
Qed.

Lemma traced_mark (s : Session) (loser winner : FundingRound) :
  In loser L -> In winner L ->
  (rank L (id loser) < rank L (id winner))%nat ->
  traced L rs0 (funding_rounds s) ->
  traced L rs0 (funding_rounds (mark_as_duplicate s (id loser) (id winner))).
Proof.
  intros Hl Hw Hrk H. rewrite mark_as_duplicate_rounds.
  apply traced_update; try assumption.
  intros r0 Hr0 E. apply (unique_row rs0); auto.
Qed.

Hypothesis keysL : NoDup (map id L).

Lemma traced_loop (self : t) (s : Session) :
  traced L rs0 (funding_rounds s) ->
  traced L rs0 (funding_rounds (fst (pair_loop self L (s, 0%nat)))).
Proof.
  intros H. rewrite pair_loop_pairs_from.
  apply (pairs_from_invariant self (in_order L)
           (fun acc => traced L rs0 (funding_rounds (fst acc)))).
  - intros r1 r2 [s' n] Ho Hs'. cbn [fst] in Hs'.
    destruct (compare_pair_rank L keysL self r1 r2 s' n Ho)
      as [E | (loser & winner & Hl & Hw & Hrk & E)]; rewrite E; cbn [fst].
    + exact Hs'.
    + now apply traced_mark.
  - now apply loaded_in_order.
  - exact H.
Qed.

End Traced.

Section TracedRun.
Import Models DatabaseManager DeduplicatorV2 Aux Cover.

(** Whatever path a run takes, each row it leaves is the row before, or
    a loaded record demoted to a loaded record of larger rank. *)
Lemma deduplicate_company_traced (self : t) (now : Z) (s : Session)
      (company : Company) :
  unique_ids s ->
  traced (company_rounds s (company_pk company)) (funding_rounds s)
         (funding_rounds (fst (deduplicate_company self now s company))).
Proof.
  intros U.
  destruct (company_rounds_loaded s (company_pk company) U) as [HN HL].
  unfold deduplicate_company.
  destruct (get_processing_status s (company_pk company)) as [s1 st] eqn:E.
  apply get_processing_status_found in E as (_ & Hr & _).
  assert (HLs : company_rounds s1 (company_pk company)
                = company_rounds s (company_pk company))
    by (unfold company_rounds; now rewrite Hr).
  rewrite HLs.
  destruct (stage4_merged st); [cbn [fst]; rewrite Hr; apply traced_refl|].
  destruct (Nat.leb _ 1); cbn [fst].
  - destruct (update_stage4_status_rounds now s1 (company_pk company)
                (List.length (company_rounds s (company_pk company))) true)
      as [Hr' _].
    rewrite Hr', Hr. apply traced_refl.
  - pose proof (traced_loop (company_rounds s (company_pk company))
                  (funding_rounds s) U (fun w Hw => proj1 (HL w Hw)) HN
                  self s1) as Hloop.
    rewrite Hr in Hloop. specialize (Hloop (traced_refl _ _)).
    destruct (pair_loop self _ (s1, 0%nat)) as [s2 found]. cbn [fst] in *.
    destruct (update_stage4_status_rounds now s2 (company_pk company)
                (List.length (company_rounds s2 (company_pk company))) true)
      as [Hr' _].
    now rewrite Hr'.
Qed.

Lemma in_company_rounds (s : Session) (cid : Z) (r : FundingRound) :
  In r (company_rounds s cid)
  <-> In r (funding_rounds s) /\ company_id r = cid /\ is_duplicate r = false.
Proof.
  unfold company_rounds. rewrite filter_In, andb_true_iff, Z.eqb_eq,
    negb_true_iff. tauto.
Qed.

End TracedRun.

(** X1.  With distinct primary keys, [deduplicate_company] keeps the
    rows of [funding_rounds] in number and order and leaves, in every
    row, the columns [id], [company_id], [round_name], [date],
    [amount_raised_usd], the two valuations, [lead_investor],
    [source_type] and [confidence_score] as they were; a row of another
    company, and a row that was already a duplicate, is not written at
    all; a row that is written ends with [is_duplicate] true; and
    [companies] is untouched. *)
Theorem X1_run_keeps_the_data_columns :
  forall (self : DeduplicatorV2.t) (now : Z) (s : Models.Session)
         (company : Models.Company),
    Models.unique_ids s ->
    Models.companies (fst (DeduplicatorV2.deduplicate_company self now s company))
    = Models.companies s
    /\ Forall2
         (fun r0 r =>
            Cover.same_columns r0 r
            /\ (Models.company_id r0 <> Models.company_pk company -> r = r0)
            /\ (Models.is_duplicate r0 = true -> r = r0)
            /\ (r <> r0 -> Models.is_duplicate r = true))
         (Models.funding_rounds s)
         (Models.funding_rounds
            (fst (DeduplicatorV2.deduplicate_company self now s company))).
Proof.
  intros self now s company U. split.
  - apply (preserved_deduplicate_company self now s company).
  - pose proof (deduplicate_company_traced self now s company U) as H.
    unfold Cover.traced in H.
    induction H as [|r0 r l0 l Hd _ IH]; constructor; [|exact IH].
    split; [now apply (demoted_from_columns _ _ _ Hd)|].
    destruct Hd as [->|(Hin & w & _ & _ & ->)].
    + repeat split; auto; intros N; now contradiction N.
    + apply in_company_rounds in Hin as (_ & Hc & Hd).
      repeat split; try reflexivity; intros; congruence.
Qed.

(** X1 at the session of Acme. *)
Lemma X1_run_keeps_the_data_columns_witness :
  Models.companies
    (fst (DeduplicatorV2.deduplicate_company Examples.default_dedup 0
            Examples.acme_session Examples.acme))
  = Models.companies Examples.acme_session.
Proof.
  apply (X1_run_keeps_the_data_columns Examples.default_dedup 0
           Examples.acme_session Examples.acme).
  unfold Models.unique_ids. simpl.
  repeat constructor; simpl; intuition discriminate.
Defined.

(* ================================================================== *)
(** ** The value returned by a run *)

Section Counting.
Import Models DatabaseManager DeduplicatorV2 Aux Cover.

Variable self : t.

Lemma compare_pair_count (r1 r2 : FundingRound) (s : Session) (n : nat) :
  snd (compare_pair self r1 r2 (s, n))
  = if are_duplicates self r1 r2 then S n else n.
Proof.
  unfold compare_pair. destruct (are_duplicates self r1 r2); [|reflexivity].
  destruct (is_high r1 && negb (is_high r2)); [reflexivity|].
  destruct (is_high r2 && negb (is_high r1)); [reflexivity|].
  destruct (Nat.leb _ _); reflexivity.
Qed.

Lemma compare_pair_not_duplicates (r1 r2 : FundingRound) (acc : Session * nat) :
  are_duplicates self r1 r2 = false -> compare_pair self r1 r2 acc = acc.
Proof. destruct acc. unfold compare_pair. now intros ->. Qed.

Lemma inner_count (r1 : FundingRound) (rest : list FundingRound)
      (acc : Session * nat) :
  snd (fold_left (fun acc r2 => compare_pair self r1 r2 acc) rest acc)
  = (snd acc + List.length (filter (are_duplicates self r1) rest))%nat.
Proof.
  revert acc. induction rest as [|r2 rest IH]; intros [s n];
    cbn [fold_left filter]; [simpl; lia|].
  rewrite IH, compare_pair_count.
  destruct (are_duplicates self r1 r2); simpl; lia.
Qed.

Lemma pairs_from_count (L : list FundingRound) (acc : Session * nat) :
  snd (pairs_from self L acc) = (snd acc + duplicate_pairs self L)%nat.
Proof.
  revert acc. induction L as [|r1 rest IH]; intros acc; simpl; [lia|].
  rewrite IH, inner_count. lia.
Qed.

Lemma duplicate_pairs_bound (L : list FundingRound) :
  (2 * duplicate_pairs self L <= List.length L * (List.length L - 1))%nat.
Proof.
  induction L as [|r1 rest IH]; simpl; [lia|].
  pose proof (filter_length_le (are_duplicates self r1) rest). nia.
Qed.

Lemma filter_nil_all_false {A} (f : A -> bool) (l : list A) :
  List.length (filter f l) = 0%nat -> forall x, In x l -> f x = false.
Proof.
  induction l as [|a l IH]; simpl; [tauto|].
  destruct (f a) eqn:E; simpl; [discriminate|].
  intros H x [<-|Hx]; auto.
Qed.

Lemma pairs_from_nothing (L : list FundingRound) (acc : Session * nat) :
  duplicate_pairs self L = 0%nat -> pairs_from self L acc = acc.
Proof.
  revert acc. induction L as [|r1 rest IH]; intros acc; simpl; [reflexivity|].
  intros H.
  assert (H1 : List.length (filter (are_duplicates self r1) rest) = 0%nat) by lia.
  rewrite IH by lia.
  pose proof (filter_nil_all_false _ _ H1) as Hall. clear -Hall.
  revert acc. induction rest as [|r2 rest IHr]; intros acc; simpl; [reflexivity|].
  rewrite compare_pair_not_duplicates by (apply Hall; now left).
  apply IHr. intros x Hx. apply Hall. now right.
Qed.

End Counting.

(** X2.  A run on a company whose stage flag is set returns 0 and the
    session as it is.  Otherwise the value returned is the number of
    pairs (earlier, later) of the company's non-duplicate rounds that
    [are_duplicates] accepts, which is at most n(n-1)/2 for n rounds
    loaded.  Whenever the value returned is 0, no round has changed. *)
Theorem X2_run_counts_duplicate_pairs :
  forall (self : DeduplicatorV2.t) (now : Z) (s : Models.Session)
         (company : Models.Company),
    let L := DeduplicatorV2.company_rounds s (Models.company_pk company) in
    (Cover.merged s (Models.company_pk company) ->
     DeduplicatorV2.deduplicate_company self now s company = (s, 0%nat))
    /\ (Cover.unmerged s (Models.company_pk company) ->
        snd (DeduplicatorV2.deduplicate_company self now s company)
        = Cover.duplicate_pairs self L)
    /\ (2 * Cover.duplicate_pairs self L
        <= List.length L * (List.length L - 1))%nat
    /\ (snd (DeduplicatorV2.deduplicate_company self now s company) = 0%nat ->
        Models.funding_rounds
          (fst (DeduplicatorV2.deduplicate_company self now s company))
        = Models.funding_rounds s).
Proof.
  intros self now s company L.
  split; [|split; [|split]].
  - intros (st & Hf & Hm). now apply (deduplicate_company_skips self now s company st).
  - intros Hun. unfold DeduplicatorV2.deduplicate_company.
    destruct (DatabaseManager.get_processing_status s (Models.company_pk company))
      as [s1 st] eqn:E.
    rewrite (get_processing_status_flag _ _ _ _ E Hun).
    apply get_processing_status_found in E as (_ & Hr & _).
    assert (HL : DeduplicatorV2.company_rounds s1 (Models.company_pk company) = L)
      by (unfold L, DeduplicatorV2.company_rounds; now rewrite Hr).
    rewrite HL.
    destruct (Nat.leb_spec (List.length L) 1) as [Hle|Hgt]; cbn [snd].
    + pose proof (duplicate_pairs_bound self L). nia.
    + rewrite pair_loop_pairs_from.
      pose proof (pairs_from_count self L (s1, 0%nat)) as Hc.
      destruct (Aux.pairs_from self L (s1, 0%nat)) as [s2 found].
      cbn [snd] in *. lia.
  - apply duplicate_pairs_bound.
  - unfold DeduplicatorV2.deduplicate_company.
    destruct (DatabaseManager.get_processing_status s (Models.company_pk company))
      as [s1 st] eqn:E.
    apply get_processing_status_found in E as (_ & Hr & _).
    destruct (Models.stage4_merged st); [intros _; exact Hr|].
    destruct (Nat.leb _ 1); cbn [fst snd].
    + intros _.
      destruct (update_stage4_status_rounds now s1 (Models.company_pk company)
                  (List.length (DeduplicatorV2.company_rounds s1
                                  (Models.company_pk company))) true)
        as [Hr' _].
      now rewrite Hr'.
    + rewrite pair_loop_pairs_from.
      pose proof (pairs_from_count self
                    (DeduplicatorV2.company_rounds s1 (Models.company_pk company))
                    (s1, 0%nat)) as Hc.
      pose proof (pairs_from_nothing self
                    (DeduplicatorV2.company_rounds s1 (Models.company_pk company))
                    (s1, 0%nat)) as Hn.
      destruct (Aux.pairs_from self _ (s1, 0%nat)) as [s2 found].
      cbn [fst snd] in *. intros H0.
      destruct (update_stage4_status_rounds now s2 (Models.company_pk company)
                  (List.length (DeduplicatorV2.company_rounds s2
                                  (Models.company_pk company))) true)
        as [Hr' _].
      rewrite Hr'. assert (E2 : (s2, found) = (s1, 0%nat)) by (apply Hn; lia).
      inversion E2; subst. exact Hr.
Qed.

(** X2 at the session of Gamma, whose flag is not set and whose three
    rounds form three duplicate pairs. *)
Lemma X2_run_counts_duplicate_pairs_witness :
  snd (DeduplicatorV2.deduplicate_company Examples.default_dedup 0
         Examples.gamma_session Examples.gamma)
  = Cover.duplicate_pairs Examples.default_dedup
      [Examples.gamma_1; Examples.gamma_2; Examples.gamma_3].
Proof.
  apply (proj1 (proj2 (X2_run_counts_duplicate_pairs Examples.default_dedup 0
                         Examples.gamma_session Examples.gamma))).
  intros st H. vm_compute in H. discriminate.
Defined.

(* ================================================================== *)
(** ** A run never demotes every record *)

Section Survivor.
Import Models DatabaseManager DeduplicatorV2 Aux Cover.

Lemma max_exists {A} (f : A -> nat) (l : list A) :
  l <> [] -> exists m, In m l /\ forall w, In w l -> (f w <= f m)%nat.
Proof.
  induction l as [|a l IH]; [congruence|]. intros _.
  destruct l as [|b l].
  - exists a. split; [now left|]. intros w [<-|[]]. lia.
  - destruct IH as (m & Hm & Hmax); [discriminate|].
    destruct (Nat.le_gt_cases (f a) (f m)) as [Hle|Hgt].
    + exists m. split; [now right|]. intros w [<-|Hw]; auto.
    + exists a. split; [now left|]. intros w [<-|Hw]; [lia|].
      specialize (Hmax w Hw). lia.
Qed.

Lemma Forall2_partner {A B} (R : A -> B -> Prop) (l0 : list A) (l : list B)
      (a : A) :
  Forall2 R l0 l -> In a l0 -> exists b, In b l /\ R a b.
Proof.
  induction 1 as [|a0 b0 l0 l H0 _ IH]; simpl; [tauto|].
  intros [<-|Hin]; [exists b0; auto|].
  destruct (IH Hin) as (b & Hb & Hr). exists b; auto.
Qed.

Lemma rank_score (L : list FundingRound) (w m : FundingRound) :
  NoDup (map id L) -> In w L -> In m L ->
  (rank L (id w) <= rank L (id m))%nat -> (score w <= score m)%nat.
Proof.
  intros H Hw Hm. unfold rank. rewrite !score_of_in by assumption.
  pose proof (pos_le L (id w)). pose proof (pos_le L (id m)). nia.
Qed.

End Survivor.

(** X3.  With distinct primary keys, a company that has a non-duplicate
    round before a run of [deduplicate_company] has one after it: a
    loaded record whose score (HIGH confidence first, then completeness)
    is maximal among the records loaded is still there, unchanged and
    not a duplicate. *)
Theorem X3_run_keeps_a_survivor :
  forall (self : DeduplicatorV2.t) (now : Z) (s : Models.Session)
         (company : Models.Company),
    Models.unique_ids s ->
    DeduplicatorV2.company_rounds s (Models.company_pk company) <> [] ->
    exists m,
      In m (DeduplicatorV2.company_rounds s (Models.company_pk company))
      /\ In m (DeduplicatorV2.company_rounds
                 (fst (DeduplicatorV2.deduplicate_company self now s company))
                 (Models.company_pk company))
      /\ forall w,
          In w (DeduplicatorV2.company_rounds s (Models.company_pk company)) ->
          (Aux.score w <= Aux.score m)%nat.
Proof.
  intros self now s company U Hne.
  set (L := DeduplicatorV2.company_rounds s (Models.company_pk company)) in *.
  destruct (company_rounds_loaded s (Models.company_pk company) U) as [HN HL].
  fold L in HN, HL.
  destruct (max_exists (fun r => Aux.rank L (Models.id r)) L Hne)
    as (m & Hm & Hmax).
  exists m. split; [assumption|]. split.
  - pose proof (deduplicate_company_traced self now s company U) as Ht.
    fold L in Ht.
    destruct (Forall2_partner _ _ _ m Ht (proj1 (HL m Hm))) as (r & Hr & Hd).
    destruct Hd as [->|(_ & w & Hw & Hrk & _)].
    + apply in_company_rounds. apply in_company_rounds in Hm as (_ & Hc & Hd).
      auto.
    + specialize (Hmax w Hw). cbv beta in Hmax. lia.
  - intros w Hw. apply (rank_score L); auto.
Qed.

(** X3 at the session of Delta. *)
Lemma X3_run_keeps_a_survivor_witness :
  exists m,
    In m (DeduplicatorV2.company_rounds
            (fst (DeduplicatorV2.deduplicate_company Examples.default_dedup 0
                    Examples.delta_session Examples.delta)) 9).
Proof.
  destruct (X3_run_keeps_a_survivor Examples.default_dedup 0
              Examples.delta_session Examples.delta) as (m & _ & Hm & _).
  - unfold Models.unique_ids. simpl.
    repeat constructor; simpl; intuition discriminate.
  - vm_compute. discriminate.
  - now exists m.
Defined.

(* ================================================================== *)
(** ** The checkpoint written by a run *)

Section Checkpoint.
Import Models DatabaseManager DeduplicatorV2 Aux Cover Queries.

Lemma find_status_key (l : list ProcessingStatus) (cid : Z) (st : ProcessingStatus) :
  find_status l cid = Some st -> status_company_id st = cid.
Proof.
  unfold find_status. intros H. apply find_some in H as [_ H].
  now apply Z.eqb_eq.
Qed.

Lemma find_status_update_other (l : list ProcessingStatus) (cid c : Z)
      (f : ProcessingStatus -> ProcessingStatus) :
  (forall x, status_company_id (f x) = status_company_id x) ->
  c <> cid ->
  find_status (update_status l cid f) c = find_status l c.
Proof.
  intros Hf Hc. unfold find_status.
  induction l as [|x l IH]; simpl; [reflexivity|].
  destruct (Z.eqb_spec (status_company_id x) cid) as [E|N]; simpl.
  - rewrite Hf.
    destruct (Z.eqb_spec (status_company_id x) c); [congruence|reflexivity].
  - now rewrite IH.
Qed.

Lemma find_status_app_other (l : list ProcessingStatus) (cid c : Z) :
  c <> cid -> find_status (l ++ [new_status cid]) c = find_status l c.
Proof.
  intros Hc. unfold find_status.
  induction l as [|x l IH]; simpl.
  - destruct (Z.eqb_spec cid c); [congruence|reflexivity].
  - destruct (status_company_id x =? c); [reflexivity | exact IH].
Qed.

Lemma get_processing_status_other (s s1 : Session) (cid c : Z)
      (st : ProcessingStatus) :
  get_processing_status s cid = (s1, st) -> c <> cid ->
  find_status (processing_status s1) c = find_status (processing_status s) c.
Proof.
  unfold get_processing_status.
  destruct (find_status (processing_status s) cid) eqn:E;
    intros H Hc; inversion H; subst; [reflexivity|].
  simpl. now apply find_status_app_other.
Qed.

Lemma update_status_keys (l : list ProcessingStatus) (cid : Z)
      (f : ProcessingStatus -> ProcessingStatus) :
  (forall x, status_company_id (f x) = status_company_id x) ->
  map status_company_id (update_status l cid f) = map status_company_id l.
Proof.
  intros Hf. induction l as [|x l IH]; simpl; [reflexivity|].
  destruct (status_company_id x =? cid); simpl; [now rewrite Hf|now rewrite IH].
Qed.

Lemma get_processing_status_unique (s s1 : Session) (cid : Z)
      (st : ProcessingStatus) :
  get_processing_status s cid = (s1, st) -> unique_status s -> unique_status s1.
Proof.
  unfold get_processing_status, unique_status.
  destruct (find_status (processing_status s) cid) eqn:E;
    intros H U; inversion H; subst; [assumption|].
  simpl. rewrite map_app. simpl.
  apply NoDup_app; [assumption | repeat constructor; simpl; tauto |].
  intros x Hx [<-|[]].
  apply in_map_iff in Hx as (row & Hk & Hrow).
  apply (find_none _ _ E) in Hrow. apply Z.eqb_neq in Hrow. contradiction.
Qed.

(** The row written by [update_stage4_status], and what else it leaves
    alone. *)
Lemma update_stage4_status_row (now : Z) (s : Session) (cid : Z) (u : nat)
      (b : bool) :
  find_status (processing_status (update_stage4_status now s cid u b)) cid
  = Some (mkProcessingStatus cid b (if b then Some now else None) u)
  /\ (forall c, c <> cid ->
        find_status (processing_status (update_stage4_status now s cid u b)) c
        = find_status (processing_status s) c)
  /\ (unique_status s -> unique_status (update_stage4_status now s cid u b)).
Proof.
  unfold update_stage4_status.
  destruct (get_processing_status s cid) as [s1 st] eqn:E.
  pose proof (get_processing_status_found _ _ _ _ E) as (Hf & _ & _).
  split; [|split].
  - simpl. rewrite (find_status_update _ _ _ st) by (auto || reflexivity).
    now rewrite (find_status_key _ _ _ Hf).
  - intros c Hc. simpl.
    rewrite find_status_update_other by (auto || reflexivity).
    now apply (get_processing_status_other s s1 cid c st).
  - intros U. unfold unique_status. simpl.
    rewrite update_status_keys by reflexivity.
    now apply (get_processing_status_unique s s1 cid st).
Qed.

Lemma pair_loop_status (self : t) (L : list FundingRound) (s : Session) (n : nat) :
  processing_status (fst (pair_loop self L (s, n))) = processing_status s.
Proof.
  rewrite pair_loop_pairs_from.
  apply (pairs_from_invariant self (fun _ _ => True)
           (fun acc => processing_status (fst acc) = processing_status s)).
  - intros r1 r2 [s' n'] _ H. cbn [fst] in H.
    destruct (compare_pair_cases self r1 r2 s' n') as [E|[E|E]]; rewrite E;
      cbn [fst]; now rewrite ?mark_as_duplicate_status.
  - apply all_pairs_trivial.
  - reflexivity.
Qed.

Lemma company_rounds_query (s : Session) (cid : Z) :
  company_rounds s cid = get_rounds_for_company s cid true.
Proof. unfold company_rounds, get_rounds_for_company. apply filter_andb. Qed.

End Checkpoint.

(** X4.  A run of [deduplicate_company] on a company whose stage flag is
    not set leaves the company's status row with the flag set, the clock
    reading of the run, and as [stage4_unique_rounds] the number of
    rounds that [get_rounds_for_company] (duplicates excluded) returns
    for the company after the run.  Any run leaves the status rows of
    the other companies as they were and introduces no second status
    row for a company. *)
Theorem X4_run_writes_checkpoint :
  forall (self : DeduplicatorV2.t) (now : Z) (s : Models.Session)
         (company : Models.Company),
    let cid := Models.company_pk company in
    let s' := fst (DeduplicatorV2.deduplicate_company self now s company) in
    (Cover.unmerged s cid ->
     DatabaseManager.find_status (Models.processing_status s') cid
     = Some (Models.mkProcessingStatus cid true (Some now)
               (List.length (Queries.get_rounds_for_company s' cid true))))
    /\ (forall c, c <> cid ->
          DatabaseManager.find_status (Models.processing_status s') c
          = DatabaseManager.find_status (Models.processing_status s) c)
    /\ (Cover.unique_status s -> Cover.unique_status s').
Proof.
  intros self now s company cid s'. subst s'.
  unfold DeduplicatorV2.deduplicate_company. fold cid.
  destruct (DatabaseManager.get_processing_status s cid) as [s1 st] eqn:E.
  pose proof (get_processing_status_other s s1 cid) as Hother.
  pose proof (get_processing_status_unique s s1 cid st E) as Hu.
  split; [|split].
  - intros Hun. rewrite (get_processing_status_flag _ _ _ _ E Hun).
    destruct (Nat.leb _ 1); cbn [fst].
    + destruct (update_stage4_status_row now s1 cid
                  (List.length (DeduplicatorV2.company_rounds s1 cid)) true)
        as (Hrow & _ & _).
      rewrite Hrow. do 3 f_equal.
      rewrite company_rounds_query. unfold Queries.get_rounds_for_company.
      now rewrite (proj1 (update_stage4_status_rounds now s1 cid _ true)).
    + destruct (DeduplicatorV2.pair_loop self _ (s1, 0%nat)) as [s2 found].
      cbn [fst].
      destruct (update_stage4_status_row now s2 cid
                  (List.length (DeduplicatorV2.company_rounds s2 cid)) true)
        as (Hrow & _ & _).
      rewrite Hrow. do 3 f_equal.
      rewrite company_rounds_query. unfold Queries.get_rounds_for_company.
      now rewrite (proj1 (update_stage4_status_rounds now s2 cid _ true)).
  - intros c Hc. specialize (Hother c st E Hc).
    destruct (Models.stage4_merged st); [exact Hother|].
    destruct (Nat.leb _ 1); cbn [fst].
    + destruct (update_stage4_status_row now s1 cid
                  (List.length (DeduplicatorV2.company_rounds s1 cid)) true)
        as (_ & Hfr & _).
      now rewrite Hfr.
    + pose proof (pair_loop_status self (DeduplicatorV2.company_rounds s1 cid)
                    s1 0%nat) as Hps.
      destruct (DeduplicatorV2.pair_loop self _ (s1, 0%nat)) as [s2 found].
      cbn [fst] in *.
      destruct (update_stage4_status_row now s2 cid
                  (List.length (DeduplicatorV2.company_rounds s2 cid)) true)
        as (_ & Hfr & _).
      rewrite Hfr by assumption. now rewrite Hps.
  - intros U. specialize (Hu U).
    destruct (Models.stage4_merged st); [exact Hu|].
    destruct (Nat.leb _ 1); cbn [fst].
    + now apply update_stage4_status_row.
    + pose proof (pair_loop_status self (DeduplicatorV2.company_rounds s1 cid)
                    s1 0%nat) as Hps.
      destruct (DeduplicatorV2.pair_loop self _ (s1, 0%nat)) as [s2 found].
      cbn [fst] in *. apply update_stage4_status_row.
      unfold Cover.unique_status. now rewrite Hps.
Qed.

(** X4 at the session of Acme, run at clock reading 42. *)
Lemma X4_run_writes_checkpoint_witness :
  DatabaseManager.find_status
    (Models.processing_status
       (fst (DeduplicatorV2.deduplicate_company Examples.default_dedup 42
               Examples.acme_session Examples.acme))) 1
  = Some (Models.mkProcessingStatus 1 true (Some 42) 1).
Proof.
  refine (eq_trans
            (proj1 (X4_run_writes_checkpoint Examples.default_dedup 42
                      Examples.acme_session Examples.acme) _) _).
  - intros st H. vm_compute in H. discriminate.
  - vm_compute. reflexivity.
Defined.

(* ================================================================== *)
(** ** The survivors of a run contain no duplicate pair *)

Section Settled.
Import Models DatabaseManager DeduplicatorV2 Aux Cover Queries.

Variable self : t.

Lemma inner_stable (P : Session * nat -> Prop) (r1 : FundingRound)
      (rest : list FundingRound) (acc : Session * nat) :
  stable self P -> P acc ->
  P (fold_left (fun acc r2 => compare_pair self r1 r2 acc) rest acc).
Proof.
  intros HP. revert acc. induction rest as [|r2 rest IH]; intros acc H; simpl.
  - exact H.
  - apply IH. now apply HP.
Qed.

Lemma pairs_stable (P : Session * nat -> Prop) (L : list FundingRound)
      (acc : Session * nat) :
  stable self P -> P acc -> P (pairs_from self L acc).
Proof.
  intros HP. revert acc. induction L as [|r1 rest IH]; intros acc H; simpl.
  - exact H.
  - apply IH. now apply inner_stable.
Qed.

Lemma get_round_present (l : list FundingRound) (rid : Z) :
  In rid (map id l) -> exists row, get_round l rid = Some row.
Proof.
  intros H. destruct (get_round l rid) as [row|] eqn:E; [now exists row|].
  exfalso. apply in_map_iff in H as (r & Hr & Hin).
  apply (proj1 (get_round_none l rid) E r Hin Hr).
Qed.

Lemma flagged_mark (s : Session) (d o rid : Z) :
  flagged s rid -> flagged (mark_as_duplicate s d o) rid.
Proof.
  intros (row & Hg & Hd). unfold flagged.
  rewrite mark_as_duplicate_rounds, get_round_update by reflexivity.
  destruct (Z.eqb_spec rid d) as [->|_].
  - rewrite Hg. now exists (set_duplicate row o).
  - now exists row.
Qed.

Lemma mark_flags (s : Session) (d o : Z) :
  In d (map id (funding_rounds s)) -> flagged (mark_as_duplicate s d o) d.
Proof.
  intros H. destruct (get_round_present _ _ H) as (row & Hg). unfold flagged.
  rewrite mark_as_duplicate_rounds, get_round_update by reflexivity.
  rewrite Z.eqb_refl, Hg. now exists (set_duplicate row o).
Qed.

Lemma stable_flagged (rid : Z) : stable self (fun acc => flagged (fst acc) rid).
Proof.
  intros r1 r2 [s n] H. cbn [fst] in H.
  destruct (compare_pair_cases self r1 r2 s n) as [E|[E|E]]; rewrite E;
    cbn [fst]; auto using flagged_mark.
Qed.

Lemma stable_ids (ids : list Z) :
  stable self (fun acc => map id (funding_rounds (fst acc)) = ids).
Proof.
  intros r1 r2 [s n] H. cbn [fst] in H.
  destruct (compare_pair_cases self r1 r2 s n) as [E|[E|E]]; rewrite E;
    cbn [fst]; rewrite ?mark_as_duplicate_rounds, ?update_round_ids; exact H.
Qed.

(** A comparison that finds a duplicate pair flags one of the two. *)
Lemma compare_pair_flags_one (r1 r2 : FundingRound) (s : Session) (n : nat) :
  are_duplicates self r1 r2 = true ->
  In (id r1) (map id (funding_rounds s)) ->
  In (id r2) (map id (funding_rounds s)) ->
  flagged (fst (compare_pair self r1 r2 (s, n))) (id r1)
  \/ flagged (fst (compare_pair self r1 r2 (s, n))) (id r2).
Proof.
  intros Hd H1 H2. unfold compare_pair. rewrite Hd.
  destruct (is_high r1 && negb (is_high r2));
    [right; now apply mark_flags|].
  destruct (is_high r2 && negb (is_high r1));
    [left; now apply mark_flags|].
  destruct (Nat.leb _ _); [right | left]; now apply mark_flags.
Qed.

Lemma inner_settles (r1 : FundingRound) (rest : list FundingRound) :
  forall acc,
    In (id r1) (map id (funding_rounds (fst acc))) ->
    (forall r2, In r2 rest -> In (id r2) (map id (funding_rounds (fst acc)))) ->
    Forall (settled self
              (fst (fold_left (fun acc r2 => compare_pair self r1 r2 acc) rest acc))
              r1) rest.
Proof.
  induction rest as [|r2 rest IH]; intros [s n] H1 Hrest; cbn [fold_left fst] in *;
    constructor.
  - intros Hd.
    pose proof (compare_pair_flags_one r1 r2 s n Hd H1
                  (Hrest r2 (or_introl eq_refl))) as [F|F]; [left|right];
      now apply (inner_stable (fun acc => flagged (fst acc) _) r1 rest _
                   (stable_flagged _)).
  - pose proof (stable_ids (map id (funding_rounds s)) r1 r2 (s, n) eq_refl) as Hi.
    apply IH; rewrite Hi; auto.
    intros x Hx. apply Hrest. now right.
Qed.

Lemma pairs_settle (L : list FundingRound) :
  forall acc,
    (forall r, In r L -> In (id r) (map id (funding_rounds (fst acc)))) ->
    ForallOrdPairs (settled self (fst (pairs_from self L acc))) L.
Proof.
  induction L as [|r1 rest IH]; intros acc Hin; cbn [pairs_from]; constructor.
  - pose proof (inner_settles r1 rest acc (Hin r1 (or_introl eq_refl))
                  (fun r2 H => Hin r2 (or_intror H))) as H.
    apply Forall_forall. intros r2 Hr2 Hd.
    rewrite Forall_forall in H.
    destruct (H r2 Hr2 Hd) as [F|F]; [left|right];
      now apply (pairs_stable (fun acc => flagged (fst acc) _) rest _
                   (stable_flagged _)).
  - apply IH. intros r Hr.
    rewrite (inner_stable (fun a => map id (funding_rounds (fst a))
                                    = map id (funding_rounds (fst acc)))
               r1 rest acc (stable_ids _) eq_refl).
    apply Hin. now right.
Qed.

Lemma no_pairs_when_short (L : list FundingRound) (acc : Session * nat) :
  (List.length L <= 1)%nat -> pairs_from self L acc = acc.
Proof.
  destruct L as [|a [|b L]]; simpl; intros H; try reflexivity. lia.
Qed.

(** A run on a company whose flag is not set, as the loop over the
    rounds loaded followed by the checkpoint. *)
Lemma run_unmerged (now : Z) (s : Session) (company : Company) :
  unmerged s (company_pk company) ->
  exists s1,
    funding_rounds s1 = funding_rounds s
    /\ funding_rounds (fst (deduplicate_company self now s company))
       = funding_rounds
           (fst (pairs_from self (company_rounds s (company_pk company)) (s1, 0%nat)))
    /\ snd (deduplicate_company self now s company)
       = snd (pairs_from self (company_rounds s (company_pk company)) (s1, 0%nat)).
Proof.
  intros Hun. unfold deduplicate_company.
  destruct (get_processing_status s (company_pk company)) as [s1 st] eqn:E.
  rewrite (get_processing_status_flag _ _ _ _ E Hun).
  apply get_processing_status_found in E as (_ & Hr & _).
  assert (HL : company_rounds s1 (company_pk company)
               = company_rounds s (company_pk company))
    by (unfold company_rounds; now rewrite Hr).
  rewrite HL. exists s1. split; [exact Hr|].
  destruct (Nat.leb_spec (List.length (company_rounds s (company_pk company))) 1)
    as [Hle|Hgt]; cbn [fst snd].
  - rewrite no_pairs_when_short by exact Hle. cbn [fst snd].
    now rewrite (proj1 (update_stage4_status_rounds now s1 _ _ true)).
  - rewrite pair_loop_pairs_from.
    destruct (pairs_from self _ (s1, 0%nat)) as [s2 found]. cbn [fst snd].
    now rewrite (proj1 (update_stage4_status_rounds now s2 _ _ true)).
Qed.

End Settled.

Section Survivors.
Import Models DatabaseManager DeduplicatorV2 Aux Cover Queries.

Variable self : t.
Variable cid : Z.
Variable L : list FundingRound.
Variable res : Session.

Let p := fun r : FundingRound => (company_id r =? cid) && negb (is_duplicate r).

Lemma kept_is_same (r0 r : FundingRound) :
  demoted_from L r0 r -> p r = true -> r = r0.
Proof.
  intros [->|(_ & w & _ & _ & ->)] H; [reflexivity|].
  unfold p in H. cbn [is_duplicate set_duplicate negb] in H.
  rewrite andb_false_r in H. discriminate.
Qed.

Lemma kept_was_loaded (l0 l : list FundingRound) (b : FundingRound) :
  Forall2 (demoted_from L) l0 l -> In b (filter p l) -> In b (filter p l0).
Proof.
  intros H Hb. apply filter_In in Hb as [Hin Hp].
  destruct (same_payload_in_r l0 l b) as (a & Ha & _); [|exact Hin|].
  - clear -H. induction H as [|x y l0 l Hd _ IH]; constructor; [|exact IH].
    destruct (demoted_from_columns L x y Hd) as (E1 & E2 & _). now split.
  - clear a Ha. induction H as [|x y l0 l Hd _ IH]; [destruct Hin|].
    destruct Hin as [->|Hin].
    + rewrite (kept_is_same x b Hd Hp). cbn [filter].
      rewrite (kept_is_same x b Hd Hp) in Hp. rewrite Hp. now left.
    + cbn [filter]. destruct (p x); [right|]; now apply IH.
Qed.

Lemma survivors_settled (l0 l : list FundingRound) :
  Forall2 (demoted_from L) l0 l ->
  ForallOrdPairs (settled self res) (filter p l0) ->
  (forall r, In r (filter p l) -> ~ flagged res (id r)) ->
  ForallOrdPairs (fun a b => are_duplicates self a b = false) (filter p l).
Proof.
  intros H. induction H as [|r0 r l0 l Hd Ht IH]; intros Hs Hun;
    cbn [filter] in *; [constructor|].
  destruct (p r) eqn:Pr.
  - pose proof (kept_is_same r0 r Hd Pr) as ->. rewrite Pr in Hs.
    inversion Hs as [|x xs Hhead Htail]; subst.
    constructor.
    + apply Forall_forall. intros b Hb.
      destruct (are_duplicates self r0 b) eqn:Hdup; [exfalso|reflexivity].
      rewrite Forall_forall in Hhead.
      destruct (Hhead b (kept_was_loaded _ _ b Ht Hb) Hdup) as [F|F].
      * apply (Hun r0); [now left | exact F].
      * apply (Hun b); [now right | exact F].
    + apply IH; [exact Htail|]. intros x Hx. apply Hun. now right.
  - apply IH; [|exact Hun].
    destruct (p r0); [|exact Hs]. now inversion Hs.
Qed.

End Survivors.

Section Rerun.
Import Models DatabaseManager DeduplicatorV2 Aux Cover Queries.

Lemma no_duplicate_pairs (self : t) (L : list FundingRound) :
  ForallOrdPairs (fun a b => are_duplicates self a b = false) L ->
  duplicate_pairs self L = 0%nat.
Proof.
  induction 1 as [|a l Ha _ IH]; simpl; [reflexivity|].
  rewrite IH, Nat.add_0_r. clear IH.
  induction Ha as [|b l Hb _ IHa]; simpl; [reflexivity|].
  now rewrite Hb.
Qed.

Lemma find_status_map (f : ProcessingStatus -> ProcessingStatus)
      (l : list ProcessingStatus) (cid : Z) :
  (forall x, status_company_id (f x) = status_company_id x) ->
  find_status (map f l) cid = option_map f (find_status l cid).
Proof.
  intros Hf. unfold find_status. induction l as [|x l IH]; simpl; [reflexivity|].
  rewrite Hf. destruct (status_company_id x =? cid); [reflexivity | exact IH].
Qed.

(** The survivors of a run, in load order, contain no pair that
    [are_duplicates] accepts. *)
Lemma run_settles (self : t) (now : Z) (s : Session) (company : Company) :
  unique_ids s ->
  unmerged s (company_pk company) ->
  ForallOrdPairs (fun a b => are_duplicates self a b = false)
    (company_rounds (fst (deduplicate_company self now s company))
                    (company_pk company)).
Proof.
  intros U Hun.
  pose proof (deduplicate_company_traced self now s company U) as Ht.
  destruct (run_unmerged self now s company Hun) as (s1 & Hr1 & Hrs & _).
  set (L := company_rounds s (company_pk company)) in *.
  set (s' := fst (deduplicate_company self now s company)) in *.
  set (res := fst (pairs_from self L (s1, 0%nat))) in *.
  assert (Hids : map id (funding_rounds s') = map id (funding_rounds s)).
  { symmetry. clear -Ht. unfold traced in Ht.
    induction Ht as [|x y l0 l Hd _ IH]; simpl; [reflexivity|].
    destruct (demoted_from_columns _ x y Hd) as (E & _). congruence. }
  unfold company_rounds at 1.
  apply (survivors_settled self (company_pk company) L res
           (funding_rounds s) (funding_rounds s') Ht).
  - apply (pairs_settle self L (s1, 0%nat)).
    intros r Hr. cbn [fst]. rewrite Hr1. apply in_map.
    now apply (in_company_rounds s (company_pk company) r).
  - intros r Hr (row & Hg & Hd).
    apply filter_In in Hr as [Hin Hp].
    rewrite <- Hrs in Hg.
    rewrite get_round_in in Hg.
    + inversion Hg; subst row.
      apply andb_true_iff in Hp as [_ Hp]. rewrite Hd in Hp. discriminate.
    + rewrite Hids. exact U.
    + exact Hin.
Qed.

Lemma reset_unmerges (s : Session) (stages : option (list Z)) (cid : Z) :
  mem 4 (match stages with Some l => l | None => [2; 3; 4] end) = true ->
  unmerged (reset_processing_status s stages) cid
  /\ funding_rounds (reset_processing_status s stages) = funding_rounds s
  /\ companies (reset_processing_status s stages) = companies s.
Proof.
  intros H4. unfold reset_processing_status. rewrite H4. repeat split.
  intros st Hf. cbn [processing_status with_status] in Hf.
  rewrite find_status_map in Hf by reflexivity.
  destruct (find_status (processing_status s) cid); inversion Hf. reflexivity.
Qed.

End Rerun.

(** X5.  With distinct primary keys, after a run of
    [deduplicate_company] on a company whose stage flag was not set, no
    two of the company's remaining non-duplicate rounds, taken in load
    order, are judged duplicates by [are_duplicates].  Hence, once
    [reset_processing_status] has cleared stage 4 (the default, or any
    list that holds 4), a second run with the same thresholds returns 0
    and changes no round. *)
Theorem X5_survivors_hold_no_duplicate_pair :
  forall (self : DeduplicatorV2.t) (now now' : Z) (s : Models.Session)
         (company : Models.Company) (stages : option (list Z)),
    Models.unique_ids s ->
    Cover.unmerged s (Models.company_pk company) ->
    let s1 := fst (DeduplicatorV2.deduplicate_company self now s company) in
    ForallOrdPairs (fun a b => DeduplicatorV2.are_duplicates self a b = false)
      (Queries.get_rounds_for_company s1 (Models.company_pk company) true)
    /\ (Queries.mem 4 (match stages with Some l => l | None => [2; 3; 4] end)
        = true ->
        let s2 := Queries.reset_processing_status s1 stages in
        snd (DeduplicatorV2.deduplicate_company self now' s2 company) = 0%nat
        /\ Models.funding_rounds
             (fst (DeduplicatorV2.deduplicate_company self now' s2 company))
           = Models.funding_rounds s1).
Proof.
  intros self now now' s company stages U Hun s1.
  pose proof (run_settles self now s company U Hun) as Hset. fold s1 in Hset.
  split; [now rewrite <- company_rounds_query|].
  intros H4 s2.
  destruct (reset_unmerges s1 stages (Models.company_pk company) H4)
    as (Hun2 & Hr2 & _). fold s2 in Hun2, Hr2.
  destruct (run_unmerged self now' s2 company Hun2) as (s3 & Hr3 & Hrs & Hn).
  assert (HL : DeduplicatorV2.company_rounds s2 (Models.company_pk company)
               = DeduplicatorV2.company_rounds s1 (Models.company_pk company))
    by (unfold DeduplicatorV2.company_rounds; now rewrite Hr2).
  rewrite HL in Hrs, Hn.
  rewrite (pairs_from_nothing self _ (s3, 0%nat)
             (no_duplicate_pairs self _ Hset)) in Hrs, Hn.
  cbn [fst snd] in Hrs, Hn. split; [exact Hn | congruence].
Qed.

(** X5 at the session of Gamma, stage 4 reset by default. *)
Lemma X5_survivors_hold_no_duplicate_pair_witness :
  snd (DeduplicatorV2.deduplicate_company Examples.default_dedup 1
         (Queries.reset_processing_status
            (fst (DeduplicatorV2.deduplicate_company Examples.default_dedup 0
                    Examples.gamma_session Examples.gamma)) None)
         Examples.gamma) = 0%nat.
Proof.
  assert (U : Models.unique_ids Examples.gamma_session).
  { unfold Models.unique_ids. simpl.
    repeat constructor; simpl; intuition discriminate. }
  refine (proj1 (proj2 (X5_survivors_hold_no_duplicate_pair
                          Examples.default_dedup 0 1 Examples.gamma_session
                          Examples.gamma None U _) eq_refl)).
  intros st H. vm_compute in H. discriminate.
Defined.

(* ================================================================== *)
(** ** Running stage 4 again *)

Section Again.
Import Models DatabaseManager DeduplicatorV2 Aux Cover Queries.

Lemma run_keeps_other_status (self : t) (now : Z) (s : Session)
      (company : Company) (c : Z) :
  c <> company_pk company ->
  find_status (processing_status (fst (deduplicate_company self now s company))) c
  = find_status (processing_status s) c.
Proof.
  intros Hc. unfold deduplicate_company.
  destruct (get_processing_status s (company_pk company)) as [s1 st] eqn:E.
  pose proof (get_processing_status_other s s1 _ c st E Hc) as Hother.
  destruct (stage4_merged st); [exact Hother|].
  destruct (Nat.leb _ 1); cbn [fst].
  - rewrite (proj1 (proj2 (update_stage4_status_row now s1 _ _ true)))
      by assumption.
    exact Hother.
  - pose proof (pair_loop_status self
                  (company_rounds s1 (company_pk company)) s1 0%nat) as Hps.
    destruct (pair_loop self _ (s1, 0%nat)) as [s2 found]. cbn [fst] in *.
    rewrite (proj1 (proj2 (update_stage4_status_row now s2 _ _ true)))
      by assumption.
    now rewrite Hps.
Qed.

(** A run leaves the flag of its company set. *)
Lemma run_merges (self : t) (now : Z) (s : Session) (company : Company) :
  merged (fst (deduplicate_company self now s company)) (company_pk company).
Proof.
  unfold deduplicate_company.
  destruct (get_processing_status s (company_pk company)) as [s1 st] eqn:E.
  apply get_processing_status_found in E as (Hf & _ & _).
  destruct (stage4_merged st) eqn:Hm; [now exists st|].
  destruct (Nat.leb _ 1); cbn [fst].
  - apply update_stage4_status_merged.
  - destruct (pair_loop self _ (s1, 0%nat)) as [s2 found]. cbn [fst].
    apply update_stage4_status_merged.
Qed.

(** A flag that is set stays set through any run. *)
Lemma run_keeps_merged (self : t) (now : Z) (s : Session) (company : Company)
      (c : Z) :
  merged s c -> merged (fst (deduplicate_company self now s company)) c.
Proof.
  intros Hm. destruct (Z.eq_dec c (company_pk company)) as [->|Hc].
  - apply run_merges.
  - destruct Hm as (st & Hf & Hst). exists st.
    now rewrite run_keeps_other_status.
Qed.

Lemma first_round_company_key (s : Session) (cid : Z) (company : Company) :
  first_round_company s cid = Some company -> company_pk company = cid.
Proof.
  unfold first_round_company.
  destruct (find _ (funding_rounds s)) as [r|] eqn:E; [|discriminate].
  apply find_some in E as [_ E]. apply Z.eqb_eq in E.
  intros H. apply find_some in H as [_ H]. apply Z.eqb_eq in H. congruence.
Qed.

(** After the loop every company visited has its flag set. *)
Lemma dedup_loop_merges (self : t) (now : nat -> Z) (cids : list Z) :
  forall (i : nat) (s s' : Session) (total n : nat),
    dedup_loop self now i cids s total = Some (s', n) ->
    (forall c, merged s c -> merged s' c)
    /\ (forall c, In c cids -> merged s' c).
Proof.
  induction cids as [|cid rest IH]; intros i s s' total n; simpl.
  - intros H; inversion H; subst. split; [auto | intros c []].
  - destruct (first_round_company s cid) as [company|] eqn:E; [|discriminate].
    pose proof (first_round_company_key s cid company E) as Hk.
    pose proof (run_merges self (now i) s company) as Hm.
    pose proof (run_keeps_merged self (now i) s company) as Hkeep.
    destruct (deduplicate_company self (now i) s company) as [s1 d].
    cbn [fst] in *. intros H.
    destruct (IH _ _ _ _ _ H) as [Hmono Hall].
    split.
    + intros c Hc. apply Hmono. now apply Hkeep.
    + intros c [<-|Hc]; [|now apply Hall].
      apply Hmono. now rewrite <- Hk.
Qed.

(** On a session where every company listed has its flag set, the loop
    changes nothing and adds nothing. *)
Lemma dedup_loop_skips (self : t) (now : nat -> Z) (cids : list Z) :
  forall (i : nat) (s : Session) (total : nat),
    foreign_keys_ok s ->
    (forall c, In c cids ->
               merged s c
               /\ exists r, In r (funding_rounds s) /\ company_id r = c) ->
    dedup_loop self now i cids s total = Some (s, total).
Proof.
  induction cids as [|cid rest IH]; intros i s total FK H; simpl; [reflexivity|].
  destruct (H cid (or_introl eq_refl)) as [(st & Hf & Hm) Hown].
  destruct (first_round_company_some s cid FK Hown) as (company & E & Hk).
  rewrite E. subst cid.
  rewrite (deduplicate_company_skips self (now i) s company st Hf Hm).
  rewrite Nat.add_0_r. apply IH; [assumption|].
  intros c Hc. apply H. now right.
Qed.

End Again.

(** X6.  When every round refers to a row of [companies],
    [deduplicate_all] run a second time, with any thresholds and clock,
    finds every company already processed: it returns the session of
    the first run unchanged, [duplicates_removed] 0, and the same
    [total_companies], [total_rounds] and [unique_rounds] as the first
    run. *)
Theorem X6_deduplicate_all_twice :
  forall (self self' : DeduplicatorV2.t) (now now' : nat -> Z)
         (s : Models.Session),
    Models.foreign_keys_ok s ->
    exists (s1 : Models.Session) (st1 st2 : DeduplicatorV2.Stats),
      DeduplicatorV2.deduplicate_all self now s = Some (s1, st1)
      /\ DeduplicatorV2.deduplicate_all self' now' s1 = Some (s1, st2)
      /\ DeduplicatorV2.duplicates_removed st2 = 0%nat
      /\ DeduplicatorV2.total_companies st2 = DeduplicatorV2.total_companies st1
      /\ DeduplicatorV2.total_rounds st2 = DeduplicatorV2.total_rounds st1
      /\ DeduplicatorV2.unique_rounds st2 = DeduplicatorV2.unique_rounds st1.
Proof.
  intros self self' now now' s FK.
  set (cids := DeduplicatorV2.distinct
                 (map Models.company_id (Models.funding_rounds s))).
  assert (Hown : forall c, In c cids ->
                   exists r, In r (Models.funding_rounds s)
                             /\ Models.company_id r = c).
  { intros c Hc. unfold cids in Hc. rewrite distinct_in, in_map_iff in Hc.
    destruct Hc as (r & H1 & H2). now exists r. }
  destruct (dedup_loop_total self now cids 1%nat s 0%nat FK Hown)
    as (s1 & n & El & _ & _ & Hp).
  destruct (dedup_loop_merges self now cids _ _ _ _ _ El) as [_ Hall].
  assert (Hcids : DeduplicatorV2.distinct
                    (map Models.company_id (Models.funding_rounds s1)) = cids).
  { unfold cids. destruct Hp as [Hp _].
    now rewrite <- (proj2 (same_payload_ids _ _ Hp)). }
  assert (El2 : DeduplicatorV2.dedup_loop self' now' 1 cids s1 0 = Some (s1, 0%nat)).
  { apply dedup_loop_skips; [now apply (preserved_foreign_keys s)|].
    intros c Hc. split; [now apply Hall|].
    apply (preserved_owner s); auto. }
  exists s1. do 2 eexists.
  unfold DeduplicatorV2.deduplicate_all. fold cids. rewrite El, Hcids, El2.
  repeat split.
Qed.

(** X6 at the session of Acme. *)
Lemma X6_deduplicate_all_twice_witness :
  exists (s1 : Models.Session) (st2 : DeduplicatorV2.Stats),
    DeduplicatorV2.deduplicate_all Examples.default_dedup (fun _ => 1) s1
    = Some (s1, st2)
    /\ DeduplicatorV2.duplicates_removed st2 = 0%nat.
Proof.
  destruct (X6_deduplicate_all_twice Examples.default_dedup
              Examples.default_dedup (fun _ => 0) (fun _ => 1)
              Examples.acme_session) as (s1 & st1 & st2 & _ & H2 & H0 & _).
  - intros r [<-|[<-|[]]]; exists Examples.acme; split;
      first [now left | reflexivity].
  - now exists s1, st2.
Defined.

(* ================================================================== *)
(** ** [mark_as_duplicate]: lookups and composition *)

Section Marks.
Import Models DatabaseManager.

Lemma mark_as_duplicate_eq (s : Session) (d o : Z) :
  mark_as_duplicate s d o
  = with_rounds s (update_round (funding_rounds s) d (fun r => set_duplicate r o)).
Proof.
  unfold mark_as_duplicate.
  destruct (get_round (funding_rounds s) d) eqn:E; [reflexivity|].
  rewrite update_round_absent by now apply get_round_none.
  now destruct s.
Qed.

Lemma update_round_twice (l : list FundingRound) (d o1 o2 : Z) :
  update_round (update_round l d (fun r => set_duplicate r o1)) d
               (fun r => set_duplicate r o2)
  = update_round l d (fun r => set_duplicate r o2).
Proof.
  induction l as [|r l IH]; simpl; [reflexivity|].
  destruct (Z.eqb_spec (id r) d) as [E|N]; simpl.
  - destruct (Z.eqb_spec (id r) d); [reflexivity|contradiction].
  - destruct (Z.eqb_spec (id r) d); [contradiction|]. now rewrite IH.
Qed.

Lemma update_round_swap (l : list FundingRound) (d d' o o' : Z) :
  d <> d' ->
  update_round (update_round l d (fun r => set_duplicate r o)) d'
               (fun r => set_duplicate r o')
  = update_round (update_round l d' (fun r => set_duplicate r o')) d
                 (fun r => set_duplicate r o).
Proof.
  intros Hd. induction l as [|r l IH]; simpl; [reflexivity|].
  destruct (Z.eqb_spec (id r) d) as [E|N];
    destruct (Z.eqb_spec (id r) d') as [E'|N']; simpl;
    try congruence;
    repeat match goal with
           | |- context [Z.eqb ?a ?b] =>
               destruct (Z.eqb_spec a b); try congruence
           end.
Qed.

End Marks.

(** X7.  [mark_as_duplicate] on a key that has a row makes the lookup
    of that key return the row with [is_duplicate] set and
    [duplicate_of_id] the given original, and leaves the lookup of every
    other key as it was.  Marking the same round twice leaves the last
    original (so repeating a mark changes nothing), and marks of two
    different rounds commute. *)
Theorem X7_mark_as_duplicate_composes :
  forall (s : Models.Session) (d o : Z),
    (forall r, DatabaseManager.get_round (Models.funding_rounds s) d = Some r ->
       DatabaseManager.get_round
         (Models.funding_rounds (DatabaseManager.mark_as_duplicate s d o)) d
       = Some (DatabaseManager.set_duplicate r o))
    /\ (forall rid, rid <> d ->
          DatabaseManager.get_round
            (Models.funding_rounds (DatabaseManager.mark_as_duplicate s d o)) rid
          = DatabaseManager.get_round (Models.funding_rounds s) rid)
    /\ (forall o',
          DatabaseManager.mark_as_duplicate
            (DatabaseManager.mark_as_duplicate s d o) d o'
          = DatabaseManager.mark_as_duplicate s d o')
    /\ (forall d' o', d <> d' ->
          DatabaseManager.mark_as_duplicate
            (DatabaseManager.mark_as_duplicate s d o) d' o'
          = DatabaseManager.mark_as_duplicate
              (DatabaseManager.mark_as_duplicate s d' o') d o).
Proof.
  intros s d o. split; [|split; [|split]].
  - intros r Hr. rewrite mark_as_duplicate_rounds,
      get_round_update by reflexivity.
    now rewrite Z.eqb_refl, Hr.
  - intros rid Hrid. rewrite mark_as_duplicate_rounds,
      get_round_update by reflexivity.
    destruct (Z.eqb_spec rid d); [contradiction|reflexivity].
  - intros o'. rewrite !mark_as_duplicate_eq. unfold Models.with_rounds.
    cbn [Models.funding_rounds Models.companies Models.processing_status].
    now rewrite update_round_twice.
  - intros d' o' Hd. rewrite !mark_as_duplicate_eq. unfold Models.with_rounds.
    cbn [Models.funding_rounds Models.companies Models.processing_status].
    now rewrite update_round_swap.
Qed.

(** X7 at the session of Acme: round 2 marked as a duplicate of 1. *)
Lemma X7_mark_as_duplicate_composes_witness :
  DatabaseManager.get_round
    (Models.funding_rounds
       (DatabaseManager.mark_as_duplicate Examples.acme_session 2 1)) 2
  = Some (DatabaseManager.set_duplicate Examples.acme_search 1)
  /\ DatabaseManager.mark_as_duplicate
       (DatabaseManager.mark_as_duplicate Examples.acme_session 2 1) 1 2
     = DatabaseManager.mark_as_duplicate
         (DatabaseManager.mark_as_duplicate Examples.acme_session 1 2) 2 1.
Proof.
  split.
  - apply (proj1 (X7_mark_as_duplicate_composes Examples.acme_session 2 1)).
    reflexivity.
  - apply (proj2 (proj2 (proj2 (X7_mark_as_duplicate_composes
                                  Examples.acme_session 2 1)))).
    discriminate.
Defined.

(* ================================================================== *)
(** ** [parse_date] returns calendar dates *)

Section ValidDates.
Import PyDatetime DeduplicatorV2.

Lemma make_datetime_valid (y m d : Z) (dt : datetime) :
  make_datetime y m d = Some dt ->
  1 <= year dt <= 9999 /\ 1 <= month dt <= 12
  /\ 1 <= day dt <= days_in_month (year dt) (month dt).
Proof.
  unfold make_datetime.
  destruct ((1 <=? y) && (y <=? 9999) && (1 <=? m) && (m <=? 12)
            && (1 <=? d) && (d <=? days_in_month y m)) eqn:E; [|discriminate].
  intros H; inversion H; subst; simpl.
  repeat (apply andb_true_iff in E as [E ?]).
  repeat match goal with H : (_ <=? _) = true |- _ => apply Z.leb_le in H end.
  lia.
Qed.

Lemma strptime_valid (s : string) (fmt : list token) (dt : datetime) :
  strptime s fmt = Some dt ->
  1 <= year dt <= 9999 /\ 1 <= month dt <= 12
  /\ 1 <= day dt <= days_in_month (year dt) (month dt).
Proof.
  unfold strptime. destruct (re_match fmt no_groups s) as [|[g rest] ?];
    [discriminate|].
  destruct (String.eqb rest ""); [|discriminate]. apply make_datetime_valid.
Qed.

Lemma days_in_month_range (y m : Z) :
  1 <= m <= 12 -> 28 <= days_in_month y m <= 31.
Proof.
  intros H. unfold days_in_month.
  assert (Hm : m = 1 \/ m = 2 \/ m = 3 \/ m = 4 \/ m = 5 \/ m = 6 \/ m = 7
               \/ m = 8 \/ m = 9 \/ m = 10 \/ m = 11 \/ m = 12) by lia.
  repeat (destruct Hm as [->|Hm]); try subst m; simpl;
    try destruct (is_leap y); simpl; lia.
Qed.

End ValidDates.

(* ================================================================== *)
(** ** Dates by granularity *)

Section Granularity.
Import PyDatetime DeduplicatorV2.

Lemma digit_range (c : ascii) (v : Z) : digit c = Some v -> 0 <= v <= 9.
Proof.
  unfold digit.
  destruct (Nat.leb_spec 48 (nat_of_ascii c)) as [H1|H1]; [|discriminate].
  destruct (Nat.leb_spec (nat_of_ascii c) 57) as [H2|H2]; [|discriminate].
  simpl. intros E; inversion E. lia.
Qed.

(** A digit is none of the separators that the formats use. *)
Lemma digit_not_separator (c : ascii) (v : Z) :
  digit c = Some v ->
  Ascii.eqb c "-" = false /\ Ascii.eqb c "/" = false /\ Ascii.eqb c " " = false.
Proof.
  intros H. repeat split.
  - destruct (Ascii.eqb_spec c "-"%char) as [->|]; [|reflexivity].
    vm_compute in H. discriminate.
  - destruct (Ascii.eqb_spec c "/"%char) as [->|]; [|reflexivity].
    vm_compute in H. discriminate.
  - destruct (Ascii.eqb_spec c " "%char) as [->|]; [|reflexivity].
    vm_compute in H. discriminate.
Qed.

Ltac decide_leb :=
  repeat match goal with
         | |- context [Z.leb ?a ?b] =>
             first [ rewrite (proj2 (Z.leb_le a b)) by lia
                   | rewrite (proj2 (Z.leb_gt a b)) by lia ]
         end.

Lemma make_datetime_ok (y m d : Z) :
  1 <= y <= 9999 -> 1 <= m <= 12 -> 1 <= d <= days_in_month y m ->
  make_datetime y m d = Some (mkDatetime y m d).
Proof.
  intros Hy Hm Hd. unfold make_datetime. decide_leb. reflexivity.
Qed.

Variables a b c d : ascii.
Variables x y z w : Z.
Hypothesis Ha : digit a = Some x.
Hypothesis Hb : digit b = Some y.
Hypothesis Hc : digit c = Some z.
Hypothesis Hd : digit d = Some w.

Let yv := 1000 * x + 100 * y + 10 * z + w.
Let Y4 := fun rest : string => String a (String b (String c (String d rest))).

Hypothesis Hy : 1 <= yv.

Lemma year_range : 1 <= yv <= 9999.
Proof.
  pose proof (digit_range _ _ Ha). pose proof (digit_range _ _ Hb).
  pose proof (digit_range _ _ Hc). pose proof (digit_range _ _ Hd).
  unfold yv in *. lia.
Qed.

Lemma re_Y_four (rest : string) : re_Y (Y4 rest) = [(yv, rest)].
Proof. unfold re_Y, Y4. now rewrite Ha, Hb, Hc, Hd. Qed.

Lemma four_truthy (rest : string) : PyStr.truthy (Y4 rest) = true.
Proof. reflexivity. Qed.

(** "YYYY". *)
Lemma parse_year : parse_date (Some (Y4 "")) = Some (mkDatetime yv 1 1).
Proof.
  unfold parse_date. rewrite four_truthy.
  unfold formats. cbn [try_formats]. unfold strptime. cbn [re_match].
  rewrite !re_Y_four.
  cbn [flat_map app re_match gY gm gd default String.eqb no_groups].
  rewrite make_datetime_ok; [reflexivity | apply year_range | lia
                            | vm_compute; split; discriminate].
Qed.

Variables e f : ascii.
Variables m1 m2 : Z.
Hypothesis He : digit e = Some m1.
Hypothesis Hf : digit f = Some m2.

Let mv := 10 * m1 + m2.

Hypothesis Hm : 1 <= mv <= 12.

Lemma month_cases : (m1 = 0 /\ 1 <= m2 <= 9) \/ (m1 = 1 /\ 0 <= m2 <= 2).
Proof.
  pose proof (digit_range _ _ He). pose proof (digit_range _ _ Hf).
  unfold mv in Hm. lia.
Qed.

(** The month group on the two digits, whatever follows them. *)
Lemma re_m_two (rest : string) :
  re_m (String e (String f rest))
  = (mv, rest) :: (if m1 =? 1 then [(1, String f rest)] else []).
Proof.
  unfold re_m, two, one, digit_in. rewrite He, Hf.
  destruct month_cases as [[E1 H2]|[E1 H2]]; unfold mv; rewrite E1;
    decide_leb; reflexivity.
Qed.

(** "YYYY-MM". *)
Lemma parse_year_month :
  parse_date (Some (Y4 (String "-" (String e (String f "")))))
  = Some (mkDatetime yv mv 1).
Proof.
  destruct (digit_not_separator _ _ Hf) as (Nf & _ & _).
  pose proof (days_in_month_range yv mv Hm).
  unfold parse_date. rewrite four_truthy.
  unfold formats. cbn [try_formats]. unfold strptime. cbn [re_match].
  rewrite !re_Y_four.
  cbn [flat_map app re_match gY gm gd default String.eqb no_groups
       Ascii.eqb Bool.eqb].
  rewrite !re_m_two.
  destruct (m1 =? 1);
    cbn [flat_map app re_match gY gm gd default String.eqb]; rewrite ?Nf;
    cbn [flat_map app re_match gY gm gd default String.eqb];
    (rewrite make_datetime_ok; [reflexivity | apply year_range | lia | lia]).
Qed.

Variables g h : ascii.
Variables d1 d2 : Z.
Hypothesis Hg : digit g = Some d1.
Hypothesis Hh : digit h = Some d2.

Let dv := 10 * d1 + d2.

Hypothesis Hday : 1 <= dv <= days_in_month yv mv.

Lemma day_cases :
  (d1 = 0 /\ 1 <= d2 <= 9) \/ (1 <= d1 <= 2 /\ 0 <= d2 <= 9)
  \/ (d1 = 3 /\ 0 <= d2 <= 1).
Proof.
  pose proof (digit_range _ _ Hg). pose proof (digit_range _ _ Hh).
  pose proof (days_in_month_range yv mv Hm). unfold dv in Hday. lia.
Qed.

(** The day group on the two digits at the end of the text. *)
Lemma re_d_two :
  re_d (String g (String h ""))
  = (dv, ""%string) :: (if d1 =? 0 then [] else [(d1, String h "")]).
Proof.
  destruct (digit_not_separator _ _ Hg) as (_ & _ & Ng).
  unfold re_d, two, one, space_one, digit_in. rewrite Hg, Hh, Ng.
  destruct day_cases as [[E1 H2]|[[H1 H2]|[E1 H2]]]; unfold dv.
  - rewrite E1. decide_leb. reflexivity.
  - assert (E : d1 = 1 \/ d1 = 2) by lia.
    destruct E as [E|E]; rewrite E; decide_leb; reflexivity.
  - rewrite E1. decide_leb. reflexivity.
Qed.

(** "YYYY-MM-DD". *)
Lemma parse_full_date :
  parse_date
    (Some (Y4 (String "-" (String e (String f
             (String "-" (String g (String h ""))))))))
  = Some (mkDatetime yv mv dv).
Proof.
  destruct (digit_not_separator _ _ Hf) as (Nf & _ & _).
  unfold parse_date. rewrite four_truthy.
  unfold formats. cbn [try_formats]. unfold strptime. cbn [re_match].
  rewrite !re_Y_four.
  cbn [flat_map app re_match gY gm gd default String.eqb no_groups
       Ascii.eqb Bool.eqb].
  rewrite !re_m_two.
  cbn [flat_map app re_match gY gm gd default String.eqb Ascii.eqb Bool.eqb].
  rewrite re_d_two.
  cbn [flat_map app re_match gY gm gd default String.eqb].
  rewrite make_datetime_ok; [reflexivity | apply year_range | exact Hm | exact Hday].
Qed.

End Granularity.

Lemma days_before_month_nonneg (y m : Z) :
  1 <= m <= 12 -> 0 <= PyDatetime.days_before_month y m.
Proof.
  intros H. unfold PyDatetime.days_before_month.
  assert (Hm : m = 1 \/ m = 2 \/ m = 3 \/ m = 4 \/ m = 5 \/ m = 6 \/ m = 7
               \/ m = 8 \/ m = 9 \/ m = 10 \/ m = 11 \/ m = 12) by lia.
  repeat (destruct Hm as [->|Hm]); try subst m; simpl;
    try destruct (PyDatetime.is_leap y); simpl; lia.
Qed.

(** X9.  Text made of four digits with value at least 1 is read by
    [parse_date] as January 1st of that year; followed by "-" and two
    digits of a month, as the first day of that month; followed by "-"
    and two digits of a day of that month, as that day.  A round dated
    by its year alone is therefore close to a round of the same year
    with a full date only when the latter lies within
    [date_proximity_days] days after January 1st. *)
Theorem X9_dates_by_granularity :
  forall (a b c d : ascii) (x y z w : Z),
    PyDatetime.digit a = Some x -> PyDatetime.digit b = Some y ->
    PyDatetime.digit c = Some z -> PyDatetime.digit d = Some w ->
    1 <= 1000 * x + 100 * y + 10 * z + w ->
    let yv := 1000 * x + 100 * y + 10 * z + w in
    let Y4 := fun rest => String a (String b (String c (String d rest))) in
    DeduplicatorV2.parse_date (Some (Y4 ""%string))
    = Some (PyDatetime.mkDatetime yv 1 1)
    /\ forall (e f : ascii) (m1 m2 : Z),
        PyDatetime.digit e = Some m1 -> PyDatetime.digit f = Some m2 ->
        1 <= 10 * m1 + m2 <= 12 ->
        let mv := 10 * m1 + m2 in
        DeduplicatorV2.parse_date
          (Some (Y4 (String "-" (String e (String f ""%string)))))
        = Some (PyDatetime.mkDatetime yv mv 1)
        /\ forall (g h : ascii) (d1 d2 : Z),
            PyDatetime.digit g = Some d1 -> PyDatetime.digit h = Some d2 ->
            1 <= 10 * d1 + d2 <= PyDatetime.days_in_month yv mv ->
            let dv := 10 * d1 + d2 in
            let full := Y4 (String "-" (String e (String f
                             (String "-" (String g (String h ""%string)))))) in
            DeduplicatorV2.parse_date (Some full)
            = Some (PyDatetime.mkDatetime yv mv dv)
            /\ forall self : DeduplicatorV2.t,
                DeduplicatorV2.dates_are_close self (Some (Y4 ""%string)) (Some full)
                = (PyDatetime.days_before_month yv mv + dv - 1
                   <=? DeduplicatorV2.date_proximity_days self).
Proof.
  intros a b c d x y z w Ha Hb Hc Hd Hy yv Y4.
  pose proof (parse_year a b c d x y z w Ha Hb Hc Hd Hy) as Py.
  cbv zeta beta in Py. subst yv Y4. cbv beta.
  split; [exact Py|].
  intros e f m1 m2 He Hf Hm mv.
  pose proof (parse_year_month a b c d x y z w Ha Hb Hc Hd Hy e f m1 m2
                He Hf Hm) as Pm.
  cbv zeta beta in Pm. subst mv.
  split; [exact Pm|].
  intros g h d1 d2 Hg Hh Hday dv full.
  pose proof (parse_full_date a b c d x y z w Ha Hb Hc Hd Hy e f m1 m2 He Hf Hm
                g h d1 d2 Hg Hh Hday) as Pf.
  cbv zeta beta in Pf. subst dv full.
  split; [exact Pf|].
  intros self. unfold DeduplicatorV2.dates_are_close.
  rewrite Py, Pf.
  cbv zeta. unfold PyDatetime.sub_days, PyDatetime.toordinal.
  cbn [PyDatetime.year PyDatetime.month PyDatetime.day].
  pose proof (days_before_month_nonneg
                (1000 * x + 100 * y + 10 * z + w) (10 * m1 + m2) Hm) as Hnn.
  change (PyDatetime.days_before_month (1000 * x + 100 * y + 10 * z + w) 1)
    with 0.
  f_equal. lia.
Qed.

(** X9 at the texts "2021", "2021-06" and "2021-06-15". *)
Lemma X9_dates_by_granularity_witness :
  DeduplicatorV2.parse_date (Some "2021"%string)
  = Some (PyDatetime.mkDatetime 2021 1 1)
  /\ DeduplicatorV2.parse_date (Some "2021-06"%string)
     = Some (PyDatetime.mkDatetime 2021 6 1)
  /\ DeduplicatorV2.parse_date (Some "2021-06-15"%string)
     = Some (PyDatetime.mkDatetime 2021 6 15)
  /\ DeduplicatorV2.dates_are_close Examples.default_dedup
       (Some "2021"%string) (Some "2021-06-15"%string) = false.
Proof.
  destruct (X9_dates_by_granularity "2" "0" "2" "1" 2 0 2 1
              eq_refl eq_refl eq_refl eq_refl) as (H1 & H2).
  { vm_compute. discriminate. }
  destruct (H2 "0" "6" 0 6 eq_refl eq_refl)%char as (H3 & H4).
  { vm_compute. split; discriminate. }
  destruct (H4 "1" "5" 1 5 eq_refl eq_refl)%char as (H5 & H6).
  { vm_compute. split; discriminate. }
  split; [exact H1 | split; [exact H3 | split; [exact H5 |]]].
  rewrite (H6 Examples.default_dedup). vm_compute. reflexivity.
Defined.

(* ================================================================== *)
(** ** Rounds demoted against duplicates counted *)

Section Demoted.
Import Models DatabaseManager DeduplicatorV2 Aux Cover Queries.

Lemma count_update (l : list FundingRound) (d o : Z) :
  let l' := update_round l d (fun r => set_duplicate r o) in
  (List.length (filter (fun r => negb (is_duplicate r)) l')
   <= List.length (filter (fun r => negb (is_duplicate r)) l)
   <= S (List.length (filter (fun r => negb (is_duplicate r)) l')))%nat.
Proof.
  induction l as [|r l IH]; simpl; [lia|].
  destruct (id r =? d); simpl.
  - destruct (is_duplicate r); simpl; lia.
  - destruct (is_duplicate r); simpl in *; lia.
Qed.

Lemma count_mark (s : Session) (d o : Z) :
  (count_unique (mark_as_duplicate s d o) <= count_unique s
   <= S (count_unique (mark_as_duplicate s d o)))%nat.
Proof.
  unfold count_unique. rewrite mark_as_duplicate_rounds. apply count_update.
Qed.

Lemma stable_count (self : t) (c0 : nat) :
  stable self (fun acc => (count_unique (fst acc) <= c0
                           <= count_unique (fst acc) + snd acc)%nat).
Proof.
  intros r1 r2 [s n] H. cbn [fst snd] in H.
  destruct (compare_pair_cases self r1 r2 s n) as [E|[E|E]]; rewrite E;
    cbn [fst snd]; [exact H| |];
    match goal with
    | |- context [mark_as_duplicate s ?d ?o] => pose proof (count_mark s d o)
    end; lia.
Qed.

Lemma count_deduplicate_company (self : t) (now : Z) (s : Session)
      (company : Company) :
  (count_unique (fst (deduplicate_company self now s company)) <= count_unique s
   <= count_unique (fst (deduplicate_company self now s company))
      + snd (deduplicate_company self now s company))%nat.
Proof.
  unfold deduplicate_company.
  destruct (get_processing_status s (company_pk company)) as [s1 st] eqn:E.
  apply get_processing_status_found in E as (_ & Hr & _).
  assert (H1 : count_unique s1 = count_unique s)
    by (unfold count_unique; now rewrite Hr).
  destruct (stage4_merged st); [cbn [fst snd]; lia|].
  destruct (Nat.leb _ 1); cbn [fst snd].
  - unfold count_unique in *.
    rewrite (proj1 (update_stage4_status_rounds now s1 _ _ true)). lia.
  - rewrite pair_loop_pairs_from.
    pose proof (pairs_stable self _ (company_rounds s1 (company_pk company))
                  (s1, 0%nat) (stable_count self (count_unique s1))) as H.
    cbn [fst snd] in H. specialize (H ltac:(lia)).
    destruct (pairs_from self _ (s1, 0%nat)) as [s2 found].
    cbn [fst snd] in *. unfold count_unique in *.
    rewrite (proj1 (update_stage4_status_rounds now s2 _ _ true)). lia.
Qed.

Lemma count_dedup_loop (self : t) (now : nat -> Z) (cids : list Z) :
  forall (i : nat) (s s' : Session) (total n : nat),
    dedup_loop self now i cids s total = Some (s', n) ->
    (count_unique s' <= count_unique s
     /\ count_unique s + total <= count_unique s' + n)%nat.
Proof.
  induction cids as [|cid rest IH]; intros i s s' total n; simpl.
  - intros H; inversion H; subst. lia.
  - destruct (first_round_company s cid) as [company|]; [|discriminate].
    pose proof (count_deduplicate_company self (now i) s company) as Hc.
    destruct (deduplicate_company self (now i) s company) as [s1 d].
    cbn [fst snd] in Hc. intros H. apply IH in H. lia.
Qed.

End Demoted.

(** X10.  In the statistics of [deduplicate_all], [unique_rounds] is
    what [get_all_rounds] (duplicates excluded) returns afterwards and
    [total_rounds] what it returns with duplicates included; the number
    of rounds demoted by the run, i.e. the non-duplicate rounds before
    it less [unique_rounds], is never negative and never more than
    [duplicates_removed], which counts pairs. *)
Theorem X10_statistics_bound_demotions :
  forall (self : DeduplicatorV2.t) (now : nat -> Z) (s s' : Models.Session)
         (st : DeduplicatorV2.Stats),
    DeduplicatorV2.deduplicate_all self now s = Some (s', st) ->
    DeduplicatorV2.unique_rounds st
    = List.length (Queries.get_all_rounds s' true)
    /\ DeduplicatorV2.total_rounds st
       = List.length (Queries.get_all_rounds s' false)
    /\ (DeduplicatorV2.unique_rounds st
        <= List.length (Queries.get_all_rounds s true))%nat
    /\ (List.length (Queries.get_all_rounds s true)
        <= DeduplicatorV2.unique_rounds st
           + DeduplicatorV2.duplicates_removed st)%nat
    /\ (DeduplicatorV2.unique_rounds st <= DeduplicatorV2.total_rounds st)%nat.
Proof.
  intros self now s s' st. unfold DeduplicatorV2.deduplicate_all.
  destruct (DeduplicatorV2.dedup_loop self now 1 _ s 0) as [[s1 n]|] eqn:E;
    [|discriminate].
  intros H; inversion H; subst. clear H.
  apply count_dedup_loop in E as [H1 H2].
  cbn [DeduplicatorV2.unique_rounds DeduplicatorV2.total_rounds
       DeduplicatorV2.duplicates_removed].
  unfold Queries.get_all_rounds, DeduplicatorV2.count_unique in *.
  repeat split; try lia. apply filter_length_le.
Qed.

(** X10 at the session of Gamma: three rounds, two demoted, three pairs
    counted. *)
Lemma X10_statistics_bound_demotions_witness :
  (List.length (Queries.get_all_rounds Examples.gamma_session true) <= 1 + 3)%nat.
Proof.
  pose proof (X10_statistics_bound_demotions Examples.default_dedup
                (fun _ => 0) Examples.gamma_session
                (fst (DeduplicatorV2.deduplicate_company Examples.default_dedup 0
                        Examples.gamma_session Examples.gamma))
                (DeduplicatorV2.mkStats 1 3 1 3 100%float)) as H.
  destruct H as (_ & _ & _ & H & _).
  - vm_compute. reflexivity.
  - exact H.
Defined.

(* ================================================================== *)
(** ** Companies still needing stage 4 *)

Section Needing.
Import Models DatabaseManager DeduplicatorV2 Aux Cover Queries.

Lemma dedup_loop_preserved (self : t) (now : nat -> Z) (cids : list Z) :
  forall (i : nat) (s s' : Session) (total n : nat),
    dedup_loop self now i cids s total = Some (s', n) -> preserved s s'.
Proof.
  induction cids as [|cid rest IH]; intros i s s' total n; simpl.
  - intros H; inversion H; subst. apply preserved_refl.
  - destruct (first_round_company s cid) as [company|]; [|discriminate].
    pose proof (preserved_deduplicate_company self (now i) s company) as Hp.
    destruct (deduplicate_company self (now i) s company) as [s1 d].
    cbn [fst] in Hp. intros H. apply IH in H.
    now apply (preserved_trans s s1 s').
Qed.

End Needing.

(** X11.  After [deduplicate_all] has returned, the companies that
    [get_companies_needing_stage(4)] lists own no funding round: every
    company that owns a round has its stage 4 flag set.  A company
    without a status row is never listed, whatever its rounds. *)
Theorem X11_no_owner_needs_stage4 :
  forall (self : DeduplicatorV2.t) (now : nat -> Z) (s s' : Models.Session)
         (st : DeduplicatorV2.Stats),
    DeduplicatorV2.deduplicate_all self now s = Some (s', st) ->
    (forall c r,
        In c (Queries.get_companies_needing_stage4 s') ->
        In r (Models.funding_rounds s') ->
        Models.company_id r <> Models.company_pk c)
    /\ (forall c,
           DatabaseManager.find_status (Models.processing_status s')
                                       (Models.company_pk c) = None ->
           ~ In c (Queries.get_companies_needing_stage4 s')).
Proof.
  intros self now s s' st. unfold DeduplicatorV2.deduplicate_all.
  destruct (DeduplicatorV2.dedup_loop self now 1 _ s 0) as [[s1 n]|] eqn:E;
    [|discriminate].
  intros H; inversion H; subst. clear H. split.
  - intros c r Hc Hr Eq.
    unfold Queries.get_companies_needing_stage4 in Hc.
    apply filter_In in Hc as [_ Hc].
    destruct (dedup_loop_merges self now _ _ _ _ _ _ E) as [_ Hall].
    destruct (Hall (Models.company_pk c)) as (st' & Hf & Hm).
    + apply distinct_in.
      destruct (dedup_loop_preserved self now _ _ _ _ _ _ E) as [Hp _].
      rewrite (proj2 (same_payload_ids _ _ Hp)), <- Eq. now apply in_map.
    + rewrite Hf, Hm in Hc. discriminate.
  - intros c Hnone Hc.
    unfold Queries.get_companies_needing_stage4 in Hc.
    apply filter_In in Hc as [_ Hc]. rewrite Hnone in Hc. discriminate.
Qed.

(** X11 at the session of Acme: after [deduplicate_all] no company
    that owns a round is listed. *)
Lemma X11_no_owner_needs_stage4_witness :
  exists s' st,
    DeduplicatorV2.deduplicate_all Examples.default_dedup (fun _ => 0)
      Examples.acme_session = Some (s', st)
    /\ forall c r,
         In c (Queries.get_companies_needing_stage4 s') ->
         In r (Models.funding_rounds s') ->
         Models.company_id r <> Models.company_pk c.
Proof.
  destruct (DeduplicatorV2.deduplicate_all Examples.default_dedup (fun _ => 0)
              Examples.acme_session) as [[s' st]|] eqn:E.
  - exists s', st. split; [reflexivity|].
    exact (proj1 (X11_no_owner_needs_stage4 Examples.default_dedup
                    (fun _ => 0) Examples.acme_session s' st E)).
  - vm_compute in E. discriminate E.
Defined.

(* ================================================================== *)
(** ** Loading companies *)

Section Companies.
Import Models DatabaseManager Queries Tables Pipeline.

Lemma find_company_some (l : list Company) (n : string) (c : Company) :
  find_company l n = Some c -> In c l /\ name c = n.
Proof.
  unfold find_company. intros H. apply find_some in H as [Hin H].
  split; [assumption | now apply String.eqb_eq].
Qed.

Lemma find_company_none (l : list Company) (n : string) :
  find_company l n = None -> ~ In n (map name l).
Proof.
  unfold find_company. intros H Hin.
  apply in_map_iff in Hin as (c & Hc & Hin).
  apply (find_none _ _ H) in Hin. apply String.eqb_neq in Hin. contradiction.
Qed.

Lemma find_company_app (l l' : list Company) (n : string) (c : Company) :
  find_company l n = Some c -> find_company (l ++ l') n = Some c.
Proof.
  unfold find_company. induction l as [|x l IH]; simpl; [discriminate|].
  destruct (String.eqb (name x) n); [trivial | exact IH].
Qed.

Lemma find_company_snoc (l : list Company) (n : string) (k : Z) :
  find_company l n = None ->
  find_company (l ++ [mkCompany k n]) n = Some (mkCompany k n).
Proof.
  unfold find_company. induction l as [|x l IH]; simpl.
  - now rewrite String.eqb_refl.
  - destruct (String.eqb (name x) n); [discriminate | exact IH].
Qed.

Lemma NoDup_snoc {A : Type} (l : list A) (x : A) :
  NoDup l -> ~ In x l -> NoDup (l ++ [x]).
Proof.
  intros Hl Hx. apply NoDup_app; [assumption | repeat constructor; simpl; tauto |].
  intros y Hy [<-|[]]. contradiction.
Qed.

Lemma find_status_snoc (l : list ProcessingStatus) (cid : Z) :
  ~ In cid (map status_company_id l) ->
  find_status (l ++ [new_status cid]) cid = Some (new_status cid).
Proof.
  unfold find_status. induction l as [|x l IH]; simpl; intros H.
  - now rewrite Z.eqb_refl.
  - destruct (Z.eqb_spec (status_company_id x) cid) as [E|N]; [tauto|].
    apply IH. tauto.
Qed.

Lemma get_or_create_company_cases (new_id : Z) (s : Session) (n : string) :
  (exists c, find_company (companies s) n = Some c
             /\ get_or_create_company new_id s n = (s, c))
  \/ (find_company (companies s) n = None
      /\ get_or_create_company new_id s n
         = (mkSession (companies s ++ [mkCompany new_id n])
                      (funding_rounds s)
                      (processing_status s ++ [new_status new_id]),
            mkCompany new_id n)).
Proof.
  unfold get_or_create_company.
  destruct (find_company (companies s) n) as [c|]; [left; eauto | right; auto].
Qed.

Lemma well_formed_create (new_id : Z) (s : Session) (n : string) :
  well_formed s ->
  ~ In new_id (map company_pk (companies s)) ->
  find_company (companies s) n = None ->
  well_formed (mkSession (companies s ++ [mkCompany new_id n])
                         (funding_rounds s)
                         (processing_status s ++ [new_status new_id])).
Proof.
  intros (Hn & Hk & Hs & Hfk & Hall) Hnew Hfind.
  assert (Hst : ~ In new_id (map status_company_id (processing_status s))).
  { intros Hin. apply in_map_iff in Hin as (st & <- & Hin).
    apply Hnew. now apply Hfk. }
  unfold well_formed. cbn [companies processing_status].
  rewrite !map_app. cbn [map name company_pk status_company_id new_status].
  split; [|split; [|split; [|split]]].
  - apply NoDup_snoc; [assumption | now apply find_company_none].
  - now apply NoDup_snoc.
  - now apply NoDup_snoc.
  - intros st Hin. apply in_app_iff in Hin as [Hin|[<-|[]]].
    + apply in_or_app. left. now apply Hfk.
    + apply in_or_app. right. simpl. now left.
  - intros c Hin. apply in_app_iff in Hin as [Hin|[<-|[]]].
    + apply in_or_app. left. now apply Hall.
    + apply in_or_app. right. simpl. now left.
Qed.

Lemma run_stage1_invariant (next_id : list Company -> Z)
      (P : Session -> Prop) (names : list string) :
  (forall s n, P s ->
     P (fst (get_or_create_company (next_id (companies s)) s n))) ->
  forall s, P s -> P (run_stage1 next_id s names).
Proof.
  intros Hstep. unfold run_stage1.
  induction names as [|n names IH]; simpl; intros s Hs; [assumption|].
  apply IH. now apply Hstep.
Qed.

Lemma run_stage1_fixed (next_id : list Company -> Z) (names : list string) :
  forall s, (forall n, In n names -> exists c, find_company (companies s) n = Some c) ->
            run_stage1 next_id s names = s.
Proof.
  unfold run_stage1.
  induction names as [|n names IH]; simpl; intros s H; [reflexivity|].
  destruct (H n) as (c & Hc); [now left|].
  unfold get_or_create_company at 2. rewrite Hc. cbn [fst].
  apply IH. intros m Hm. apply H. now right.
Qed.

Lemma max_key_fresh (l : list Company) :
  ~ In (max_key_plus_one l) (map company_pk l).
Proof.
  unfold max_key_plus_one.
  assert (H : forall x, In x (map company_pk l) ->
                        x <= fold_right Z.max 0 (map company_pk l)).
  { induction (map company_pk l) as [|y m IH]; simpl; [tauto|].
    intros x [<-|Hx]; [lia|]. specialize (IH x Hx). lia. }
  intros Hin. apply H in Hin. lia.
Qed.

End Companies.

(** X12.  [get_or_create_company] on a database that meets the schema's
    constraints, with an unused key for the new row: the constraints
    still hold, the rounds are untouched, the company returned is in
    the table under the name asked for, and a second call with the same
    name returns the same company and changes nothing.  A company that
    the call created has its status row and is listed by
    [get_companies_needing_stage(4)]. *)
Theorem X12_get_or_create_company_once :
  forall (new_id : Z) (s s' : Models.Session) (n : string) (c : Models.Company),
    Tables.well_formed s ->
    ~ In new_id (map Models.company_pk (Models.companies s)) ->
    Tables.get_or_create_company new_id s n = (s', c) ->
    Tables.well_formed s'
    /\ Models.funding_rounds s' = Models.funding_rounds s
    /\ In c (Models.companies s')
    /\ Models.name c = n
    /\ (forall k, Tables.get_or_create_company k s' n = (s', c))
    /\ (In c (Models.companies s)
        \/ In c (Queries.get_companies_needing_stage4 s')).
Proof.
  intros new_id s s' n c Hwf Hnew H.
  destruct (get_or_create_company_cases new_id s n)
    as [(c0 & Hf & E)|(Hf & E)]; rewrite E in H; inversion H; subst; clear H.
  - destruct (find_company_some _ _ _ Hf) as [Hin Hname].
    split; [assumption|]. split; [reflexivity|]. split; [assumption|].
    split; [assumption|]. split; [|now left].
    intros k. unfold Tables.get_or_create_company. now rewrite Hf.
  - split; [now apply well_formed_create|].
    split; [reflexivity|]. cbn [Models.companies Models.name].
    split; [apply in_or_app; right; simpl; now left|].
    split; [reflexivity|].
    split.
    + intros k. unfold Tables.get_or_create_company.
      cbn [Models.companies]. now rewrite (find_company_snoc _ _ _ Hf).
    + right. unfold Queries.get_companies_needing_stage4.
      apply filter_In. cbn [Models.companies Models.processing_status
                             Models.company_pk].
      split; [apply in_or_app; right; simpl; now left|].
      rewrite find_status_snoc; [reflexivity|].
      destruct Hwf as (_ & _ & _ & Hfk & _).
      intros Hin. apply in_map_iff in Hin as (st & <- & Hin).
      apply Hnew. now apply Hfk.
Qed.

(** X12 on the empty database, key 1 and the name Acme. *)
Lemma X12_get_or_create_company_once_witness :
  Tables.well_formed
    (fst (Tables.get_or_create_company 1 (Models.mkSession [] [] []) "Acme"))
  /\ forall k,
       Tables.get_or_create_company k
         (fst (Tables.get_or_create_company 1 (Models.mkSession [] [] []) "Acme"))
         "Acme"
       = Tables.get_or_create_company 1 (Models.mkSession [] [] []) "Acme".
Proof.
  assert (Hwf : Tables.well_formed (Models.mkSession [] [] [])).
  { unfold Tables.well_formed. simpl.
    repeat split; try constructor; intros ? []. }
  assert (Hnew : ~ In 1 (map Models.company_pk
                           (Models.companies (Models.mkSession [] [] [])))).
  { simpl. tauto. }
  destruct (X12_get_or_create_company_once 1 (Models.mkSession [] [] [])
              _ "Acme" _ Hwf Hnew eq_refl) as (H1 & _ & _ & _ & H2 & _).
  split; [exact H1 | exact H2].
Defined.

(** X13.  [run_stage1] on a database that meets the schema's
    constraints, when the database never assigns a key in use: the
    constraints still hold, the rows of [companies] that were there stay
    in place and the rounds are untouched, every name of the list has
    its company afterwards, every added company bears a name of the
    list, and loading the same list again changes nothing. *)
Theorem X13_run_stage1_loads_each_name_once :
  forall (next_id : list Models.Company -> Z) (s : Models.Session)
         (names : list string),
    (forall l, ~ In (next_id l) (map Models.company_pk l)) ->
    Tables.well_formed s ->
    let s' := Pipeline.run_stage1 next_id s names in
    Tables.well_formed s'
    /\ Models.funding_rounds s' = Models.funding_rounds s
    /\ (exists added,
           Models.companies s' = (Models.companies s ++ added)%list
           /\ forall c, In c added -> In (Models.name c) names)
    /\ (forall n, In n names ->
          exists c, Tables.find_company (Models.companies s') n = Some c)
    /\ Pipeline.run_stage1 next_id s' names = s'.
Proof.
  intros next_id s names Hfresh Hwf s'.
  assert (Hall : forall n, In n names ->
            exists c, Tables.find_company (Models.companies s') n = Some c).
  { subst s'. clear Hwf. revert s. unfold Pipeline.run_stage1.
    induction names as [|m names IH]; simpl; intros s n Hn; [tauto|].
    set (s1 := fst (Tables.get_or_create_company _ s m)).
    destruct Hn as [<-|Hn]; [|now apply IH].
    assert (H1 : exists c, Tables.find_company (Models.companies s1) m = Some c).
    { subst s1.
      destruct (get_or_create_company_cases
                  (next_id (Models.companies s)) s m)
        as [(c0 & Hf & E)|(Hf & E)]; rewrite E; cbn [fst].
      - eauto.
      - cbn [Models.companies]. rewrite (find_company_snoc _ _ _ Hf). eauto. }
    clear IH. revert H1.
    apply (run_stage1_invariant next_id
             (fun x => exists c,
                Tables.find_company (Models.companies x) m = Some c)).
    intros x k (c & Hc).
    destruct (get_or_create_company_cases
                (next_id (Models.companies x)) x k)
      as [(c0 & Hf & E)|(Hf & E)]; rewrite E; cbn [fst]; [eauto|].
    cbn [Models.companies]. exists c. now apply find_company_app. }
  split; [|split; [|split; [|split]]].
  - subst s'. revert Hwf. apply run_stage1_invariant. intros x n Hx.
    destruct (get_or_create_company_cases
                (next_id (Models.companies x)) x n)
      as [(c0 & Hf & E)|(Hf & E)]; rewrite E; cbn [fst]; [assumption|].
    apply well_formed_create; auto.
  - subst s'.
    apply (run_stage1_invariant next_id
             (fun x => Models.funding_rounds x = Models.funding_rounds s));
      [|reflexivity].
    intros x n Hx.
    destruct (get_or_create_company_cases
                (next_id (Models.companies x)) x n)
      as [(c0 & Hf & E)|(Hf & E)]; rewrite E; cbn [fst]; assumption.
  - subst s'. clear Hwf Hall. revert s. unfold Pipeline.run_stage1.
    induction names as [|m names IH]; simpl; intros s.
    + exists []. rewrite app_nil_r. split; [reflexivity | intros ? []].
    + set (s1 := fst (Tables.get_or_create_company _ s m)).
      destruct (IH s1) as (added & Heq & Hadded).
      assert (H1 : exists a, Models.companies s1
                             = (Models.companies s ++ a)%list
                             /\ forall c, In c a -> Models.name c = m).
      { subst s1.
        destruct (get_or_create_company_cases
                    (next_id (Models.companies s)) s m)
          as [(c0 & Hf & E)|(Hf & E)]; rewrite E; cbn [fst].
        - exists []. rewrite app_nil_r. split; [reflexivity | intros ? []].
        - cbn [Models.companies]. eexists. split; [reflexivity|].
          intros c [<-|[]]. reflexivity. }
      destruct H1 as (a & Ha & Hm).
      exists (a ++ added)%list. split.
      * rewrite Heq, Ha. now rewrite app_assoc.
      * intros c Hc. apply in_app_iff in Hc as [Hc|Hc].
        -- left. symmetry. now apply Hm.
        -- right. now apply Hadded.
  - exact Hall.
  - now apply run_stage1_fixed.
Qed.

(** X13 on the database of Acme, the list Acme, Beta, Acme and keys one
    above the largest in use: one company is added. *)
Lemma X13_run_stage1_loads_each_name_once_witness :
  Pipeline.run_stage1 Pipeline.max_key_plus_one
    (Pipeline.run_stage1 Pipeline.max_key_plus_one
       (Models.mkSession [Examples.acme] [] [Models.new_status 1])
       ["Acme"; "Beta"; "Acme"])
    ["Acme"; "Beta"; "Acme"]
  = Pipeline.run_stage1 Pipeline.max_key_plus_one
      (Models.mkSession [Examples.acme] [] [Models.new_status 1])
      ["Acme"; "Beta"; "Acme"].
Proof.
  assert (Hwf : Tables.well_formed
                  (Models.mkSession [Examples.acme] [] [Models.new_status 1])).
  { unfold Tables.well_formed. simpl.
    split; [repeat constructor; simpl; tauto|].
    split; [repeat constructor; simpl; tauto|].
    split; [repeat constructor; simpl; tauto|].
    split; intros x [<-|[]]; simpl; now left. }
  exact (proj2 (proj2 (proj2 (proj2
    (X13_run_stage1_loads_each_name_once Pipeline.max_key_plus_one
       (Models.mkSession [Examples.acme] [] [Models.new_status 1])
       ["Acme"; "Beta"; "Acme"] max_key_fresh Hwf))))).
Defined.

(* ================================================================== *)
(** ** Sources: the stored title *)

Section Titles.

Lemma length_append (a b : string) :
  String.length (a ++ b) = (String.length a + String.length b)%nat.
Proof. induction a as [|c a IH]; simpl; [reflexivity | now rewrite IH]. Qed.

Lemma length_substring (n : nat) :
  forall s, String.length (String.substring 0 n s)
            = Nat.min n (String.length s).
Proof.
  induction n as [|n IH]; intros [|c s]; simpl; try reflexivity.
  now rewrite IH.
Qed.

Lemma substring_all (n : nat) :
  forall s, (String.length s <= n)%nat -> String.substring 0 n s = s.
Proof.
  induction n as [|n IH]; intros [|c s]; simpl; intros H;
    try reflexivity; [lia|].
  rewrite IH; [reflexivity | lia].
Qed.

Lemma substring_append (n : nat) (x : string) :
  forall s, (n <= String.length s)%nat ->
            String.substring 0 n (String.substring 0 n s ++ x)
            = String.substring 0 n s.
Proof.
  induction n as [|n IH]; intros [|c s]; simpl; intros H.
  - now destruct x.
  - now destruct x.
  - lia.
  - rewrite IH; [reflexivity | lia].
Qed.

End Titles.

(** X14.  [add_source] appends one row, and the title it stores fits the
    column of 500 characters: it has at most 493 characters, it agrees
    with the title given on the first 490 characters, and a title of at
    most 490 characters is stored as given.  No title is stored when
    none is given. *)
Theorem X14_add_source_title_fits :
  forall (table : list Sources.Source) (round_id : Z) (source_type : string)
         (url title snippet llm_provider llm_model
            extraction_confidence : option string),
    let source :=
      snd (Sources.add_source table round_id source_type url title snippet
             llm_provider llm_model extraction_confidence) in
    fst (Sources.add_source table round_id source_type url title snippet
           llm_provider llm_model extraction_confidence)
    = (table ++ [source])%list
    /\ (title = None -> Sources.title source = None)
    /\ (forall t, title = Some t ->
          exists t',
            Sources.title source = Some t'
            /\ (String.length t' <= 493)%nat
            /\ String.substring 0 490 t' = String.substring 0 490 t
            /\ ((String.length t <= 490)%nat -> t' = t)).
Proof.
  intros table round_id source_type url title snippet llm_provider llm_model
         extraction_confidence source.
  split; [reflexivity|]. split.
  - intros ->. reflexivity.
  - intros t ->. subst source. unfold Sources.add_source.
    cbn [snd Sources.title].
    destruct (PyStr.truthy t && (490 <? Z.of_nat (String.length t))) eqn:E.
    + apply andb_prop in E as [_ E]. apply Z.ltb_lt in E.
      eexists. split; [reflexivity|].
      split; [|split].
      * rewrite length_append, length_substring. simpl String.length. lia.
      * apply substring_append. lia.
      * intros Hle. lia.
    + exists t. split; [reflexivity|].
      assert (Hlen : (String.length t <= 490)%nat).
      { apply andb_false_iff in E as [E|E].
        - destruct t; [simpl; lia | discriminate E].
        - apply Z.ltb_ge in E. lia. }
      split; [lia|]. split; [reflexivity | trivial].
Qed.

(** X14 at a short title: it is stored as given. *)
Lemma X14_add_source_title_fits_witness :
  Sources.title
    (snd (Sources.add_source [] 1 "WEB_SEARCH" None
            (Some "Acme raises Series A") None None None None))
  = Some "Acme raises Series A".
Proof.
  destruct (proj2 (proj2
              (X14_add_source_title_fits [] 1 "WEB_SEARCH" None
                 (Some "Acme raises Series A") None None None None))
              "Acme raises Series A" eq_refl)
    as (t' & H1 & _ & _ & H2).
  rewrite H1, H2; [reflexivity | simpl; lia].
Defined.

(* ================================================================== *)
(** ** The usage log *)

Section UsageLog.
Import Usage.

Lemma same_key_iff (p m d : string) (u : LLMUsage) :
  same_key p m d u = true <-> key u = (p, m, d).
Proof.
  unfold same_key, key. rewrite !andb_true_iff, !String.eqb_eq.
  split; [intros [[-> ->] ->]; reflexivity | intros H; inversion H; auto].
Qed.

Lemma find_usage_none (table : list LLMUsage) (p m d : string) :
  find_usage table p m d = None -> ~ In (p, m, d) (map key table).
Proof.
  unfold find_usage. intros H Hin.
  apply in_map_iff in Hin as (u & Hk & Hin).
  apply (find_none _ _ H) in Hin. apply same_key_iff in Hk. congruence.
Qed.

Lemma update_metrics_ok (u : LLMUsage) (success rate_limited : bool)
      (latency_ms : option float) (input_tokens output_tokens : Z) :
  consistent u ->
  exists u', update_metrics u success rate_limited latency_ms input_tokens
                            output_tokens = Some u'
             /\ consistent u'
             /\ key u' = key u
             /\ total_calls u' = total_calls u + 1
             /\ total_input_tokens u' = total_input_tokens u + input_tokens
             /\ total_output_tokens u' = total_output_tokens u + output_tokens.
Proof.
  intros (Ht & Hs & Hf & Hr). unfold update_metrics.
  assert (Hz : (total_calls u + 1 =? 0) = false) by (apply Z.eqb_neq; lia).
  destruct latency_ms as [l|]; [destruct (average_latency_ms u) as [a|]|];
    cbv zeta; rewrite ?Hz; eexists; (split; [reflexivity|]);
    unfold consistent, key; cbn [total_calls successful_calls failed_calls
      rate_limited_calls provider_name model_name date total_input_tokens
      total_output_tokens];
    (split; [destruct success, rate_limited; lia | auto]).
Qed.

Lemma update_usage_spec (table : list LLMUsage) (p m d : string)
      (u u' : LLMUsage) :
  find_usage table p m d = Some u -> key u' = key u ->
  map key (update_usage table p m d u') = map key table
  /\ calls (update_usage table p m d u')
     = calls table - total_calls u + total_calls u'
  /\ find_usage (update_usage table p m d u') p m d = Some u'
  /\ (forall P : LLMUsage -> Prop,
         Forall P table -> P u' -> Forall P (update_usage table p m d u'))
  /\ (forall x, In x table -> same_key p m d x = false ->
                In x (update_usage table p m d u')).
Proof.
  unfold find_usage. intros Hfind Hkey.
  assert (Hu : same_key p m d u = true) by (apply (find_some _ _ Hfind)).
  assert (Hu' : same_key p m d u' = true).
  { apply same_key_iff. rewrite Hkey. now apply same_key_iff. }
  induction table as [|x table IH]; simpl in *; [discriminate|].
  destruct (same_key p m d x) eqn:E.
  - inversion Hfind; subst x. simpl. rewrite Hu'.
    split; [now rewrite Hkey|]. split; [lia|]. split; [reflexivity|].
    split.
    + intros P HP Pu'. inversion HP; subst. now constructor.
    + intros y [<-|Hy] Hn; [congruence | now right].
  - destruct (IH Hfind) as (H1 & H2 & H3 & H4 & H5). simpl. rewrite E.
    split; [now rewrite H1|]. split; [lia|]. split; [assumption|].
    split.
    + intros P HP Pu'. inversion HP; subst. constructor; auto.
    + intros y [<-|Hy] Hn; [now left | right; auto].
Qed.

Lemma calls_snoc (table : list LLMUsage) (u : LLMUsage) :
  calls (table ++ [u]) = calls table + total_calls u.
Proof.
  unfold calls. induction table as [|x table IH]; simpl; [lia|].
  rewrite IH. lia.
Qed.

Lemma find_usage_snoc (table : list LLMUsage) (p m d : string) (u : LLMUsage) :
  find_usage table p m d = None -> same_key p m d u = true ->
  find_usage (table ++ [u]) p m d = Some u.
Proof.
  unfold find_usage. intros Hn Hu.
  induction table as [|x table IH]; simpl in *; [now rewrite Hu|].
  destruct (same_key p m d x); [discriminate | auto].
Qed.

Lemma storable_fits (u : LLMUsage) :
  consistent u ->
  storable u = true
  <-> total_calls u <= integer_max
      /\ - integer_max - 1 <= total_input_tokens u <= integer_max
      /\ - integer_max - 1 <= total_output_tokens u <= integer_max.
Proof.
  intros (Ht & Hs & Hf & Hr).
  unfold storable, in_column, integer_max.
  rewrite !andb_true_iff, !Z.leb_le. lia.
Qed.

Lemma stored_counters (u : LLMUsage) :
  (consistent u -> consistent (stored u))
  /\ key (stored u) = key u
  /\ total_calls (stored u) = total_calls u.
Proof. split; [intros H; exact H | split; reflexivity]. Qed.

End UsageLog.

(** X15.  [log_llm_usage] on a table of SQLite with one row per
    provider, model and day whose counters add up ([total_calls] is
    [successful_calls] plus [failed_calls], and [rate_limited_calls]
    lies between 0 and [total_calls]).  When the counters of the row it
    works on still fit the INTEGER columns after the call ([total_calls]
    plus one, and the two token totals with the tokens added), the call
    does not raise, the table keeps both properties, exactly one call is
    added to the calls counted, the row of the provider, model and day
    exists afterwards, and the rows of other keys are kept as they were.
    When they do not fit, the call raises and nothing is stored. *)
Theorem X15_log_llm_usage_counters_add_up :
  forall (today : string) (table : list Usage.LLMUsage)
         (provider model : string) (success rate_limited : bool)
         (latency_ms : option float) (input_tokens output_tokens : Z),
    Forall Usage.consistent table ->
    NoDup (map Usage.key table) ->
    let usage := Usage.row_for table provider model today in
    let fits :=
      Usage.total_calls usage + 1 <= Usage.integer_max
      /\ - Usage.integer_max - 1
         <= Usage.total_input_tokens usage + input_tokens
         <= Usage.integer_max
      /\ - Usage.integer_max - 1
         <= Usage.total_output_tokens usage + output_tokens
         <= Usage.integer_max in
    (fits ->
     exists table',
       Usage.log_llm_usage today table provider model success
         rate_limited latency_ms input_tokens output_tokens = Some table'
       /\ Forall Usage.consistent table'
       /\ NoDup (map Usage.key table')
       /\ Usage.calls table' = Usage.calls table + 1
       /\ (exists u, Usage.find_usage table' provider model today = Some u
                     /\ 0 < Usage.total_calls u)
       /\ (forall x, In x table ->
                     Usage.same_key provider model today x = false ->
                     In x table'))
    /\ (~ fits ->
        Usage.log_llm_usage today table provider model success
          rate_limited latency_ms input_tokens output_tokens = None).
Proof.
  intros today table provider model success rate_limited latency_ms
         input_tokens output_tokens Hc Hk usage fits.
  assert (Hu : Usage.consistent usage).
  { subst usage. unfold Usage.row_for.
    destruct (Usage.find_usage table provider model today) as [u|] eqn:Hfind.
    - unfold Usage.find_usage in Hfind. apply find_some in Hfind as [Hin _].
      now apply (proj1 (Forall_forall _ _) Hc).
    - unfold Usage.consistent. simpl. lia. }
  destruct (update_metrics_ok usage success rate_limited latency_ms
              input_tokens output_tokens Hu)
    as (u' & Hup & Hu' & Hkey & Htot & Hin & Hout).
  pose proof (storable_fits u' Hu') as Hst.
  rewrite Htot, Hin, Hout in Hst. fold fits in Hst.
  destruct (stored_counters u') as (Hsc & Hsk & Hstot).
  specialize (Hsc Hu'). rewrite <- Hsk in Hkey. rewrite <- Hstot in Htot.
  subst usage. unfold Usage.row_for in *. unfold Usage.log_llm_usage.
  destruct (Usage.find_usage table provider model today) as [u|] eqn:Hfind;
    rewrite Hup; split.
  - intros Hf. rewrite (proj2 Hst Hf).
    destruct (update_usage_spec table provider model today u
                (Usage.stored u') Hfind Hkey)
      as (H1 & H2 & H3 & H4 & H5).
    eexists. split; [reflexivity|].
    split; [now apply H4|]. split; [now rewrite H1|]. split; [lia|].
    split; [|exact H5].
    exists (Usage.stored u'). split; [assumption|].
    destruct Hu as (? & ? & ? & ?). lia.
  - intros Hf. destruct (Usage.storable u'); [|reflexivity].
    exfalso. apply Hf. now apply Hst.
  - intros Hf. rewrite (proj2 Hst Hf).
    eexists. split; [reflexivity|].
    split; [apply Forall_app; split; [assumption | now constructor]|].
    split.
    { rewrite map_app. simpl. apply NoDup_snoc; [assumption|].
      rewrite Hkey. now apply find_usage_none. }
    split; [rewrite calls_snoc, Htot; simpl; lia|].
    split.
    + exists (Usage.stored u'). split; [|rewrite Htot; simpl; lia].
      apply find_usage_snoc; [assumption|].
      apply same_key_iff. now rewrite Hkey.
    + intros x Hx _. apply in_or_app. now left.
  - intros Hf. destruct (Usage.storable u'); [|reflexivity].
    exfalso. apply Hf. now apply Hst.
Qed.

(** X15 at a table with one row of one call: a failed call of the same
    provider on the same day is counted in that row. *)
Lemma X15_log_llm_usage_counters_add_up_witness :
  exists table',
    Usage.log_llm_usage "2024-05-01"
      [Usage.mkLLMUsage "groq" "llama" 1 1 0 0 0 0 (Some 120%float)
         (Some 120%float) (Some 120%float) "2024-05-01"]
      "groq" "llama" false false (Some 80%float) 0 0 = Some table'
    /\ Usage.calls table' = 2.
Proof.
  destruct (proj1 (X15_log_llm_usage_counters_add_up "2024-05-01"
              [Usage.mkLLMUsage "groq" "llama" 1 1 0 0 0 0 (Some 120%float)
                 (Some 120%float) (Some 120%float) "2024-05-01"]
              "groq" "llama" false false (Some 80%float) 0 0
              ltac:(repeat constructor; simpl; lia)
              ltac:(repeat constructor; simpl; tauto)))
    as (table' & H1 & _ & _ & H2 & _).
  - vm_compute. repeat split; discriminate.
  - exists table'. split; [exact H1 | exact H2].
Defined.

(* ================================================================== *)
(** ** Rotation of the SEC user agents *)

Section Rotation.
Import SECCollector.

Lemma init_nonempty (getenv : string -> option string)
      (sec_user_agents : list (string * string)) :
  user_agents (init getenv sec_user_agents) <> []
  /\ current_agent_index (init getenv sec_user_agents) = 0%nat.
Proof.
  unfold init. cbn [user_agents current_agent_index].
  split; [|reflexivity].
  destruct (env_agents getenv) as [|a l]; cbn [is_empty].
  - destruct (map _ sec_user_agents) as [|b m]; cbn [is_empty]; discriminate.
  - discriminate.
Qed.

Lemma next_agents_spec (k : nat) :
  forall self,
    (current_agent_index self < List.length (user_agents self))%nat ->
    exists agents self',
      next_agents k self = Some (agents, self')
      /\ List.length agents = k
      /\ user_agents self' = user_agents self
      /\ current_agent_index self'
         = ((current_agent_index self + k)
              mod List.length (user_agents self))%nat
      /\ forall j, (j < k)%nat ->
           nth_error agents j
           = nth_error (user_agents self)
               ((current_agent_index self + j)
                  mod List.length (user_agents self))%nat.
Proof.
  induction k as [|k IH]; intros self Hlt.
  - exists [], self. split; [reflexivity|]. split; [reflexivity|].
    split; [reflexivity|]. split; [|intros j Hj; lia].
    rewrite Nat.add_0_r. symmetry. now apply Nat.mod_small.
  - cbn [next_agents]. unfold get_next_user_agent.
    destruct (nth_error (user_agents self) (current_agent_index self))
      as [agent|] eqn:E; [|apply nth_error_None in E; lia].
    set (n := List.length (user_agents self)) in *.
    set (self1 := mkSECCollectorV2 (user_agents self)
                    ((current_agent_index self + 1) mod n)%nat).
    assert (Hn : n <> 0%nat) by lia.
    destruct (IH self1) as (agents & self' & -> & Hlen & Hua & Hidx & Hnth).
    { subst self1. cbn [current_agent_index user_agents]. fold n.
      now apply Nat.mod_upper_bound. }
    subst self1. cbn [current_agent_index user_agents] in *. fold n in Hidx, Hnth.
    exists (agent :: agents), self'. split; [reflexivity|].
    split; [simpl; now rewrite Hlen|]. split; [assumption|]. split.
    + rewrite Hidx, Nat.Div0.add_mod_idemp_l. f_equal. lia.
    + intros [|j] Hj.
      * simpl. rewrite Nat.add_0_r, Nat.mod_small by assumption.
        now symmetry.
      * simpl. rewrite Hnth by lia.
        rewrite Nat.Div0.add_mod_idemp_l. do 2 f_equal. lia.
Qed.

End Rotation.

(** X16.  A collector as [__init__] builds it has at least one user
    agent, and any number of calls of [get_next_user_agent] succeeds:
    no index is out of range, the agents are never changed, and call
    number [j] (from 0) returns the agent at position [j] modulo the
    number of agents, so each agent serves once in every round of
    calls. *)
Theorem X16_user_agents_rotate :
  forall (getenv : string -> option string)
         (sec_user_agents : list (string * string)) (k : nat),
    let self := SECCollector.init getenv sec_user_agents in
    let n := List.length (SECCollector.user_agents self) in
    (0 < n)%nat
    /\ exists agents self',
         SECCollector.next_agents k self = Some (agents, self')
         /\ List.length agents = k
         /\ SECCollector.user_agents self' = SECCollector.user_agents self
         /\ SECCollector.current_agent_index self' = (k mod n)%nat
         /\ forall j, (j < k)%nat ->
              nth_error agents j
              = nth_error (SECCollector.user_agents self) (j mod n)%nat.
Proof.
  intros getenv sec_user_agents k self n.
  destruct (init_nonempty getenv sec_user_agents) as [Hne H0].
  fold self in Hne, H0.
  assert (Hn : (0 < n)%nat).
  { subst n. destruct (SECCollector.user_agents self); [congruence | simpl; lia]. }
  split; [assumption|].
  destruct (next_agents_spec k self) as (agents & self' & H1 & H2 & H3 & H4 & H5).
  { rewrite H0. exact Hn. }
  exists agents, self'. rewrite H0 in H4, H5. simpl in H4, H5.
  repeat (split; [assumption|]). exact H5.
Qed.

(** X16 with two accounts in the environment and three calls: the third
    call returns the first account again. *)
Lemma X16_user_agents_rotate_witness :
  exists agents self',
    SECCollector.next_agents 3
      (SECCollector.init
         (fun k => if String.eqb k "SEC_USER_AGENT_2" then Some " Ann a@x.org "
                   else if String.eqb k "SEC_USER_AGENT_5" then Some "Bob b@x.org"
                   else None) [])
    = Some (agents, self')
    /\ nth_error agents 2
       = Some (SECCollector.mkSECUserAgent "Account 2" "Ann a@x.org").
Proof.
  destruct (X16_user_agents_rotate
              (fun k => if String.eqb k "SEC_USER_AGENT_2" then Some " Ann a@x.org "
                        else if String.eqb k "SEC_USER_AGENT_5" then Some "Bob b@x.org"
                        else None) [] 3)
    as (_ & agents & self' & H1 & _ & _ & _ & H2).
  exists agents, self'. split; [exact H1|].
  rewrite (H2 2%nat) by lia. vm_compute. reflexivity.
Defined.

(* ================================================================== *)
(** ** Survivors of a whole stage *)

Section StageSurvivors.
Import Models DatabaseManager DeduplicatorV2 Aux Cover Queries.

Lemma Forall2_partner_r {A B} (R : A -> B -> Prop) (l0 : list A) (l : list B)
      (b : B) :
  Forall2 R l0 l -> In b l -> exists a, In a l0 /\ R a b.
Proof.
  induction 1 as [|a0 b0 l0 l H0 _ IH]; simpl; [tauto|].
  intros [<-|Hin]; [exists a0; auto|].
  destruct (IH Hin) as (a & Ha & Hr). exists a; auto.
Qed.

(** A run flags rounds and unflags none, and leaves every company that
    had a round to show with one. *)
Lemma run_survivors (self : t) (now : Z) (s : Session) (company : Company)
      (cid : Z) :
  unique_ids s ->
  (forall r, In r (company_rounds (fst (deduplicate_company self now s company)) cid) ->
             In r (company_rounds s cid))
  /\ (company_rounds s cid <> [] ->
      company_rounds (fst (deduplicate_company self now s company)) cid <> []).
Proof.
  intros U.
  pose proof (deduplicate_company_traced self now s company U) as Ht.
  set (s1 := fst (deduplicate_company self now s company)) in *.
  set (L := company_rounds s (company_pk company)) in *.
  destruct (company_rounds_loaded s (company_pk company) U) as [HN HL].
  fold L in HN, HL.
  split.
  - intros r Hr. apply in_company_rounds in Hr as (Hin & Hc & Hd).
    destruct (Forall2_partner_r _ _ _ r Ht Hin) as (r0 & Hr0 & Hdem).
    destruct Hdem as [->|(_ & w & _ & _ & ->)].
    + apply in_company_rounds. auto.
    + discriminate Hd.
  - intros Hne.
    assert (Hex : exists m, In m (company_rounds s1 cid)).
    { destruct (Z.eq_dec cid (company_pk company)) as [->|Hc].
      - fold L in Hne.
        destruct (max_exists (fun r => rank L (id r)) L Hne) as (m & Hm & Hmax).
        exists m.
        destruct (Forall2_partner _ _ _ m Ht (proj1 (HL m Hm)))
          as (r & Hr & Hdem).
        destruct Hdem as [->|(_ & w & Hw & Hrk & _)].
        + apply in_company_rounds.
          apply in_company_rounds in Hm as (_ & Hc & Hd). auto.
        + specialize (Hmax w Hw). cbv beta in Hmax. lia.
      - destruct (company_rounds s cid) as [|m l] eqn:E; [congruence|].
        assert (Hm : In m (company_rounds s cid)) by (rewrite E; now left).
        exists m. apply in_company_rounds in Hm as (Hin & Hcid & Hd).
        destruct (Forall2_partner _ _ _ m Ht Hin) as (r & Hr & Hdem).
        destruct Hdem as [->|(HinL & _)].
        + apply in_company_rounds. auto.
        + apply HL in HinL as [_ HinL]. congruence. }
    destruct Hex as (m & Hm). intros E. rewrite E in Hm. exact Hm.
Qed.

Lemma run_unique (self : t) (now : Z) (s : Session) (company : Company) :
  unique_ids s -> unique_ids (fst (deduplicate_company self now s company)).
Proof.
  unfold unique_ids.
  destruct (preserved_deduplicate_company self now s company) as [Hp _].
  now rewrite (proj1 (same_payload_ids _ _ Hp)).
Qed.

Lemma dedup_loop_survivors (self : t) (now : nat -> Z) (cid : Z)
      (cids : list Z) :
  forall (i : nat) (s s' : Session) (total n : nat),
    unique_ids s ->
    dedup_loop self now i cids s total = Some (s', n) ->
    (forall r, In r (company_rounds s' cid) -> In r (company_rounds s cid))
    /\ (company_rounds s cid <> [] -> company_rounds s' cid <> []).
Proof.
  induction cids as [|c rest IH]; intros i s s' total n U; simpl.
  - intros H; inversion H; subst. auto.
  - destruct (first_round_company s c) as [company|]; [|discriminate].
    pose proof (run_survivors self (now i) s company cid U) as [H1 H2].
    pose proof (run_unique self (now i) s company U) as U1.
    destruct (deduplicate_company self (now i) s company) as [s1 d].
    cbn [fst] in *. intros H.
    destruct (IH _ _ _ _ _ U1 H) as [H3 H4]. split; auto.
Qed.

End StageSurvivors.

(** X17.  With distinct primary keys, [deduplicate_all] removes no
    company from the results: the rounds that
    [get_rounds_for_company(company_id)] returns afterwards are rounds
    that it returned before, unchanged, and a company for which it
    returned a round before still has one. *)
Theorem X17_deduplicate_all_keeps_every_company :
  forall (self : DeduplicatorV2.t) (now : nat -> Z) (s s' : Models.Session)
         (st : DeduplicatorV2.Stats) (cid : Z),
    Models.unique_ids s ->
    DeduplicatorV2.deduplicate_all self now s = Some (s', st) ->
    (forall r, In r (Queries.get_rounds_for_company s' cid true) ->
               In r (Queries.get_rounds_for_company s cid true))
    /\ (Queries.get_rounds_for_company s cid true <> [] ->
        exists m, In m (Queries.get_rounds_for_company s cid true)
                  /\ In m (Queries.get_rounds_for_company s' cid true)).
Proof.
  intros self now s s' st cid U. unfold DeduplicatorV2.deduplicate_all.
  destruct (DeduplicatorV2.dedup_loop self now 1 _ s 0) as [[s1 n]|] eqn:E;
    [|discriminate].
  intros H; inversion H; subst. clear H.
  rewrite <- !company_rounds_query.
  destruct (dedup_loop_survivors self now cid _ _ _ _ _ _ U E) as [H1 H2].
  split; [exact H1|]. intros Hne. specialize (H2 Hne).
  destruct (DeduplicatorV2.company_rounds s' cid) as [|m l] eqn:El;
    [congruence|].
  exists m. split; [apply H1|]; now left.
Qed.

(** X17 at the session of Gamma, whose three records are one round. *)
Lemma X17_deduplicate_all_keeps_every_company_witness :
  exists s' st,
    DeduplicatorV2.deduplicate_all Examples.default_dedup (fun _ => 0)
      Examples.gamma_session = Some (s', st)
    /\ exists m, In m (Queries.get_rounds_for_company s' 7 true).
Proof.
  destruct (DeduplicatorV2.deduplicate_all Examples.default_dedup (fun _ => 0)
              Examples.gamma_session) as [[s' st]|] eqn:E.
  - exists s', st. split; [reflexivity|].
    assert (U : Models.unique_ids Examples.gamma_session).
    { unfold Models.unique_ids. simpl. repeat constructor; simpl; lia. }
    destruct (proj2 (X17_deduplicate_all_keeps_every_company
                       Examples.default_dedup (fun _ => 0)
                       Examples.gamma_session s' st 7 U E))
      as (m & _ & Hm).
    + vm_compute. discriminate.
    + exists m. exact Hm.
  - vm_compute in E. discriminate E.
Defined.

(* ================================================================== *)
(** ** Variables in the database settings *)

Section EnvVars.
Import Engine.

Lemma group_split (getenv : string -> option string) :
  forall body,
    (fix group (text : string) : option (string * string) :=
       match text with
       | EmptyString => None
       | String d text' =>
           if Ascii.eqb d "}"
           then Some (EmptyString, resolve_env_vars getenv text')
           else match group text' with
                | Some (var_name, after) => Some (String d var_name, after)
                | None => None
                end
       end) body
    = match split_var body with
      | Some (var_name, after) =>
          Some (var_name, resolve_env_vars getenv after)
      | None => None
      end.
Proof.
  induction body as [|d body IH]; [reflexivity|].
  cbn [split_var]. destruct (Ascii.eqb d "}"); [reflexivity|].
  rewrite IH. destruct (split_var body) as [[n a]|]; reflexivity.
Qed.

Lemma append_assoc (a b c : string) : (a ++ b) ++ c = a ++ (b ++ c).
Proof. induction a as [|x a IH]; simpl; [reflexivity | now rewrite IH]. Qed.

Lemma resolve_env_vars_eq (getenv : string -> option string) (c : ascii)
      (rest : string) :
  resolve_env_vars getenv (String c rest)
  = match match_at (String c rest) with
    | Some (var_name, after) =>
        replacer getenv var_name ++ resolve_env_vars getenv after
    | None => String c (resolve_env_vars getenv rest)
    end.
Proof.
  cbn [resolve_env_vars match_at].
  destruct (Ascii.eqb c "$"); [|destruct rest; reflexivity].
  destruct rest as [|b body]; [reflexivity|].
  destruct (Ascii.eqb b "{"); cbn [andb]; [|reflexivity].
  rewrite group_split.
  destruct (split_var body) as [[[|d n] a]|]; try reflexivity.
  unfold replacer. destruct (getenv (String d n)); [reflexivity|].
  cbn [append]. now rewrite append_assoc.
Qed.

Lemma split_var_some (body n a : string) :
  split_var body = Some (n, a) ->
  body = n ++ String "}" a /\ has_char "}" n = false.
Proof.
  revert n a. induction body as [|d body IH]; intros n a; cbn [split_var];
    [discriminate|].
  destruct (Ascii.eqb_spec d "}") as [->|Hd].
  - intros H; inversion H; subst. split; reflexivity.
  - destruct (split_var body) as [[n' a']|]; [|discriminate].
    intros H; inversion H; subst. destruct (IH n' a eq_refl) as [-> Hn].
    split; [reflexivity|]. cbn [has_char]. rewrite Hn.
    destruct (Ascii.eqb_spec d "}"); [contradiction | reflexivity].
Qed.

Lemma split_var_append (n a : string) :
  has_char "}" n = false -> split_var (n ++ String "}" a) = Some (n, a).
Proof.
  induction n as [|d n IH]; cbn [has_char append split_var]; intros H.
  - reflexivity.
  - apply orb_false_iff in H as [Hd Hn]. rewrite Hd, (IH Hn). reflexivity.
Qed.

Lemma match_at_some (value n a : string) :
  match_at value = Some (n, a) ->
  value = "${" ++ n ++ String "}" a /\ n <> "" /\ has_char "}" n = false.
Proof.
  unfold match_at. destruct value as [|c [|b body]]; try discriminate.
  destruct (Ascii.eqb_spec c "$") as [->|]; [|discriminate].
  destruct (Ascii.eqb_spec b "{") as [->|]; [|discriminate]. cbn [andb].
  destruct (split_var body) as [[[|d m] a']|] eqn:E; try discriminate.
  intros H; inversion H; subst. apply split_var_some in E as [-> Hn].
  split; [reflexivity|]. split; [discriminate | assumption].
Qed.

Lemma match_at_append (n a : string) :
  n <> "" -> has_char "}" n = false ->
  match_at ("${" ++ n ++ String "}" a) = Some (n, a).
Proof.
  intros Hne Hn. cbn [append match_at Ascii.eqb Bool.eqb andb].
  rewrite (split_var_append n a Hn).
  destruct n; [congruence | reflexivity].
Qed.

Lemma resolve_unset (getenv : string -> option string) :
  (forall k, getenv k = None) ->
  forall (fuel : nat) (value : string),
    (String.length value <= fuel)%nat -> resolve_env_vars getenv value = value.
Proof.
  intros Hnone. induction fuel as [|fuel IH]; intros [|c rest] Hlen;
    try reflexivity; [simpl in Hlen; lia|].
  rewrite resolve_env_vars_eq.
  destruct (match_at (String c rest)) as [[n a]|] eqn:E.
  - apply match_at_some in E as (E & _ & _).
    unfold replacer. rewrite Hnone, E.
    assert (Ha : (String.length a <= fuel)%nat).
    { rewrite E in Hlen. cbn [append String.length] in Hlen.
      rewrite length_append in Hlen. cbn [String.length] in Hlen. lia. }
    rewrite (IH a Ha). cbn [append]. rewrite append_assoc. reflexivity.
  - rewrite IH; [reflexivity | simpl in Hlen; lia].
Qed.

End EnvVars.

(** X18.  [resolve_env_vars]: a text without [$] is returned as it is;
    in a text that starts without [$] and continues with [${name}], for
    a non-empty name without a closing brace, the variable is replaced
    by its value (or kept as written when it is not set), the value is
    not searched for further variables, and the rest of the text is
    resolved in turn; and when no variable is set, every text is
    returned as it is. *)
Theorem X18_resolve_env_vars_substitutes :
  forall (getenv : string -> option string),
    (forall value,
        Engine.has_char "$" value = false ->
        Engine.resolve_env_vars getenv value = value)
    /\ (forall before var_name after,
           Engine.has_char "$" before = false ->
           var_name <> "" ->
           Engine.has_char "}" var_name = false ->
           Engine.resolve_env_vars getenv
             (before ++ "${" ++ var_name ++ "}" ++ after)
           = before ++ Engine.replacer getenv var_name
               ++ Engine.resolve_env_vars getenv after)
    /\ ((forall k, getenv k = None) ->
        forall value, Engine.resolve_env_vars getenv value = value).
Proof.
  intros getenv.
  assert (Hlit : forall c rest,
            Ascii.eqb c "$" = false ->
            Engine.resolve_env_vars getenv (String c rest)
            = String c (Engine.resolve_env_vars getenv rest)).
  { intros c rest Hc. rewrite resolve_env_vars_eq. unfold Engine.match_at.
    destruct rest; [reflexivity|]. rewrite Hc. reflexivity. }
  split; [|split].
  - induction value as [|c rest IH]; [reflexivity|].
    cbn [Engine.has_char]. intros H. apply orb_false_iff in H as [Hc Hr].
    rewrite Hlit by assumption. now rewrite IH.
  - intros before var_name after Hb Hne Hn.
    assert (Htail : Engine.resolve_env_vars getenv
                      ("${" ++ var_name ++ "}" ++ after)
                    = Engine.replacer getenv var_name
                        ++ Engine.resolve_env_vars getenv after).
    { change ("${" ++ var_name ++ "}" ++ after)
        with (String "$" (String "{" (var_name ++ String "}" after))).
      rewrite resolve_env_vars_eq.
      change (String "$" (String "{" (var_name ++ String "}" after)))
        with ("${" ++ var_name ++ String "}" after).
      now rewrite (match_at_append var_name after Hne Hn). }
    remember ("${" ++ var_name ++ "}" ++ after) as tail eqn:Et. clear Et.
    induction before as [|c rest IH]; [exact Htail|].
    cbn [Engine.has_char] in Hb. apply orb_false_iff in Hb as [Hc Hr].
    cbn [append]. rewrite Hlit by assumption. now rewrite (IH Hr).
  - intros Hnone value. now apply (resolve_unset getenv Hnone (String.length value)).
Qed.

(** X18 at a SQLite path with two variables, the first of them set. *)
Lemma X18_resolve_env_vars_substitutes_witness :
  Engine.resolve_env_vars
    (fun k => if String.eqb k "DATA" then Some "/srv/${x}" else None)
    ("db/" ++ "${" ++ "DATA" ++ "}" ++ "/${NAME}.db")
  = "db/" ++ "/srv/${x}" ++ "/${NAME}.db".
Proof.
  rewrite (proj1 (proj2 (X18_resolve_env_vars_substitutes
             (fun k => if String.eqb k "DATA" then Some "/srv/${x}" else None)))
             "db/" "DATA" "/${NAME}.db");
    [reflexivity | reflexivity | discriminate | reflexivity].
Defined.

(* ================================================================== *)
(** ** The result of a whole stage *)

Section StageSettled.
Import Models DatabaseManager DeduplicatorV2 Aux Cover Queries.

(** A run leaves the rounds of the other companies as they are. *)
Lemma run_other_rounds (self : t) (now : Z) (s : Session) (company : Company)
      (cid : Z) :
  unique_ids s -> cid <> company_pk company ->
  company_rounds (fst (deduplicate_company self now s company)) cid
  = company_rounds s cid.
Proof.
  intros U Hc.
  pose proof (deduplicate_company_traced self now s company U) as Ht.
  destruct (company_rounds_loaded s (company_pk company) U) as [_ HL].
  set (L := company_rounds s (company_pk company)) in *. clearbody L.
  assert (HL' : forall w, In w L -> company_id w = company_pk company)
    by (intros w Hw; now apply HL).
  clear HL U.
  unfold company_rounds. unfold traced in Ht.
  remember (funding_rounds s) as rs0 eqn:E0.
  remember (funding_rounds (fst (deduplicate_company self now s company)))
    as rs eqn:E1.
  clear E0 E1.
  induction Ht as [|r0 r l0 l Hd _ IH]; [reflexivity|].
  cbn [filter]. rewrite IH.
  destruct Hd as [->|(Hin & w & _ & _ & ->)]; [reflexivity|].
  apply HL' in Hin. cbn [set_duplicate company_id is_duplicate].
  destruct (Z.eqb_spec (company_id r0) cid) as [E|N]; [congruence|].
  reflexivity.
Qed.

Lemma dedup_loop_other (self : t) (now : nat -> Z) (cid : Z) (cids : list Z) :
  forall (i : nat) (s s' : Session) (total n : nat),
    unique_ids s -> ~ In cid cids ->
    dedup_loop self now i cids s total = Some (s', n) ->
    company_rounds s' cid = company_rounds s cid.
Proof.
  induction cids as [|c rest IH]; intros i s s' total n U Hnot; simpl.
  - intros H; inversion H; subst. reflexivity.
  - destruct (first_round_company s c) as [company|] eqn:E; [|discriminate].
    pose proof (first_round_company_key s c company E) as Hk.
    assert (Hc : cid <> company_pk company).
    { rewrite Hk. intros ->. apply Hnot. now left. }
    pose proof (run_other_rounds self (now i) s company cid U Hc) as Hr.
    pose proof (run_unique self (now i) s company U) as U1.
    destruct (deduplicate_company self (now i) s company) as [s1 d].
    cbn [fst] in *. intros H.
    rewrite (IH _ _ _ _ _ U1 (fun Hin => Hnot (or_intror Hin)) H). exact Hr.
Qed.

Lemma dedup_loop_settles (self : t) (now : nat -> Z) (cid : Z)
      (cids : list Z) :
  forall (i : nat) (s s' : Session) (total n : nat),
    NoDup cids -> In cid cids ->
    unique_ids s -> unmerged s cid ->
    dedup_loop self now i cids s total = Some (s', n) ->
    ForallOrdPairs (fun a b => are_duplicates self a b = false)
      (company_rounds s' cid).
Proof.
  induction cids as [|c rest IH]; intros i s s' total n ND Hin U Hun; simpl;
    [contradiction|].
  inversion ND as [|? ? Hnot ND']; subst.
  destruct (first_round_company s c) as [company|] eqn:E; [|discriminate].
  pose proof (first_round_company_key s c company E) as Hk.
  pose proof (run_unique self (now i) s company U) as U1.
  destruct (Z.eq_dec cid c) as [->|Hc].
  - pose proof (run_settles self (now i) s company U) as Hs.
    rewrite Hk in Hs. specialize (Hs Hun).
    destruct (deduplicate_company self (now i) s company) as [s1 d].
    cbn [fst] in *. intros H.
    now rewrite (dedup_loop_other self now c rest _ _ _ _ _ U1 Hnot H).
  - assert (Hun1 : unmerged (fst (deduplicate_company self (now i) s company))
                            cid).
    { intros st. rewrite run_keeps_other_status by congruence. apply Hun. }
    destruct (deduplicate_company self (now i) s company) as [s1 d].
    cbn [fst] in *. intros H.
    destruct Hin as [Hin|Hin]; [congruence|].
    exact (IH _ _ _ _ _ ND' Hin U1 Hun1 H).
Qed.

End StageSettled.

(** X19.  With distinct primary keys, after [deduplicate_all] the rounds
    that [get_rounds_for_company(company_id)] returns for a company
    whose stage flag was not set hold no pair, taken in query order,
    that [are_duplicates] accepts. *)
Theorem X19_deduplicate_all_leaves_no_duplicate_pair :
  forall (self : DeduplicatorV2.t) (now : nat -> Z) (s s' : Models.Session)
         (st : DeduplicatorV2.Stats) (cid : Z),
    Models.unique_ids s ->
    Cover.unmerged s cid ->
    DeduplicatorV2.deduplicate_all self now s = Some (s', st) ->
    ForallOrdPairs (fun a b => DeduplicatorV2.are_duplicates self a b = false)
      (Queries.get_rounds_for_company s' cid true).
Proof.
  intros self now s s' st cid U Hun. unfold DeduplicatorV2.deduplicate_all.
  destruct (DeduplicatorV2.dedup_loop self now 1 _ s 0) as [[s1 n]|] eqn:E;
    [|discriminate].
  intros H; inversion H; subst. clear H.
  rewrite <- company_rounds_query.
  set (cids := DeduplicatorV2.distinct
                 (map Models.company_id (Models.funding_rounds s))) in *.
  destruct (in_dec Z.eq_dec cid cids) as [Hin|Hnot].
  - exact (dedup_loop_settles self now cid cids _ _ _ _ _
             (distinct_NoDup _) Hin U Hun E).
  - rewrite (dedup_loop_other self now cid cids _ _ _ _ _ U Hnot E).
    assert (Hnil : DeduplicatorV2.company_rounds s cid = []).
    { destruct (DeduplicatorV2.company_rounds s cid) as [|r l] eqn:El;
        [reflexivity|].
      exfalso. apply Hnot. unfold cids. apply distinct_in.
      assert (Hr : In r (DeduplicatorV2.company_rounds s cid))
        by (rewrite El; now left).
      apply in_company_rounds in Hr as (Hr & <- & _). now apply in_map. }
    rewrite Hnil. constructor.
Qed.

(** X19 at the session of Gamma: one round is left for the company. *)
Lemma X19_deduplicate_all_leaves_no_duplicate_pair_witness :
  exists s' st,
    DeduplicatorV2.deduplicate_all Examples.default_dedup (fun _ => 0)
      Examples.gamma_session = Some (s', st)
    /\ ForallOrdPairs
         (fun a b =>
            DeduplicatorV2.are_duplicates Examples.default_dedup a b = false)
         (Queries.get_rounds_for_company s' 7 true).
Proof.
  destruct (DeduplicatorV2.deduplicate_all Examples.default_dedup (fun _ => 0)
              Examples.gamma_session) as [[s' st]|] eqn:E.
  - exists s', st. split; [reflexivity|].
    apply (X19_deduplicate_all_leaves_no_duplicate_pair
             Examples.default_dedup (fun _ => 0) Examples.gamma_session s' st 7).
    + unfold Models.unique_ids. simpl. repeat constructor; simpl; lia.
    + intros st0 H. vm_compute in H. discriminate H.
    + exact E.
  - vm_compute in E. discriminate E.
Defined.

(* ================================================================== *)
(** ** The ordinal of a date against the calendar counted day by day *)

Section Calendar.
Import PyDatetime.

Lemma is_leap_leap_year (y : Z) : is_leap y = Spec.leap_year y.
Proof.
  unfold is_leap, Spec.leap_year.
  destruct (Z.eqb_spec (y mod 400) 0) as [H400|H400];
    destruct (Z.eqb_spec (y mod 100) 0) as [H100|H100];
    destruct (Z.eqb_spec (y mod 4) 0) as [H4|H4];
    cbn [andb orb negb]; try reflexivity; exfalso;
    Z.div_mod_to_equations; lia.
Qed.

Lemma days_before_year_next (y : Z) :
  days_before_year (y + 1) = days_before_year y + Spec.year_length y.
Proof.
  unfold days_before_year, Spec.year_length, Spec.leap_year. cbv zeta.
  replace (y + 1 - 1) with y by lia.
  destruct (Z.eqb_spec (y mod 400) 0) as [H400|H400];
    [|destruct (Z.eqb_spec (y mod 100) 0) as [H100|H100];
      [|destruct (Z.eqb_spec (y mod 4) 0) as [H4|H4]]];
    Z.div_mod_to_equations; lia.
Qed.

Lemma days_of_years_ordinal (n : nat) :
  Spec.days_of_years n = days_before_year (Z.of_nat n + 1).
Proof.
  induction n as [|k IH]; [reflexivity|].
  change (Spec.days_of_years (S k))
    with (Spec.days_of_years k + Spec.year_length (Z.of_nat (S k))).
  replace (Z.of_nat (S k)) with (Z.of_nat k + 1) by lia.
  now rewrite IH, <- days_before_year_next.
Qed.

Lemma days_of_months_ordinal (y m : Z) :
  1 <= m <= 12 ->
  Spec.days_of_months y (Z.to_nat (m - 1)) = days_before_month y m.
Proof.
  intros Hm. unfold days_before_month. rewrite is_leap_leap_year.
  assert (H : m = 1 \/ m = 2 \/ m = 3 \/ m = 4 \/ m = 5 \/ m = 6 \/ m = 7
              \/ m = 8 \/ m = 9 \/ m = 10 \/ m = 11 \/ m = 12) by lia.
  repeat (destruct H as [->|H]); try subst m;
    cbv -[Spec.leap_year]; destruct (Spec.leap_year y); reflexivity.
Qed.

(** The ordinal that [toordinal] computes in closed form is the number
    of the day in the calendar counted year by year and month by
    month. *)
Lemma toordinal_day_number (dt : datetime) :
  1 <= year dt -> 1 <= month dt <= 12 ->
  toordinal dt = Spec.day_number dt.
Proof.
  intros Hy Hm. unfold toordinal, Spec.day_number.
  rewrite days_of_years_ordinal, (days_of_months_ordinal _ _ Hm).
  do 3 f_equal. lia.
Qed.

End Calendar.

(* ================================================================== *)
(** ** Lowercasing and trimming *)

Section Normalized.


















End Normalized.

(* ================================================================== *)
(** ** The pairwise predicate against its description *)

Section Described.
Import Models PyDatetime DeduplicatorV2.

Lemma parses_as_valid (s : string) (dt : datetime) :
  Spec.parses_as s dt -> 1 <= year dt /\ 1 <= month dt <= 12.
Proof.
  intros (_ & before & f & after & _ & Hf & _).
  apply strptime_valid in Hf. lia.
Qed.

Lemma sub_days_apart (s1 s2 : string) (dt1 dt2 : datetime) :
  Spec.parses_as s1 dt1 -> Spec.parses_as s2 dt2 ->
  Z.abs (sub_days dt1 dt2) = Spec.days_apart dt1 dt2.
Proof.
  intros H1 H2. unfold sub_days, Spec.days_apart.
  destruct (parses_as_valid _ _ H1), (parses_as_valid _ _ H2).
  now rewrite !toordinal_day_number.
Qed.




End Described.


(* ================================================================== *)
(** ** Default thresholds at their boundaries *)

Section Boundaries.
Import DeduplicatorV2.

(** Two different amounts, neither of them zero: the difference is
    taken relative to the larger one and compared with [<=]. *)
Lemma amounts_are_similar_ordered (self : t) (a b : float) :
  PrimFloat.ltb a b = true ->
  PrimFloat.eqb a 0 = false -> PrimFloat.eqb b 0 = false ->
  amounts_are_similar self (Some a) (Some b)
  = PrimFloat.leb (PrimFloat.abs (b - a) / b) (amount_similarity_threshold self)
  /\ amounts_are_similar self (Some b) (Some a)
     = PrimFloat.leb (PrimFloat.abs (b - a) / b) (amount_similarity_threshold self).
Proof.
  intros Hlt Ha Hb. pose proof (ltb_asym a b Hlt) as Hgt.
  unfold amounts_are_similar, PyFloat.truthy, PyFloat.max, PyFloat.min.
  rewrite Ha, Hb, Hlt, Hgt. cbn [negb orb]. rewrite Hb. split; reflexivity.
Qed.

End Boundaries.

(** C7.  With the default thresholds: two dates that parse and lie,
    counted day by day in the calendar, exactly 90 days apart are close,
    and two that lie 91 days apart are not.  The amounts 1,000,000 and
    1,095,000 are similar and the amounts 1,000,000 and 1,150,000 are
    not, in either order.  For two different non-zero amounts the test
    is whether the difference divided by the larger one is at most the
    threshold: 900,000 and 1,000,000, which differ by exactly a tenth
    of the larger and by a ninth of the smaller, are similar. *)
Theorem C7_default_boundaries :
  let self := DeduplicatorV2.init (DeduplicatorV2.mkConfig None) in
  (forall (s1 s2 : string) (dt1 dt2 : PyDatetime.datetime),
      Spec.parses_as s1 dt1 -> Spec.parses_as s2 dt2 ->
      (Spec.days_apart dt1 dt2 = 90 ->
       DeduplicatorV2.dates_are_close self (Some s1) (Some s2) = true)
      /\ (Spec.days_apart dt1 dt2 = 91 ->
          DeduplicatorV2.dates_are_close self (Some s1) (Some s2) = false))
  /\ (forall a b : float,
         PrimFloat.ltb a b = true ->
         PrimFloat.eqb a 0 = false -> PrimFloat.eqb b 0 = false ->
         DeduplicatorV2.amounts_are_similar self (Some a) (Some b)
         = PrimFloat.leb (PrimFloat.abs (b - a) / b) (10 / 100)
         /\ DeduplicatorV2.amounts_are_similar self (Some b) (Some a)
            = PrimFloat.leb (PrimFloat.abs (b - a) / b) (10 / 100))
  /\ DeduplicatorV2.amounts_are_similar self
       (Some 1000000%float) (Some 1095000%float) = true
  /\ DeduplicatorV2.amounts_are_similar self
       (Some 1095000%float) (Some 1000000%float) = true
  /\ DeduplicatorV2.amounts_are_similar self
       (Some 1000000%float) (Some 1150000%float) = false
  /\ DeduplicatorV2.amounts_are_similar self
       (Some 1150000%float) (Some 1000000%float) = false
  /\ DeduplicatorV2.amounts_are_similar self
       (Some 900000%float) (Some 1000000%float) = true
  /\ DeduplicatorV2.amounts_are_similar self
       (Some 1000000%float) (Some 900000%float) = true.
Proof.
  cbv zeta. split; [|split; [|repeat apply conj; vm_compute; reflexivity]].
  - intros s1 s2 dt1 dt2 H1 H2.
    unfold DeduplicatorV2.dates_are_close.
    rewrite (proj2 (parse_date_spec s1 dt1) H1),
            (proj2 (parse_date_spec s2 dt2) H2).
    cbv zeta. rewrite (sub_days_apart s1 s2 dt1 dt2 H1 H2).
    split; intros ->; reflexivity.
  - intros a b Hlt Ha Hb.
    exact (amounts_are_similar_ordered
             (DeduplicatorV2.init (DeduplicatorV2.mkConfig None)) a b Hlt Ha Hb).
Qed.

(** C7 at 2020-12-01 against 2021-03-01 (90 days) and 2021-03-02 (91
    days). *)
Lemma C7_default_boundaries_witness :
  DeduplicatorV2.dates_are_close
    (DeduplicatorV2.init (DeduplicatorV2.mkConfig None))
    (Some "2020-12-01"%string) (Some "2021-03-01"%string) = true
  /\ DeduplicatorV2.dates_are_close
       (DeduplicatorV2.init (DeduplicatorV2.mkConfig None))
       (Some "2020-12-01"%string) (Some "2021-03-02"%string) = false.
Proof.
  assert (P : forall s dt,
            s <> ""%string ->
            PyDatetime.strptime s (Spec.fields Spec.Full_date) = Some dt ->
            Spec.parses_as s dt).
  { intros s dt Hs Hp. split; [exact Hs|].
    exists [], Spec.Full_date,
           [Spec.Year_month; Spec.Year_only; Spec.Month_day_year;
            Spec.Day_month_year].
    split; [reflexivity|]. split; [exact Hp | intros f' []]. }
  assert (P0 : Spec.parses_as "2020-12-01" (PyDatetime.mkDatetime 2020 12 1))
    by (apply P; [discriminate | reflexivity]).
  assert (P1 : Spec.parses_as "2021-03-01" (PyDatetime.mkDatetime 2021 3 1))
    by (apply P; [discriminate | reflexivity]).
  assert (P2 : Spec.parses_as "2021-03-02" (PyDatetime.mkDatetime 2021 3 2))
    by (apply P; [discriminate | reflexivity]).
  split.
  - apply (proj1 (proj1 C7_default_boundaries _ _ _ _ P0 P1)).
    vm_compute. reflexivity.
  - apply (proj2 (proj1 C7_default_boundaries _ _ _ _ P0 P2)).
    vm_compute. reflexivity.
Defined.

(* ================================================================== *)
(** ** The loop of [deduplicate_company] as the merge rule, pair by pair *)

Section MergeRule.
Import Models DatabaseManager DeduplicatorV2 Aux Cover.

Lemma completeness_score_completeness (r : FundingRound) :
  Spec.completeness_score r = completeness r.
Proof.
  unfold Spec.completeness_score, completeness.
  assert (Hn : forall x, Spec.populated_number x = opt_float_truthy x)
    by (intros [x|]; reflexivity).
  assert (Ht : forall x, Spec.populated_text x = opt_str_truthy x)
    by (intros [[|c x]|]; reflexivity).
  rewrite (Hn (amount_raised_usd r)), (Hn (pre_money_valuation_usd r)),
    (Hn (post_money_valuation_usd r)), Ht.
  destruct (opt_float_truthy (amount_raised_usd r)),
           (opt_float_truthy (pre_money_valuation_usd r)),
           (opt_float_truthy (post_money_valuation_usd r)),
           (opt_str_truthy (lead_investor r)); reflexivity.
Qed.

(** The body of the inner loop is one application of the rule. *)
Lemma compare_pair_merge (self : t) (A B : FundingRound) (s : Session)
      (n : nat) :
  compare_pair self A B (s, n)
  = (Spec.merge self s (A, B),
     if Spec.judged self (A, B) then S n else n).
Proof.
  unfold compare_pair, Spec.merge, Spec.judged, Spec.survivor, Spec.loser,
    Spec.tier_high, is_high.
  cbn [fst snd].
  rewrite (completeness_score_completeness A),
    (completeness_score_completeness B), Nat.ltb_antisym.
  destruct (are_duplicates self A B); [|reflexivity].
  destruct (String.eqb (confidence_score A) "HIGH"),
           (String.eqb (confidence_score B) "HIGH");
    cbn [andb negb]; try reflexivity;
    destruct (Nat.leb (completeness B) (completeness A)); reflexivity.
Qed.

Lemma fold_compare_pair (self : t)
      (pairs : list (FundingRound * FundingRound)) :
  forall (s : Session) (n : nat),
    fold_left (fun acc p => compare_pair self (fst p) (snd p) acc) pairs (s, n)
    = (fold_left (Spec.merge self) pairs s,
       (n + List.length (filter (Spec.judged self) pairs))%nat).
Proof.
  induction pairs as [|[A B] pairs IH]; intros s n; cbn [fold_left filter fst snd].
  - now rewrite Nat.add_0_r.
  - rewrite compare_pair_merge.
    destruct (Spec.judged self (A, B)); rewrite IH; cbn [List.length];
      f_equal; lia.
Qed.

Lemma pairs_from_ordered (self : t) (L : list FundingRound) :
  forall acc,
    pairs_from self L acc
    = fold_left (fun acc p => compare_pair self (fst p) (snd p) acc)
                (Spec.ordered_pairs L) acc.
Proof.
  induction L as [|A rest IH]; intros acc; [reflexivity|].
  cbn [pairs_from Spec.ordered_pairs]. rewrite fold_left_app, <- IH. f_equal.
  clear IH. revert acc.
  induction rest as [|B rest IH]; intros acc; [reflexivity|].
  cbn [map fold_left fst snd]. apply IH.
Qed.

Lemma merge_rounds (self : t) (pairs : list (FundingRound * FundingRound)) :
  forall s1 s,
    funding_rounds s1 = funding_rounds s ->
    funding_rounds (fold_left (Spec.merge self) pairs s1)
    = funding_rounds (fold_left (Spec.merge self) pairs s).
Proof.
  induction pairs as [|p pairs IH]; intros s1 s H; [exact H|].
  cbn [fold_left]. apply IH. unfold Spec.merge.
  destruct (Spec.judged self p); [|exact H].
  now rewrite !mark_as_duplicate_rounds, H.
Qed.

End MergeRule.

(** C2.  On a company whose stage flag is not set, [deduplicate_company]
    takes the pairs [(A, B)] of the company's non-duplicate rounds in
    iteration order, [A] the earlier record, and applies the rule to
    each pair judged duplicate: when exactly one of the two has
    confidence HIGH that one survives, whatever the completeness scores;
    otherwise the one with the higher completeness score (the number of
    populated fields among amount raised, pre-money valuation,
    post-money valuation and lead investor) survives, and [A] on a tie.
    The rounds it leaves are those of the rule applied pair by pair, and
    it returns the number of pairs judged duplicate.  Each application
    sets the loser's [is_duplicate] and makes its reference the
    survivor, whose row is left as it was. *)
Theorem C2_merge_rule :
  forall (self : DeduplicatorV2.t) (now : Z) (s : Models.Session)
         (company : Models.Company),
    Cover.unmerged s (Models.company_pk company) ->
    let pairs :=
      Spec.ordered_pairs
        (DeduplicatorV2.company_rounds s (Models.company_pk company)) in
    Models.funding_rounds
      (fst (DeduplicatorV2.deduplicate_company self now s company))
    = Models.funding_rounds (fold_left (Spec.merge self) pairs s)
    /\ snd (DeduplicatorV2.deduplicate_company self now s company)
       = List.length (filter (Spec.judged self) pairs)
    /\ forall (st : Models.Session) (A B a0 b0 : Models.FundingRound),
         DatabaseManager.get_round (Models.funding_rounds st) (Models.id A)
         = Some a0 ->
         DatabaseManager.get_round (Models.funding_rounds st) (Models.id B)
         = Some b0 ->
         Models.id A <> Models.id B ->
         Spec.judged self (A, B) = true ->
         Spec.demoted st (Spec.merge self st (A, B))
                      (Spec.loser A B) (Spec.survivor A B).
Proof.
  intros self now s company Hun pairs.
  destruct (run_unmerged self now s company Hun) as (s1 & Hr1 & Hrs & Hn).
  rewrite pairs_from_ordered, fold_compare_pair in Hrs, Hn.
  cbn [fst snd] in Hrs, Hn. fold pairs in Hrs, Hn.
  split; [|split].
  - rewrite Hrs. now apply merge_rounds.
  - exact Hn.
  - intros st A B a0 b0 Ha Hb Hne Hj.
    unfold Spec.merge. rewrite Hj. cbn [fst snd].
    assert (Hne' : Models.id B <> Models.id A) by congruence.
    unfold Spec.loser, Spec.survivor.
    destruct (Spec.tier_high A && negb (Spec.tier_high B));
      [now apply (mark_as_duplicate_demotes st B A b0)|].
    destruct (Spec.tier_high B && negb (Spec.tier_high A));
      [now apply (mark_as_duplicate_demotes st A B a0)|].
    destruct (Nat.ltb (Spec.completeness_score A) (Spec.completeness_score B));
      [now apply (mark_as_duplicate_demotes st A B a0)
      |now apply (mark_as_duplicate_demotes st B A b0)].
Qed.

(** C2 at the three records of Gamma, of equal confidence and with
    completeness scores 2, 3 and 1: the three pairs are judged
    duplicate and settled by the scores. *)
Lemma C2_merge_rule_witness :
  Models.funding_rounds
    (fst (DeduplicatorV2.deduplicate_company Examples.default_dedup 0
            Examples.gamma_session Examples.gamma))
  = Models.funding_rounds
      (fold_left (Spec.merge Examples.default_dedup)
         [(Examples.gamma_1, Examples.gamma_2);
          (Examples.gamma_1, Examples.gamma_3);
          (Examples.gamma_2, Examples.gamma_3)]
         Examples.gamma_session)
  /\ snd (DeduplicatorV2.deduplicate_company Examples.default_dedup 0
            Examples.gamma_session Examples.gamma) = 3%nat.
Proof.
  assert (Hun : Cover.unmerged Examples.gamma_session
                  (Models.company_pk Examples.gamma)).
  { intros st H. vm_compute in H. discriminate H. }
  destruct (C2_merge_rule Examples.default_dedup 0 Examples.gamma_session
              Examples.gamma Hun) as (H1 & H2 & _).
  split; [exact H1 | exact H2].
Defined.

(* ================================================================== *)
(** ** Texts of the form YYYY-MM-DD *)

Section IsoTexts.
Import PyDatetime DeduplicatorV2.

Lemma digit_values (c : ascii) (v : Z) :
  digit c = Some v ->
  v = 0 \/ v = 1 \/ v = 2 \/ v = 3 \/ v = 4 \/ v = 5 \/ v = 6 \/ v = 7
  \/ v = 8 \/ v = 9.
Proof. intros H. apply digit_range in H. lia. Qed.

(** The month group on two digits, whatever their value and whatever
    follows them. *)
Lemma re_m_digits (e f : ascii) (m1 m2 : Z) (rest : string) :
  digit e = Some m1 -> digit f = Some m2 ->
  re_m (String e (String f rest))
  = ((if (1 <=? 10 * m1 + m2) && (10 * m1 + m2 <=? 12)
      then [(10 * m1 + m2, rest)] else [])
     ++ (if 1 <=? m1 then [(m1, String f rest)] else []))%list.
Proof.
  intros He Hf. unfold re_m, two, one, digit_in. rewrite He, Hf.
  destruct (digit_values _ _ He) as [->|[->|[->|[->|[->|[->|[->|[->|[->| ->]]]]]]]]];
    destruct (digit_values _ _ Hf) as [->|[->|[->|[->|[->|[->|[->|[->|[->| ->]]]]]]]]];
    reflexivity.
Qed.

(** The day group likewise. *)
Lemma re_d_digits (g h : ascii) (d1 d2 : Z) (rest : string) :
  digit g = Some d1 -> digit h = Some d2 ->
  re_d (String g (String h rest))
  = ((if (1 <=? 10 * d1 + d2) && (10 * d1 + d2 <=? 31)
      then [(10 * d1 + d2, rest)] else [])
     ++ (if 1 <=? d1 then [(d1, String h rest)] else []))%list.
Proof.
  intros Hg Hh. destruct (digit_not_separator _ _ Hg) as (_ & _ & Ng).
  unfold re_d, two, one, space_one, digit_in. rewrite Hg, Hh, Ng.
  destruct (digit_values _ _ Hg) as [->|[->|[->|[->|[->|[->|[->|[->|[->| ->]]]]]]]]];
    destruct (digit_values _ _ Hh) as [->|[->|[->|[->|[->|[->|[->|[->|[->| ->]]]]]]]]];
    reflexivity.
Qed.

Lemma days_in_month_length (y m : Z) :
  1 <= m <= 12 -> days_in_month y m = Spec.month_length y m.
Proof.
  intros Hm. unfold days_in_month. rewrite is_leap_leap_year.
  assert (H : m = 1 \/ m = 2 \/ m = 3 \/ m = 4 \/ m = 5 \/ m = 6 \/ m = 7
              \/ m = 8 \/ m = 9 \/ m = 10 \/ m = 11 \/ m = 12) by lia.
  repeat (destruct H as [->|H]); try subst m;
    cbv -[Spec.leap_year]; destruct (Spec.leap_year y); reflexivity.
Qed.

Lemma make_datetime_calendar (y m d : Z) :
  0 <= y <= 9999 ->
  make_datetime y m d
  = if Spec.calendar_day y m d then Some (mkDatetime y m d) else None.
Proof.
  intros Hy. unfold make_datetime, Spec.calendar_day.
  destruct (Z.leb_spec 1 y); cbn [andb]; [|reflexivity].
  replace (y <=? 9999) with true by (symmetry; apply Z.leb_le; lia).
  cbn [andb].
  destruct (Z.leb_spec 1 m); cbn [andb]; [|reflexivity].
  destruct (Z.leb_spec m 12); cbn [andb]; [|reflexivity].
  rewrite days_in_month_length by lia. reflexivity.
Qed.

Variables a b c d e f g h : ascii.
Variables x y z w m1 m2 d1 d2 : Z.
Hypothesis Ha : digit a = Some x.
Hypothesis Hb : digit b = Some y.
Hypothesis Hc : digit c = Some z.
Hypothesis Hd : digit d = Some w.
Hypothesis He : digit e = Some m1.
Hypothesis Hf : digit f = Some m2.
Hypothesis Hg : digit g = Some d1.
Hypothesis Hh : digit h = Some d2.

Let yv := 1000 * x + 100 * y + 10 * z + w.
Let mv := 10 * m1 + m2.
Let dv := 10 * d1 + d2.
Let tail := String "-" (String e (String f (String "-" (String g (String h ""))))).
Let text := String a (String b (String c (String d tail))).

Lemma iso_year : re_Y text = [(yv, tail)].
Proof. unfold re_Y, text. now rewrite Ha, Hb, Hc, Hd. Qed.

Lemma iso_year_range : 0 <= yv <= 9999.
Proof.
  pose proof (digit_range _ _ Ha). pose proof (digit_range _ _ Hb).
  pose proof (digit_range _ _ Hc). pose proof (digit_range _ _ Hd).
  unfold yv. lia.
Qed.

Ltac settle :=
  repeat match goal with
         | |- context [if ?t then _ else _] => destruct t eqn:?
         end.

Lemma month_length_range (yy m : Z) :
  1 <= m <= 12 -> 28 <= Spec.month_length yy m <= 31.
Proof.
  intros Hm.
  assert (H : m = 1 \/ m = 2 \/ m = 3 \/ m = 4 \/ m = 5 \/ m = 6 \/ m = 7
              \/ m = 8 \/ m = 9 \/ m = 10 \/ m = 11 \/ m = 12) by lia.
  repeat (destruct H as [->|H]); try subst m;
    cbv -[Spec.leap_year Z.le]; destruct (Spec.leap_year yy); lia.
Qed.

Lemma not_calendar_day (yy m dd : Z) :
  ~ (1 <= m <= 12 /\ 1 <= dd <= 31) -> Spec.calendar_day yy m dd = false.
Proof.
  intros H. destruct (Spec.calendar_day yy m dd) eqn:E; [|reflexivity].
  exfalso. apply H. unfold Spec.calendar_day in E.
  rewrite !andb_true_iff, !Z.leb_le in E.
  destruct E as ((((_ & H1) & H2) & H3) & H4).
  pose proof (month_length_range yy m (conj H1 H2)). lia.
Qed.

(** The first format. *)
Lemma iso_full :
  strptime text (Spec.fields Spec.Full_date)
  = if Spec.calendar_day yv mv dv then Some (mkDatetime yv mv dv) else None.
Proof.
  destruct (digit_not_separator _ _ Hf) as (Nf & _ & _).
  unfold strptime. cbn [Spec.fields re_match]. rewrite iso_year. unfold tail.
  cbn [flat_map app re_match gY gm gd no_groups Ascii.eqb Bool.eqb].
  rewrite (re_m_digits e f m1 m2 _ He Hf). fold mv.
  destruct ((1 <=? mv) && (mv <=? 12)) eqn:Bm.
  - assert (Hm : 1 <= mv <= 12)
      by (apply andb_true_iff in Bm; rewrite !Z.leb_le in Bm; exact Bm).
    assert (Hhead : forall l,
              flat_map
                (fun '(v, r) =>
                   re_match [Lit "-"; Dir_d] (mkGroups (Some yv) (Some v) None) r)
                (([(mv, String "-" (String g (String h "")))] ++ l)%list)
              = (flat_map
                   (fun '(v, r) =>
                      re_match [] (mkGroups (Some yv) (Some mv) (Some v)) r)
                   (re_d (String g (String h "")))
                 ++ flat_map
                      (fun '(v, r) =>
                         re_match [Lit "-"; Dir_d]
                                  (mkGroups (Some yv) (Some v) None) r) l)%list).
    { intros l. reflexivity. }
    cbn [gY gm gd]. rewrite Hhead. clear Hhead.
    rewrite (re_d_digits g h d1 d2 _ Hg Hh). fold dv.
    destruct ((1 <=? dv) && (dv <=? 31)) eqn:Bd.
    + cbn [app flat_map re_match gY gm gd default String.eqb].
      apply make_datetime_calendar, iso_year_range.
    + rewrite not_calendar_day
        by (apply andb_false_iff in Bd; rewrite !Z.leb_gt in Bd; lia).
      destruct (1 <=? d1); cbn [app flat_map re_match String.eqb];
        [reflexivity|].
      destruct (1 <=? m1); cbn [app flat_map re_match]; rewrite ?Nf;
        reflexivity.
  - rewrite not_calendar_day
      by (apply andb_false_iff in Bm; rewrite !Z.leb_gt in Bm; lia).
    destruct (1 <=? m1); cbn [app flat_map re_match]; rewrite ?Nf;
      reflexivity.
Qed.

(** The other four formats refuse the text. *)
Lemma iso_year_month : strptime text (Spec.fields Spec.Year_month) = None.
Proof.
  unfold strptime. cbn [Spec.fields re_match]. rewrite iso_year. unfold tail.
  cbn [flat_map app re_match gY gm gd no_groups Ascii.eqb Bool.eqb].
  rewrite (re_m_digits e f m1 m2 _ He Hf).
  destruct ((1 <=? 10 * m1 + m2) && (10 * m1 + m2 <=? 12));
    destruct (1 <=? m1); reflexivity.
Qed.

Lemma iso_year_only : strptime text (Spec.fields Spec.Year_only) = None.
Proof.
  unfold strptime. cbn [Spec.fields re_match]. rewrite iso_year. reflexivity.
Qed.

Lemma iso_month_first : strptime text (Spec.fields Spec.Month_day_year) = None.
Proof.
  destruct (digit_not_separator _ _ Hb) as (_ & Nb & _).
  destruct (digit_not_separator _ _ Hc) as (_ & Nc & _).
  unfold strptime, text. cbn [Spec.fields re_match].
  rewrite (re_m_digits a b x y _ Ha Hb).
  destruct ((1 <=? 10 * x + y) && (10 * x + y <=? 12));
    destruct (1 <=? x); cbn [app flat_map re_match]; rewrite ?Nb, ?Nc;
    reflexivity.
Qed.

Lemma iso_day_first : strptime text (Spec.fields Spec.Day_month_year) = None.
Proof.
  destruct (digit_not_separator _ _ Hb) as (_ & Nb & _).
  destruct (digit_not_separator _ _ Hc) as (_ & Nc & _).
  unfold strptime, text. cbn [Spec.fields re_match].
  rewrite (re_d_digits a b x y _ Ha Hb).
  destruct ((1 <=? 10 * x + y) && (10 * x + y <=? 31));
    destruct (1 <=? x); cbn [app flat_map re_match]; rewrite ?Nb, ?Nc;
    reflexivity.
Qed.

(** A text YYYY-MM-DD of digits is read exactly when it names a day of
    the calendar. *)
Lemma parse_iso :
  parse_date (Some text)
  = if Spec.calendar_day yv mv dv then Some (mkDatetime yv mv dv) else None.
Proof.
  unfold parse_date. change (PyStr.truthy text) with true. cbv iota.
  rewrite formats_accepted. cbn [map Spec.accepted_formats try_formats].
  rewrite iso_full.
  destruct (Spec.calendar_day yv mv dv); [reflexivity|].
  now rewrite iso_year_month, iso_year_only, iso_month_first, iso_day_first.
Qed.

End IsoTexts.

(** X8.  A text YYYY-MM-DD made of digits is read by [parse_date]
    exactly when it names a day of the calendar (year from 1, month 1
    to 12, day 1 to the length of that month in that year, 29 February
    only in leap years), and then as that day; otherwise no format takes
    it, and [dates_are_close] is false with it on either side.
    Whatever the text, a date that [parse_date] returns is a day of the
    calendar. *)
Theorem X8_parse_date_follows_the_calendar :
  forall (a b c d e f g h : ascii) (x y z w m1 m2 d1 d2 : Z),
    PyDatetime.digit a = Some x -> PyDatetime.digit b = Some y ->
    PyDatetime.digit c = Some z -> PyDatetime.digit d = Some w ->
    PyDatetime.digit e = Some m1 -> PyDatetime.digit f = Some m2 ->
    PyDatetime.digit g = Some d1 -> PyDatetime.digit h = Some d2 ->
    let yv := 1000 * x + 100 * y + 10 * z + w in
    let mv := 10 * m1 + m2 in
    let dv := 10 * d1 + d2 in
    let text :=
      String a (String b (String c (String d (String "-" (String e (String f
        (String "-" (String g (String h ""%string))))))))) in
    DeduplicatorV2.parse_date (Some text)
    = (if Spec.calendar_day yv mv dv
       then Some (PyDatetime.mkDatetime yv mv dv) else None)
    /\ (Spec.calendar_day yv mv dv = false ->
        forall (self : DeduplicatorV2.t) (other : option string),
          DeduplicatorV2.dates_are_close self (Some text) other = false
          /\ DeduplicatorV2.dates_are_close self other (Some text) = false)
    /\ (forall (t : option string) (dt : PyDatetime.datetime),
           DeduplicatorV2.parse_date t = Some dt ->
           Spec.calendar_day (PyDatetime.year dt) (PyDatetime.month dt)
                             (PyDatetime.day dt) = true).
Proof.
  intros a b c d e f g h x y z w m1 m2 d1 d2 Ha Hb Hc Hd He Hf Hg Hh
         yv mv dv text.
  pose proof (parse_iso a b c d e f g h x y z w m1 m2 d1 d2
                Ha Hb Hc Hd He Hf Hg Hh) as P.
  cbv zeta in P. fold yv mv dv text in P.
  split; [exact P|]. split.
  - intros Hno self other. rewrite Hno in P.
    unfold DeduplicatorV2.dates_are_close. rewrite P.
    split; [reflexivity|].
    destruct (DeduplicatorV2.parse_date other); reflexivity.
  - intros t dt H. destruct t as [s|]; [|discriminate].
    apply parse_date_spec in H as (_ & before & fmt & after & _ & Hfmt & _).
    apply strptime_valid in Hfmt as (Hy & Hm & Hday).
    rewrite days_in_month_length in Hday by exact Hm.
    unfold Spec.calendar_day.
    rewrite !andb_true_iff, !Z.leb_le. lia.
Qed.

(** X8 at 29 February of 2021 and of 2020. *)
Lemma X8_parse_date_follows_the_calendar_witness :
  DeduplicatorV2.parse_date (Some "2021-02-29"%string) = None
  /\ DeduplicatorV2.parse_date (Some "2020-02-29"%string)
     = Some (PyDatetime.mkDatetime 2020 2 29).
Proof.
  split.
  - exact (proj1 (X8_parse_date_follows_the_calendar
                    "2" "0" "2" "1" "0" "2" "2" "9" 2 0 2 1 0 2 2 9
                    eq_refl eq_refl eq_refl eq_refl
                    eq_refl eq_refl eq_refl eq_refl)).
  - exact (proj1 (X8_parse_date_follows_the_calendar
                    "2" "0" "2" "0" "0" "2" "2" "9" 2 0 2 0 0 2 2 9
                    eq_refl eq_refl eq_refl eq_refl
                    eq_refl eq_refl eq_refl eq_refl)).
Defined.
